(** * edoc: token redemption, domain gate and redirect resolution

    A shallow embedding of the request handlers of the repository
    ([api/download.js], [api/store-token.js], [api/verify-email.js],
    [utils/mongodb.js]) together with the properties that the design
    document states about them.

    Conventions of the embedding.
    - A JavaScript string is a [string]: a sequence of 8-bit code units read
      as the first 256 UTF-16 code units (Latin-1).  Text outside that range
      is outside the model.
    - A MongoDB collection is the list of its documents in insertion order;
      [findOne] returns the first match, [deleteOne] removes the first match,
      [insertOne] appends.
    - A rejected promise or thrown exception is the [Throw] result.  Every
      call site of a store or signer operation takes, from the environment of
      the request, a flag saying whether the operation fails there.
    - Clock reads and the random draw are inputs of the request.
    - A handler or function is first given as served alone, each awaited
      operation completing before anything else runs.  Where a property
      depends on what happens between two awaits, the call in flight is
      given as well, as a machine that stops at every [await]
      ([Download.step], [Admin.add_step]), together with schedules of two
      calls.
    - A request may come without a parsed body, and a property of a body
      need not be a string ([Js.value]). *)

From Stdlib Require Import String Ascii List Bool Arith NArith ZArith Lia.
From Stdlib Require Import DecimalString.
Import ListNotations.

Local Open Scope string_scope.
Local Open Scope list_scope.

(* ================================================================== *)
(** ** JavaScript primitives used by the handlers *)
(* ================================================================== *)

Module Js.

(** Results of code that may throw. *)
Inductive result (A : Type) : Type :=
| Ok (a : A)
| Throw.
Arguments Ok {A} a.
Arguments Throw {A}.

(** Truthiness of a value that is either [undefined] or a string:
    [undefined] and the empty string are falsy. *)
Definition truthy (v : option string) : bool :=
  match v with
  | None => false
  | Some EmptyString => false
  | Some (String _ _) => true
  end.

(** [a || b] on such values. *)
Definition or_else (a b : option string) : option string :=
  if truthy a then a else b.

(** [a || 'literal']. *)
Definition or_default (a : option string) (d : string) : string :=
  match a with
  | Some (String c s) => String c s
  | _ => d
  end.

(** A property of a parsed request body, as far as the handlers look at
    it: [undefined] (the property is not there), a string, or a value
    that is neither: [null], a boolean, a number, an array or an object.
    Of such a value the handlers use its truthiness and its conversion to
    a string, which can throw (an object whose [toString] is not a
    function); calling a string method on it throws, since it has none. *)
Inductive value :=
| Undefined
| Str (s : string)
| Other (is_truthy : bool) (as_text : option string).

Definition code (c : ascii) : N := N_of_ascii c.

(** [String.prototype.toLowerCase] on Latin-1 code units: A-Z and the
    accented capitals U+00C0-U+00DE (except the multiplication sign
    U+00D7) move up by 32. *)
Definition lower_char (c : ascii) : ascii :=
  let n := code c in
  if ((65 <=? n) && (n <=? 90))%N
     || ((192 <=? n) && (n <=? 222) && negb (n =? 215))%N
  then ascii_of_N (n + 32)
  else c.

Fixpoint toLowerCase (s : string) : string :=
  match s with
  | EmptyString => EmptyString
  | String c s' => String (lower_char c) (toLowerCase s')
  end.

(** [s.split(sep)] for a one-character separator. *)
Fixpoint split (sep : ascii) (s : string) : list string :=
  match s with
  | EmptyString => [EmptyString]
  | String c s' =>
      if Ascii.eqb c sep then EmptyString :: split sep s'
      else match split sep s' with
           | [] => [String c EmptyString]
           | h :: t => String c h :: t
           end
  end.

(** Array indexing: out of range is [undefined]. *)
Definition index {A} (l : list A) (i : nat) : option A := nth_error l i.

Fixpoint drop (n : nat) (s : string) : string :=
  match n, s with
  | O, _ => s
  | S _, EmptyString => EmptyString
  | S n', String _ s' => drop n' s'
  end.

(** First occurrence of [pat] in [s]: the text before it and after it. *)
Fixpoint search (pat s : string) : option (string * string) :=
  if String.prefix pat s then Some (EmptyString, drop (String.length pat) s)
  else match s with
       | EmptyString => None
       | String c s' =>
           match search pat s' with
           | Some (b, a) => Some (String c b, a)
           | None => None
           end
       end.

(** GetSubstitution of ECMAScript for a string pattern (no capture
    groups): in the replacement text, [$$] stands for a dollar sign, [$&]
    for the matched text, [$`] for the text before the match and [$'] for
    the text after it; any other dollar sign stands for itself. *)
Fixpoint getSubstitution (matched before after repl : string) : string :=
  match repl with
  | EmptyString => EmptyString
  | String c rest =>
      if Ascii.eqb c "$" then
        match rest with
        | EmptyString => String c EmptyString
        | String d r =>
            if Ascii.eqb d "$" then
              String "$" (getSubstitution matched before after r)
            else if Ascii.eqb d "&" then
              matched ++ getSubstitution matched before after r
            else if Ascii.eqb d "`" then
              before ++ getSubstitution matched before after r
            else if Ascii.eqb d "'" then
              after ++ getSubstitution matched before after r
            else String c (getSubstitution matched before after rest)
        end
      else String c (getSubstitution matched before after rest)
  end.

(** [s.replace(pat, repl)] with a string pattern: the first occurrence
    only; [s] itself when [pat] does not occur. *)
Definition replace (s pat repl : string) : string :=
  match search pat s with
  | None => s
  | Some (before, after) =>
      before ++ getSubstitution pat before after repl ++ after
  end.

Fixpoint repeat_char (c : ascii) (n : nat) : string :=
  match n with
  | O => EmptyString
  | S n' => String c (repeat_char c n')
  end.

(** [s.padStart(width, c)] with a one-character filler. *)
Definition padStart (width : nat) (c : ascii) (s : string) : string :=
  repeat_char c (width - String.length s) ++ s.

(** [n.toString()] for a non-negative integer: its decimal numeral. *)
Definition toString (n : N) : string :=
  NilZero.string_of_uint (N.to_uint n).

(** The white space class [\s], restricted to Latin-1. *)
Definition is_space (c : ascii) : bool :=
  let n := code c in
  ((9 <=? n) && (n <=? 13) || (n =? 32) || (n =? 160))%N.

(** A backtracking matcher in continuation style, one combinator per
    construct of the regular expressions used in the source. *)
Fixpoint plus_then (p : ascii -> bool) (k : string -> bool) (s : string)
  : bool :=
  match s with
  | EmptyString => false
  | String c s' => p c && (k s' || plus_then p k s')
  end.

Definition lit_then (c : ascii) (k : string -> bool) (s : string) : bool :=
  match s with
  | EmptyString => false
  | String c' s' => Ascii.eqb c' c && k s'
  end.

Definition at_end (s : string) : bool :=
  match s with
  | EmptyString => true
  | String _ _ => false
  end.

End Js.

Import Js.

(* ================================================================== *)
(** ** The document store *)
(* ================================================================== *)

Module Mongo.

(** [collection.findOne(query)]: the first document matching the query. *)
Definition findOne {A} (q : A -> bool) (c : list A) : option A :=
  List.find q c.

(** [collection.deleteOne(query)]: removes the first matching document,
    and nothing when there is none. *)
Fixpoint deleteOne {A} (q : A -> bool) (c : list A) : list A :=
  match c with
  | [] => []
  | x :: c' => if q x then c' else x :: deleteOne q c'
  end.

(** [collection.insertOne(doc)]. *)
Definition insertOne {A} (d : A) (c : list A) : list A := c ++ [d].

(** Number of documents matching a query. *)
Definition count {A} (q : A -> bool) (c : list A) : nat :=
  List.length (List.filter q c).

End Mongo.

(* ================================================================== *)
(** ** api/verify-email.js *)
(* ================================================================== *)

Module VerifyEmail.

Record EmailEntry := mkEmailEntry {
  email : string;
  timestamp : Z;
  userAgent : string;
  ip : string;
  domain : string
}.

Record DomainRecord := mkDomainRecord {
  allowed_domain : string;
  addedAt : Z;
  addedBy : string
}.

(** Completed store operations, in the order in which the store served
    them.  The journal is not a variable of the program; it records the
    order of the program's store accesses. *)
Inductive StoreOp :=
| OpInsertEmail (e : EmailEntry)
| OpFindDomain (d : string).

(** The module-level connection cache and the two collections of the
    [email-verification] database. *)
Record State := mkState {
  cachedDb : bool;
  emails : list EmailEntry;
  allowed_domains : list DomainRecord;
  journal : list StoreOp
}.

(** What one request finds in its surroundings: the clock, and whether
    each store access of the request fails. *)
Record Env := mkEnv {
  clock : Z;
  log_connect_fails : bool;
  log_insert_fails : bool;
  gate_connect_fails : bool;
  gate_find_fails : bool
}.

Record Config := mkConfig {
  env_REDIRECT_URL : option string
}.

Definition REDIRECT_URL (cfg : Config) : string :=
  or_default (env_REDIRECT_URL cfg)
    "https://{domain}.wartaterupdate.com/9e639fa927324ca2a294b73e2b58d1fc/?ext={email}".

(** *** A state monad with exceptions *)

Definition M (A : Type) : Type := State -> result A * State.

Definition ret {A} (a : A) : M A := fun st => (Ok a, st).

Definition throw {A} : M A := fun st => (Throw, st).

Definition bind {A B} (m : M A) (f : A -> M B) : M B :=
  fun st =>
    match m st with
    | (Ok a, st') => f a st'
    | (Throw, st') => (Throw, st')
    end.

(** [try { m } catch { h }]: the effects of [m] up to the throw stay. *)
Definition try_catch {A} (m : M A) (h : M A) : M A :=
  fun st =>
    match m st with
    | (Ok a, st') => (Ok a, st')
    | (Throw, st') => h st'
    end.

Definition lift {A} (r : result A) : M A := fun st => (r, st).

Notation "x <- m ;; k" := (bind m (fun x => k))
  (at level 61, m at next level, right associativity).
Notation "m ;;; k" := (bind m (fun _ => k))
  (at level 61, right associativity).

(** *** Store accesses *)

Definition connectToDatabase (fails : bool) : M unit :=
  fun st =>
    if cachedDb st then (Ok tt, st)
    else if fails then (Throw, st)
    else (Ok tt, mkState true (emails st) (allowed_domains st) (journal st)).

Definition emails_insertOne (fails : bool) (e : EmailEntry) : M unit :=
  fun st =>
    if fails then (Throw, st)
    else (Ok tt, mkState (cachedDb st) (Mongo.insertOne e (emails st))
                         (allowed_domains st)
                         (journal st ++ [OpInsertEmail e])).

Definition domains_findOne (fails : bool) (d : string)
  : M (option DomainRecord) :=
  fun st =>
    if fails then (Throw, st)
    else (Ok (Mongo.findOne (fun r => String.eqb (allowed_domain r) d)
                            (allowed_domains st)),
          mkState (cachedDb st) (emails st) (allowed_domains st)
                  (journal st ++ [OpFindDomain d])).

(** *** The functions of the source *)

Definition getDomainFromEmail (email : string) : result string :=
  match index (split "@" email) 1%nat with
  | Some d => Ok (toLowerCase d)
  | None => Throw
  end.

Definition generateCleanDomainFromEmail (email : string) : result string :=
  match index (split "@" email) 1%nat with
  | None => Throw
  | Some d =>
      let domain := toLowerCase d in
      let domainParts := split "." domain in
      let baseDomain :=
        if (1 <? List.length domainParts)%nat
        then index domainParts (List.length domainParts - 2)%nat
        else index domainParts 0%nat in
      Ok (match baseDomain with Some l => l | None => "undefined" end)
  end.

Definition generateRedirectUrl (cfg : Config) (email : string)
  : result string :=
  match generateCleanDomainFromEmail email with
  | Throw => Throw
  | Ok cleanDomain =>
      Ok (replace (replace (REDIRECT_URL cfg) "{domain}" cleanDomain)
                  "{email}" email)
  end.

Definition logEmail (env : Env) (email : string)
           (userAgent ip : option string) : M bool :=
  try_catch
    (connectToDatabase (log_connect_fails env) ;;;
     d <- lift (getDomainFromEmail email) ;;
     emails_insertOne (log_insert_fails env)
       (mkEmailEntry email (clock env)
                     (or_default userAgent "Unknown")
                     (or_default ip "Unknown") d) ;;;
     ret true)
    (ret false).

Definition isDomainAllowed (env : Env) (domain : string) : M bool :=
  try_catch
    (connectToDatabase (gate_connect_fails env) ;;;
     domainRecord <- domains_findOne (gate_find_fails env)
                                     (toLowerCase domain) ;;
     ret (match domainRecord with Some _ => true | None => false end))
    (ret false).

(** [/^[^\s@]+@[^\s@]+\.[^\s@]+$/.test(email)] *)
Definition not_space_or_at (c : ascii) : bool :=
  negb (is_space c || Ascii.eqb c "@").

Definition emailRegex_test (email : string) : bool :=
  plus_then not_space_or_at
    (lit_then "@"
       (plus_then not_space_or_at
          (lit_then "."
             (plus_then not_space_or_at at_end)))) email.

(** What the validation route reads of a request.  [body] is [None] when
    [req.body] is [undefined] or [null] (the request came without a body
    that the platform could parse), and otherwise holds the property
    [email] of the body. *)
Record Request := mkRequest {
  body : option value;
  header_user_agent : option string;
  header_x_forwarded_for : option string;
  socket_remoteAddress : option string
}.

(** The email of the request, when the body holds one that is a string. *)
Definition body_email (req : Request) : option string :=
  match body req with
  | Some (Str email) => Some email
  | _ => None
  end.

Inductive Body :=
| Message (message : string)
| Validated (message : string) (redirectUrl : string).

Inductive Response :=
| Json (status : nat) (body : Body).

(** Line 1585: [req.headers['x-forwarded-for'] || req.socket.remoteAddress]. *)
Definition ip_of (req : Request) : option string :=
  or_else (header_x_forwarded_for req) (socket_remoteAddress req).

(** [logEmail] called with a value that is not a string: once connected,
    [getDomainFromEmail] throws ([email.split] is not a function) and the
    [catch] of [logEmail] answers [false]. *)
Definition logEmail_other (env : Env) : M bool :=
  try_catch
    (connectToDatabase (log_connect_fails env) ;;;
     throw)
    (ret false).

(** The branch of [handler] that serves [POST] with no action or with
    action [validate] (the last route of the handler). *)
Definition handler (cfg : Config) (env : Env) (req : Request)
  : State -> Response * State :=
  let userAgent := header_user_agent req in
  let ip := ip_of req in
  fun st =>
    let route : M Response :=
      match body req with
      | None => throw                 (* [req.body.email] of [undefined] *)
      | Some Undefined | Some (Str EmptyString) | Some (Other false _) =>
          ret (Json 400 (Message "Please enter an email address"))
      | Some (Str email) =>
          if negb (emailRegex_test email) then
            ret (Json 400 (Message "Invalid email format"))
          else
            logEmail env email userAgent ip ;;;
            domain <- lift (getDomainFromEmail email) ;;
            allowed <- isDomainAllowed env domain ;;
            if negb allowed then
              ret (Json 400 (Message
                "Please enter your work email address for verification"))
            else
              redirectUrl <- lift (generateRedirectUrl cfg email) ;;
              ret (Json 200 (Validated "Email validated successfully"
                                       redirectUrl))
      | Some (Other true None) => throw    (* [test] converts to a string *)
      | Some (Other true (Some text)) =>
          if negb (emailRegex_test text) then
            ret (Json 400 (Message "Invalid email format"))
          else
            logEmail_other env ;;;
            throw                     (* [getDomainFromEmail(email)] *)
      end in
    match route st with
    | (Ok r, st') => (r, st')
    | (Throw, st') =>
        (Json 500 (Message
           "Unable to verify email. Please try again later."), st')
    end.

(** The requests that end in the [catch] of the route: those without a
    body, and those whose email is a truthy value that is not a string and
    that cannot be converted to a string or passes the format check once
    converted. *)
Definition unreadable (req : Request) : bool :=
  match body req with
  | None => true
  | Some (Other true None) => true
  | Some (Other true (Some text)) => emailRegex_test text
  | _ => false
  end.

(** The text on which the format check runs, when the route gets to it. *)
Definition checked_text (req : Request) : option string :=
  match body req with
  | Some (Str (String c s)) => Some (String c s)
  | Some (Other true text) => text
  | _ => None
  end.

End VerifyEmail.

(* ================================================================== *)
(** ** utils/mongodb.js and the [tokens] collection *)
(* ================================================================== *)

Module TokenDb.

Record TokenRecord := mkTokenRecord {
  token : string;
  createdAt : Z;
  expireAt : Z
}.

(** The module-level [db] handle of [utils/mongodb.js], the [tokens]
    collection of [downloads_db], and whether the index on [expireAt]
    with [expireAfterSeconds: 0] exists. *)
Record State := mkState {
  db : bool;
  tokens : list TokenRecord;
  ttl_index : bool
}.

Definition initial : State := mkState false [] false.

(** [connectToDB]: the cached handle when there is one, otherwise a new
    connection, which may fail. *)
Definition connectToDB (fails : bool) (st : State) : result State :=
  if db st then Ok st
  else if fails then Throw
  else Ok (mkState true (tokens st) (ttl_index st)).

(** The query [{ token }]. *)
Definition by_token (t : string) (r : TokenRecord) : bool :=
  String.eqb (token r) t.

(** Modelled from the spec: the expiry sweep of the backing store, which
    is not code of the repository ("the store independently removes
    records whose [expireAt] has passed").  A sweep at time [now] removes
    the records whose [expireAt] lies before [now]; it exists once the
    index on [expireAt] has been created. *)
Definition sweep (now : Z) (st : State) : State :=
  if ttl_index st
  then mkState (db st)
               (List.filter (fun r => (now <=? expireAt r)%Z) (tokens st))
               true
  else st.

End TokenDb.

(** Responses of the token endpoints. *)
Inductive Outcome :=
| Send (status : nat) (text : string)   (* res.status(n).send(text) *)
| End_ (status : nat)                   (* res.status(n).end() *)
| Redirect (location : string)          (* res.writeHead(302, { Location }) *)
| Unhandled.                            (* the handler's promise rejected *)

Definition status_of (o : Outcome) : option nat :=
  match o with
  | Send n _ => Some n
  | End_ n => Some n
  | Redirect _ => Some 302%nat
  | Unhandled => None
  end.

(* ================================================================== *)
(** ** api/store-token.js *)
(* ================================================================== *)

Module StoreToken.
Import TokenDb.

Record Env := mkEnv {
  new_Date : Z;             (* the clock read of [new Date()] *)
  Date_now : Z;             (* the clock read of [Date.now()] *)
  connect_fails : bool;
  insertOne_fails : bool;
  createIndex_fails : bool
}.

Definition handler (env : Env) (query_token : option string) (st : State)
  : Outcome * State :=
  match query_token with
  | None | Some EmptyString => (Send 400 "Missing token.", st)
  | Some t =>
      match connectToDB (connect_fails env) st with
      | Throw => (Unhandled, st)
      | Ok st1 =>
          if insertOne_fails env then (Unhandled, st1)
          else
            let doc := mkTokenRecord t (new_Date env)
                                     (Date_now env + 60 * 1000)%Z in
            let st2 := mkState (db st1)
                               (Mongo.insertOne doc (tokens st1))
                               (ttl_index st1) in
            if createIndex_fails env then (Unhandled, st2)
            else (End_ 204, mkState (db st2) (tokens st2) true)
      end
  end.

End StoreToken.

(* ================================================================== *)
(** ** api/download.js *)
(* ================================================================== *)

Module Download.
Import TokenDb.

Record GetObjectCommand := mkCommand {
  Bucket : option string;
  Key : string;
  ResponseContentDisposition : string
}.

(** The surroundings of one request: the time at which it is served
    (the handler reads the clock for its log line only), whether each
    store access fails, the value of [Math.floor(Math.random() * 10000)],
    the bucket name and the presigner, which answers a command and a
    validity in seconds with a URL or fails. *)
Record Env := mkEnv {
  clock : Z;
  connect_fails : bool;
  findOne_fails : bool;
  deleteOne_fails : bool;
  random_draw : N;
  R2_BUCKET : option string;
  getSignedUrl : GetObjectCommand -> N -> option string
}.

Definition dquote : string := String (ascii_of_nat 34) EmptyString.

Definition suffix (env : Env) : string :=
  padStart 4 "0" (toString (random_draw env)).

Definition newFileName (env : Env) : string :=
  "Acrobat_Reader_V112_" ++ suffix env ++ ".msi".

Definition command (env : Env) : GetObjectCommand :=
  mkCommand (R2_BUCKET env) "Acrobat_Reader_V112.msi"
            ("attachment; filename=" ++ dquote ++ newFileName env ++ dquote).

(** A request in flight: the operation it is waiting for.  The handler
    gives up control at each [await] and nowhere else, so these are the
    points at which other requests can run. *)
Inductive Pending :=
| AwaitConnect (token : string)       (* line 23 *)
| AwaitFindOne (token : string)       (* line 26 *)
| AwaitDeleteOne (token : string)     (* line 32 *)
| AwaitSignedUrl (token : string)     (* line 45 *)
| Done (o : Outcome).

(** Lines 16-20. *)
Definition start (query_token : option string) : Pending :=
  match query_token with
  | None | Some EmptyString => Done (Send 400 "Missing token.")
  | Some t => AwaitConnect t
  end.

(** The awaited operation completes and the handler runs to its next
    [await] or to its end. *)
Definition step (env : Env) (p : Pending) (st : State) : Pending * State :=
  match p with
  | AwaitConnect t =>
      match connectToDB (connect_fails env) st with
      | Throw => (Done Unhandled, st)
      | Ok st' => (AwaitFindOne t, st')
      end
  | AwaitFindOne t =>
      if findOne_fails env then (Done Unhandled, st)
      else match Mongo.findOne (by_token t) (tokens st) with
           | None => (Done (Send 403 "Invalid or expired token."), st)
           | Some _ => (AwaitDeleteOne t, st)
           end
  | AwaitDeleteOne t =>
      if deleteOne_fails env then (Done Unhandled, st)
      else (AwaitSignedUrl t,
            mkState (db st) (Mongo.deleteOne (by_token t) (tokens st))
                    (ttl_index st))
  | AwaitSignedUrl t =>
      match getSignedUrl env (command env) 60 with
      | None => (Done Unhandled, st)
      | Some signedUrl => (Done (Redirect signedUrl), st)
      end
  | Done o => (Done o, st)
  end.

Fixpoint steps (n : nat) (env : Env) (p : Pending) (st : State)
  : Pending * State :=
  match n with
  | O => (p, st)
  | S n' => let (p', st') := step env p st in steps n' env p' st'
  end.

Definition outcome (p : Pending) : option Outcome :=
  match p with
  | Done o => Some o
  | _ => None
  end.

(** One request served alone: its four awaits in a row. *)
Definition handler (env : Env) (query_token : option string) (st : State)
  : option Outcome * State :=
  let (p, st') := steps 4 env (start query_token) st in (outcome p, st').

(** The store serves the request: the connection is there or can be
    made, and the query does not fail. *)
Definition lookup_ok (env : Env) (st : State) : bool :=
  (db st || negb (connect_fails env)) && negb (findOne_fails env).

(** Two requests in flight at once.  A schedule says whose awaited
    operation completes next. *)
Inductive Who := First | Second.

Record Pair := mkPair {
  first : Pending;
  second : Pending;
  store : State
}.

Definition step_pair (envA envB : Env) (w : Who) (c : Pair) : Pair :=
  match w with
  | First => let (p, st) := step envA (first c) (store c) in
             mkPair p (second c) st
  | Second => let (p, st) := step envB (second c) (store c) in
              mkPair (first c) p st
  end.

Definition run_pair (envA envB : Env) (schedule : list Who) (c : Pair)
  : Pair :=
  List.fold_left (fun c w => step_pair envA envB w c) schedule c.

End Download.

(* ================================================================== *)
(** ** Requests served one after the other *)
(* ================================================================== *)

Module Flow.

(** The two databases of the deployment. *)
Record System := mkSystem {
  token_db : TokenDb.State;
  verify_db : VerifyEmail.State
}.

Inductive Event :=
| Issue (env : StoreToken.Env) (query_token : option string)
| Redeem (env : Download.Env) (query_token : option string)
| Validate (env : VerifyEmail.Env) (req : VerifyEmail.Request)
| Sweep (now : Z).

Inductive Reply :=
| TokenReply (o : option Outcome)
| ValidateReply (r : VerifyEmail.Response)
| NoReply.

Definition serve (cfg : VerifyEmail.Config) (e : Event) (s : System)
  : Reply * System :=
  match e with
  | Issue env q =>
      let (o, t) := StoreToken.handler env q (token_db s) in
      (TokenReply (Some o), mkSystem t (verify_db s))
  | Redeem env q =>
      let (o, t) := Download.handler env q (token_db s) in
      (TokenReply o, mkSystem t (verify_db s))
  | Validate env req =>
      let (r, v) := VerifyEmail.handler cfg env req (verify_db s) in
      (ValidateReply r, mkSystem (token_db s) v)
  | Sweep now =>
      (NoReply, mkSystem (TokenDb.sweep now (token_db s)) (verify_db s))
  end.

Fixpoint run (cfg : VerifyEmail.Config) (es : list Event) (s : System)
  : list Reply * System :=
  match es with
  | [] => ([], s)
  | e :: es' =>
      let (r, s1) := serve cfg e s in
      let (rs, s2) := run cfg es' s1 in
      (r :: rs, s2)
  end.

Definition is_redirect (o : option Outcome) : bool :=
  match o with
  | Some (Redirect _) => true
  | _ => false
  end.

(** A token was consumed and a signed URL handed out. *)
Definition consumed (r : Reply) : bool :=
  match r with
  | TokenReply o => is_redirect o
  | _ => false
  end.





(** The event issues the token value [t]. *)
Definition issues (t : string) (e : Event) : bool :=
  match e with
  | Issue _ (Some t') => String.eqb t' t
  | _ => false
  end.

End Flow.

(* ================================================================== *)
(** ** Notions of the design document *)
(* ================================================================== *)

Module Design.

(** Literal replacement of the first occurrence, as the design document
    words it: the replacement text is inserted as it is. *)
Definition replace_first (s pat repl : string) : string :=
  match search pat s with
  | None => s
  | Some (before, after) => before ++ repl ++ after
  end.

(** The part of an email after its [@] sign. *)
Fixpoint after_at (s : string) : string :=
  match s with
  | EmptyString => EmptyString
  | String c s' => if Ascii.eqb c "@" then s' else after_at s'
  end.

(** The zero-padded four-digit numeral of a number below 10000. *)
Definition digit (d : N) : ascii := ascii_of_N (48 + d).

Definition four_digits (n : N) : string :=
  String (digit (n / 1000))
    (String (digit ((n / 100) mod 10))
       (String (digit ((n / 10) mod 10))
          (String (digit (n mod 10)) EmptyString))).

(** Every character of the text satisfies [p]. *)
Fixpoint all_chars (p : ascii -> bool) (s : string) : bool :=
  match s with
  | EmptyString => true
  | String c s' => p c && all_chars p s'
  end.

Definition is_not (sep : ascii) (c : ascii) : bool := negb (Ascii.eqb c sep).

(** No dollar sign occurs in the text. *)
Fixpoint dollar_free (s : string) : bool :=
  match s with
  | EmptyString => true
  | String c s' => negb (Ascii.eqb c "$") && dollar_free s'
  end.

End Design.

(* ================================================================== *)
(** ** Sample data used in examples *)
(* ================================================================== *)

Module Sample.

Definition cfg : VerifyEmail.Config :=
  VerifyEmail.mkConfig (Some "https://{domain}.example.net/x?e={email}").

Definition allowlist : list VerifyEmail.DomainRecord :=
  [VerifyEmail.mkDomainRecord "example.com" 0 "system";
   VerifyEmail.mkDomainRecord "mail.acme.co" 0 "system"].

Definition verify_state : VerifyEmail.State :=
  VerifyEmail.mkState false [] allowlist [].

(** No store access fails. *)
Definition verify_env : VerifyEmail.Env :=
  VerifyEmail.mkEnv 5 false false false false.

(** The allowlist lookup fails. *)
Definition verify_env_gate_down : VerifyEmail.Env :=
  VerifyEmail.mkEnv 5 false false false true.

Definition request (email : string) : VerifyEmail.Request :=
  VerifyEmail.mkRequest (Some (Str email)) (Some "curl/8") None
                        (Some "10.0.0.1").

Definition signer (c : Download.GetObjectCommand) (validity : N)
  : option string :=
  Some ("https://r2.example/" ++ Download.Key c ++ "?X-Amz-Expires="
        ++ toString validity)%string.

Definition download_env (now : Z) : Download.Env :=
  Download.mkEnv now false false false 42 (Some "bucket") signer.

Definition issue_env (now : Z) : StoreToken.Env :=
  StoreToken.mkEnv now now false false false.

Definition system : Flow.System :=
  Flow.mkSystem TokenDb.initial verify_state.

Definition signed_url : string :=
  "https://r2.example/Acrobat_Reader_V112.msi?X-Amz-Expires=60".

End Sample.


(* ================================================================== *)
(** ** Regular expressions and text helpers of the administration code *)
(* ================================================================== *)

Module Regex.

(** Regular expressions over code units; a match is a match of the whole
    text, as with the anchors [^] and [$]. *)
Inductive re :=
| Never
| Eps
| Cls (p : ascii -> bool)
| Seq (r1 r2 : re)
| Alt (r1 r2 : re)
| Star (r : re).

Fixpoint nullable (r : re) : bool :=
  match r with
  | Never => false
  | Eps => true
  | Cls _ => false
  | Seq r1 r2 => nullable r1 && nullable r2
  | Alt r1 r2 => nullable r1 || nullable r2
  | Star _ => true
  end.

(** The derivative: what is left to match after the character [c]. *)
Fixpoint deriv (c : ascii) (r : re) : re :=
  match r with
  | Never => Never
  | Eps => Never
  | Cls p => if p c then Eps else Never
  | Seq r1 r2 =>
      if nullable r1 then Alt (Seq (deriv c r1) r2) (deriv c r2)
      else Seq (deriv c r1) r2
  | Alt r1 r2 => Alt (deriv c r1) (deriv c r2)
  | Star r1 => Seq (deriv c r1) (Star r1)
  end.

(** [/^r$/.test(s)] *)
Fixpoint test (r : re) (s : string) : bool :=
  match s with
  | EmptyString => nullable r
  | String c s' => test (deriv c r) s'
  end.

(** [r+] *)
Definition plus (r : re) : re := Seq r (Star r).

End Regex.

Module Text.

(** [String.prototype.trimStart], [trimEnd] and [trim]: the characters
    removed are those of the class [\s]. *)
Fixpoint trimStart (s : string) : string :=
  match s with
  | EmptyString => EmptyString
  | String c s' => if is_space c then trimStart s' else s
  end.

Fixpoint trimEnd (s : string) : string :=
  match s with
  | EmptyString => EmptyString
  | String c s' =>
      match trimEnd s' with
      | EmptyString => if is_space c then EmptyString else String c EmptyString
      | String d t => String c (String d t)
      end
  end.

Definition trim (s : string) : string := trimEnd (trimStart s).

Definition LF : ascii := ascii_of_nat 10.
Definition CR : ascii := ascii_of_nat 13.

Definition cons_char (c : ascii) (l : list string) : list string :=
  match l with
  | [] => [String c EmptyString]
  | h :: t => String c h :: t
  end.

(** [content.split(/\r?\n/)] *)
Fixpoint split_lines (s : string) : list string :=
  match s with
  | EmptyString => [EmptyString]
  | String c s' =>
      if Ascii.eqb c LF then EmptyString :: split_lines s'
      else if Ascii.eqb c CR then
        match s' with
        | String d s'' =>
            if Ascii.eqb d LF then EmptyString :: split_lines s''
            else cons_char c (split_lines s')
        | EmptyString => cons_char c (split_lines s')
        end
      else cons_char c (split_lines s')
  end.

End Text.

(* ================================================================== *)
(** ** api/verify-email.js: administration of the allowlist and the log *)
(* ================================================================== *)

Module Admin.

Record Config := mkConfig {
  env_ADMIN_TOKEN : option string
}.

Definition ADMIN_TOKEN (cfg : Config) : string :=
  or_default (env_ADMIN_TOKEN cfg) "admin123".

(** The surroundings of one call of an administration function: the
    clock read for the i-th document it builds, and whether its connection,
    its reading query ([findOne], [find], [countDocuments]) and its writing
    command ([insertOne], [insertMany], [deleteOne], [deleteMany]) fail.
    Each function has at most one call site of each kind. *)
Record Env := mkEnv {
  new_Date : nat -> Z;
  connect_fails : bool;
  read_fails : bool;
  write_fails : bool
}.

(** The objects that the functions return.  The fields [id] (the
    identifier chosen by the driver) and [error] (the driver's error text)
    are left out. *)
Inductive Result :=
| Plain (success : bool) (message : string)
| Exists_ (message : string)                        (* success, alreadyExists *)
| BulkAdded (message : string) (added skipped : nat) (* success *)
| Deleted (message : string) (count : nat).          (* success *)

Definition success (r : Result) : bool :=
  match r with
  | Plain b _ => b
  | _ => true
  end.

Definition has_domain (d : string) (r : VerifyEmail.DomainRecord) : bool :=
  String.eqb (VerifyEmail.allowed_domain r) d.

(** Membership in [{ $in: ds }] and in a [Set] of strings. *)
Definition mem (d : string) (ds : list string) : bool :=
  List.existsb (String.eqb d) ds.

Definition in_domains (ds : list string) (r : VerifyEmail.DomainRecord)
  : bool :=
  mem (VerifyEmail.allowed_domain r) ds.

Notation "x <- m ;; k" := (VerifyEmail.bind m (fun x => k))
  (at level 61, m at next level, right associativity).
Notation "m ;;; k" := (VerifyEmail.bind m (fun _ => k))
  (at level 61, right associativity).

(** *** Store accesses.  The journal of [VerifyEmail] follows the email
    insertions and the allowlist lookups only. *)

Definition set_domains (l : list VerifyEmail.DomainRecord)
           (st : VerifyEmail.State) : VerifyEmail.State :=
  VerifyEmail.mkState (VerifyEmail.cachedDb st) (VerifyEmail.emails st) l
                      (VerifyEmail.journal st).

Definition set_emails (l : list VerifyEmail.EmailEntry)
           (st : VerifyEmail.State) : VerifyEmail.State :=
  VerifyEmail.mkState (VerifyEmail.cachedDb st) l
                      (VerifyEmail.allowed_domains st)
                      (VerifyEmail.journal st).

Definition domains_insertOne (fails : bool) (r : VerifyEmail.DomainRecord)
  : VerifyEmail.M unit :=
  fun st =>
    if fails then (Throw, st)
    else (Ok tt,
          set_domains (Mongo.insertOne r (VerifyEmail.allowed_domains st)) st).

(** [insertMany(docs)]: the number of inserted documents. *)
Definition domains_insertMany (fails : bool)
           (rs : list VerifyEmail.DomainRecord) : VerifyEmail.M nat :=
  fun st =>
    if fails then (Throw, st)
    else (Ok (List.length rs),
          set_domains (VerifyEmail.allowed_domains st ++ rs) st).

(** [deleteOne({ domain })]: the number of deleted documents. *)
Definition domains_deleteOne (fails : bool) (d : string)
  : VerifyEmail.M nat :=
  fun st =>
    if fails then (Throw, st)
    else
      let l := VerifyEmail.allowed_domains st in
      (Ok (match Mongo.findOne (has_domain d) l with
           | Some _ => 1%nat
           | None => 0%nat
           end),
       set_domains (Mongo.deleteOne (has_domain d) l) st).

(** [find({ domain: { $in: ds } }).project({ domain: 1 }).toArray()]
    followed by [.map(d => d.domain)]. *)
Definition domains_find_in (fails : bool) (ds : list string)
  : VerifyEmail.M (list string) :=
  fun st =>
    if fails then (Throw, st)
    else (Ok (List.map VerifyEmail.allowed_domain
                (List.filter (in_domains ds)
                             (VerifyEmail.allowed_domains st))), st).

(** [deleteMany({ domain: { $in: ds } })] *)
Definition domains_deleteMany_in (fails : bool) (ds : list string)
  : VerifyEmail.M nat :=
  fun st =>
    if fails then (Throw, st)
    else
      let l := VerifyEmail.allowed_domains st in
      (Ok (Mongo.count (in_domains ds) l),
       set_domains (List.filter (fun r => negb (in_domains ds r)) l) st).

Definition domains_countDocuments (fails : bool) : VerifyEmail.M nat :=
  fun st =>
    if fails then (Throw, st)
    else (Ok (List.length (VerifyEmail.allowed_domains st)), st).

(** [deleteMany({})] *)
Definition domains_deleteMany_all (fails : bool) : VerifyEmail.M nat :=
  fun st =>
    if fails then (Throw, st)
    else (Ok (List.length (VerifyEmail.allowed_domains st)),
          set_domains [] st).

Definition emails_countDocuments (fails : bool) : VerifyEmail.M nat :=
  fun st =>
    if fails then (Throw, st)
    else (Ok (List.length (VerifyEmail.emails st)), st).

Definition emails_deleteMany_all (fails : bool) : VerifyEmail.M nat :=
  fun st =>
    if fails then (Throw, st)
    else (Ok (List.length (VerifyEmail.emails st)), set_emails [] st).

(** *** The functions of the source *)

(** [addDomain] served alone: its awaited operations one after the other
    with no other request in between.  The call in flight, which other
    requests can interleave with, is [add_step] below. *)
Definition addDomain (env : Env) (domain addedBy : string)
  : VerifyEmail.M Result :=
  VerifyEmail.try_catch
    (VerifyEmail.connectToDatabase (connect_fails env) ;;;
     existingDomain <- VerifyEmail.domains_findOne (read_fails env)
                                                   (toLowerCase domain) ;;
     match existingDomain with
     | Some _ => VerifyEmail.ret (Exists_ "Domain already exists")
     | None =>
         domains_insertOne (write_fails env)
           (VerifyEmail.mkDomainRecord (toLowerCase domain)
                                       (new_Date env 0) addedBy) ;;;
         VerifyEmail.ret (Plain true "Domain added successfully")
     end)
    (VerifyEmail.ret (Plain false "Error adding domain")).

Fixpoint domainsToInsert (env : Env) (addedBy : string) (i : nat)
         (newDomains : list string) : list VerifyEmail.DomainRecord :=
  match newDomains with
  | [] => []
  | d :: ds =>
      VerifyEmail.mkDomainRecord (toLowerCase d) (new_Date env i) addedBy
      :: domainsToInsert env addedBy (S i) ds
  end.

Definition bulkAddDomains (env : Env) (domains : list string)
           (addedBy : string) : VerifyEmail.M Result :=
  match domains with
  | [] => VerifyEmail.ret (Plain false "No domains to add")
  | _ :: _ =>
      VerifyEmail.try_catch
        (VerifyEmail.connectToDatabase (connect_fails env) ;;;
         existingDomainSet <- domains_find_in (read_fails env)
                                (List.map toLowerCase domains) ;;
         let newDomains :=
           List.filter (fun d => negb (mem (toLowerCase d) existingDomainSet))
                       domains in
         match newDomains with
         | [] =>
             VerifyEmail.ret
               (BulkAdded "All domains already exist" 0 (List.length domains))
         | _ :: _ =>
             insertedCount <- domains_insertMany (write_fails env)
                                (domainsToInsert env addedBy 0 newDomains) ;;
             VerifyEmail.ret
               (BulkAdded
                  ("Added " ++ toString (N.of_nat insertedCount)
                   ++ " domain(s)")
                  insertedCount
                  (List.length domains - List.length newDomains))
         end)
        (VerifyEmail.ret (Plain false "Error adding domains"))
  end.

Definition deleteDomain (env : Env) (domain : string)
  : VerifyEmail.M Result :=
  VerifyEmail.try_catch
    (VerifyEmail.connectToDatabase (connect_fails env) ;;;
     deletedCount <- domains_deleteOne (write_fails env)
                                       (toLowerCase domain) ;;
     if Nat.eqb deletedCount 0
     then VerifyEmail.ret (Plain false "Domain not found")
     else VerifyEmail.ret (Plain true "Domain deleted successfully"))
    (VerifyEmail.ret (Plain false "Error deleting domain")).

Definition plural (n : nat) : string :=
  if Nat.eqb n 1 then EmptyString else "s".

Definition bulkDeleteDomains (env : Env) (domains : list string)
  : VerifyEmail.M Result :=
  VerifyEmail.try_catch
    (VerifyEmail.connectToDatabase (connect_fails env) ;;;
     match domains with
     | [] => VerifyEmail.ret (Plain false "No domains provided for deletion")
     | _ :: _ =>
         deletedCount <- domains_deleteMany_in (write_fails env)
                           (List.map toLowerCase domains) ;;
         if Nat.eqb deletedCount 0
         then VerifyEmail.ret (Plain false "No domains were deleted")
         else VerifyEmail.ret
                (Deleted (toString (N.of_nat deletedCount) ++ " domain"
                          ++ plural deletedCount ++ " deleted successfully")
                         deletedCount)
     end)
    (VerifyEmail.ret (Plain false "Error deleting domains")).

Definition removeAllDomains (env : Env) : VerifyEmail.M Result :=
  VerifyEmail.try_catch
    (VerifyEmail.connectToDatabase (connect_fails env) ;;;
     totalCount <- domains_countDocuments (read_fails env) ;;
     if Nat.eqb totalCount 0
     then VerifyEmail.ret (Plain false "No domains to delete")
     else
       deletedCount <- domains_deleteMany_all (write_fails env) ;;
       VerifyEmail.ret
         (Deleted ("All domains deleted successfully ("
                   ++ toString (N.of_nat deletedCount) ++ " total)")
                  deletedCount))
    (VerifyEmail.ret (Plain false "Error deleting domains")).

Definition removeAllEmails (env : Env) : VerifyEmail.M Result :=
  VerifyEmail.try_catch
    (VerifyEmail.connectToDatabase (connect_fails env) ;;;
     totalCount <- emails_countDocuments (read_fails env) ;;
     if Nat.eqb totalCount 0
     then VerifyEmail.ret (Plain false "No email logs to delete")
     else
       deletedCount <- emails_deleteMany_all (write_fails env) ;;
       VerifyEmail.ret
         (Deleted ("All email logs deleted successfully ("
                   ++ toString (N.of_nat deletedCount) ++ " total)")
                  deletedCount))
    (VerifyEmail.ret (Plain false "Error deleting email logs")).

(** [/^[a-z0-9]+([\-\.]{1}[a-z0-9]+)*\.[a-z]{2,}$/] *)
Definition in_range (lo hi : N) (c : ascii) : bool :=
  ((lo <=? code c) && (code c <=? hi))%N.

Definition lower_letter (c : ascii) : bool := in_range 97 122 c.

Definition alnum (c : ascii) : bool := lower_letter c || in_range 48 57 c.

Definition dash_or_dot (c : ascii) : bool :=
  Ascii.eqb c "-" || Ascii.eqb c ".".

Definition is_dot (c : ascii) : bool := Ascii.eqb c ".".

Definition domainRegex : Regex.re :=
  Regex.Seq (Regex.plus (Regex.Cls alnum))
    (Regex.Seq
       (Regex.Star (Regex.Seq (Regex.Cls dash_or_dot)
                              (Regex.plus (Regex.Cls alnum))))
       (Regex.Seq (Regex.Cls is_dot)
          (Regex.Seq (Regex.Cls lower_letter)
                     (Regex.plus (Regex.Cls lower_letter))))).

Definition domainRegex_test (s : string) : bool :=
  Regex.test domainRegex s.

(** *** [processDomainTextContent] *)

Record Detail := mkDetail {
  detail_domain : string;
  detail_status : string;
  detail_reason : option string
}.

Record Results := mkResults {
  totalProcessed : nat;
  added : nat;
  skipped : nat;
  failed : nat;
  details : list Detail
}.

Definition nonblank (line : string) : bool :=
  negb (String.eqb (Text.trim line) EmptyString).

(** The loop that sorts the lines into valid and invalid domains. *)
Fixpoint classify (domains : list string) : list string * list Detail :=
  match domains with
  | [] => ([], [])
  | domain :: rest =>
      let cleanDomain := toLowerCase (Text.trim domain) in
      let (validDomains, invalidDomains) := classify rest in
      if domainRegex_test cleanDomain
      then (cleanDomain :: validDomains, invalidDomains)
      else (validDomains,
            mkDetail cleanDomain "failed" (Some "Invalid domain format")
            :: invalidDomains)
  end.

(** The outcome of one [addDomain] in the fallback loop, added to the
    running results. *)
Definition tally (domain : string) (result : Result) (results : Results)
  : Results :=
  match result with
  | Exists_ _ =>
      mkResults (totalProcessed results) (added results)
                (S (skipped results)) (failed results)
                (details results
                 ++ [mkDetail domain "skipped" (Some "Already exists")])
  | Plain false message =>
      mkResults (totalProcessed results) (added results)
                (skipped results) (S (failed results))
                (details results
                 ++ [mkDetail domain "failed"
                       (Some (or_default (Some message) "Unknown error"))])
  | _ =>
      mkResults (totalProcessed results) (S (added results))
                (skipped results) (failed results)
                (details results ++ [mkDetail domain "added" None])
  end.

(** The fallback loop: the domains are added one by one; the i-th call of
    [addDomain] has the surroundings [envs i]. *)
Fixpoint addEach (envs : nat -> Env) (i : nat) (addedBy : string)
         (validDomains : list string) (results : Results)
  : VerifyEmail.M Results :=
  match validDomains with
  | [] => VerifyEmail.ret results
  | domain :: rest =>
      result <- addDomain (envs i) domain addedBy ;;
      addEach envs (S i) addedBy rest (tally domain result results)
  end.

Definition processDomainTextContent (bulk_env : Env) (envs : nat -> Env)
           (content addedBy : string) : VerifyEmail.M Results :=
  let domains := List.filter nonblank (Text.split_lines content) in
  let (validDomains, invalidDomains) := classify domains in
  let results :=
    mkResults (List.length domains) 0 0 (List.length invalidDomains)
              invalidDomains in
  match validDomains with
  | [] => VerifyEmail.ret results
  | _ :: _ =>
      batchResult <- bulkAddDomains bulk_env validDomains addedBy ;;
      match batchResult with
      | BulkAdded _ a s =>
          VerifyEmail.ret
            (mkResults (totalProcessed results) a s (failed results)
                       (details results))
      | Exists_ _ | Deleted _ _ | Plain true _ =>
          VerifyEmail.ret
            (mkResults (totalProcessed results) 0 0 (failed results)
                       (details results))
      | Plain false _ => addEach envs 0 addedBy validDomains results
      end
  end.

(** *** [addDomain] at its [await]s *)

(** A call of [addDomain] in flight: the operation it is waiting for.
    Other requests can run at these points and nowhere else. *)
Inductive Adding :=
| AddConnecting (domain addedBy : string)   (* line 104, [client.connect()] *)
| AddConnected (domain addedBy : string)    (* line 104, the cached handles *)
| AddFindOne (domain addedBy : string)      (* line 108 *)
| AddInsertOne (domain addedBy : string)    (* line 113 *)
| Returned (r : Result).

Definition add_failed : Adding := Returned (Plain false "Error adding domain").

(** The call starts and runs to its first [await]: [connectToDatabase]
    looks at the cache and, when it is empty, starts a connection. *)
Definition add_start (domain addedBy : string) (st : VerifyEmail.State)
  : Adding :=
  if VerifyEmail.cachedDb st then AddConnected domain addedBy
  else AddConnecting domain addedBy.

(** The awaited operation completes and the call runs to its next
    [await] or to its [return]. *)
Definition add_step (env : Env) (p : Adding) (st : VerifyEmail.State)
  : Adding * VerifyEmail.State :=
  match p with
  | AddConnecting domain addedBy =>
      if connect_fails env then (add_failed, st)
      else (AddFindOne domain addedBy,
            VerifyEmail.mkState true (VerifyEmail.emails st)
              (VerifyEmail.allowed_domains st) (VerifyEmail.journal st))
  | AddConnected domain addedBy => (AddFindOne domain addedBy, st)
  | AddFindOne domain addedBy =>
      match VerifyEmail.domains_findOne (read_fails env)
                                        (toLowerCase domain) st with
      | (Ok (Some _), st') => (Returned (Exists_ "Domain already exists"), st')
      | (Ok None, st') => (AddInsertOne domain addedBy, st')
      | (Throw, st') => (add_failed, st')
      end
  | AddInsertOne domain addedBy =>
      match domains_insertOne (write_fails env)
              (VerifyEmail.mkDomainRecord (toLowerCase domain)
                                          (new_Date env 0) addedBy) st with
      | (Ok _, st') => (Returned (Plain true "Domain added successfully"), st')
      | (Throw, st') => (add_failed, st')
      end
  | Returned r => (Returned r, st)
  end.

Fixpoint add_steps (n : nat) (env : Env) (p : Adding)
         (st : VerifyEmail.State) : Adding * VerifyEmail.State :=
  match n with
  | O => (p, st)
  | S n' => let (p', st') := add_step env p st in add_steps n' env p' st'
  end.

(** Two calls in flight at once; a schedule says whose awaited operation
    completes next. *)
Inductive Caller := CallerA | CallerB.

Record AddingPair := mkAddingPair {
  callA : Adding;
  callB : Adding;
  shared : VerifyEmail.State
}.

Definition add_step_pair (envA envB : Env) (w : Caller) (c : AddingPair)
  : AddingPair :=
  match w with
  | CallerA => let (p, st) := add_step envA (callA c) (shared c) in
               mkAddingPair p (callB c) st
  | CallerB => let (p, st) := add_step envB (callB c) (shared c) in
               mkAddingPair (callA c) p st
  end.

Definition add_run_pair (envA envB : Env) (schedule : list Caller)
           (c : AddingPair) : AddingPair :=
  List.fold_left (fun c w => add_step_pair envA envB w c) schedule c.

(** *** The routes of [handler] *)

(** [req.body], when there is one: the properties that the handler reads.
    [token] is [None] also for a value that is not a string (it equals no
    admin token); [domains] is [None] for anything that is not an array.
    [addedBy] is taken to be a string when it is there: the code stores
    whatever truthy value it finds and never looks into it. *)
Record Payload := mkPayload {
  token : option string;
  domain : value;
  domains : option (list value);
  addedBy : option string;
  email : value
}.

Record Request := mkRequest {
  method : string;
  query_action : option string;
  query_token : option string;
  body : option Payload;      (* [None]: [req.body] is [undefined] *)
  header_user_agent : option string;
  header_x_forwarded_for : option string;
  socket_remoteAddress : option string
}.

(** [req.body?.token] *)
Definition body_token (req : Request) : option string :=
  match body req with
  | Some b => token b
  | None => None
  end.

(** What the validation route reads of the request. *)
Definition validation (req : Request) : VerifyEmail.Request :=
  VerifyEmail.mkRequest (option_map email (body req))
                        (header_user_agent req)
                        (header_x_forwarded_for req)
                        (socket_remoteAddress req).

(** The replies of the routes.  The [error] text that the 500 replies
    carry beside their message is left out. *)
Inductive Reply :=
| EndOk                                       (* res.status(200).end() *)
| JsonMessage (status : nat) (message : string)
| JsonResult (status : nat) (r : Result)
| Validation (r : VerifyEmail.Response).

(** What a request leads to: a reply and the next state, or one of the
    branches that lie beyond this model: the pages and the upload that the
    handler serves once the admin token has been checked, and the deletion
    of single log entries by identifier. *)
Inductive Served :=
| Replied (r : Reply) (st : VerifyEmail.State)
| Beyond.

Definition same (v : option string) (s : string) : bool :=
  match v with
  | Some x => String.eqb x s
  | None => false
  end.

Definition isAdmin (cfg : Config) (req : Request) : bool :=
  same (query_token req) (ADMIN_TOKEN cfg)
  || same (body_token req) (ADMIN_TOKEN cfg).

Definition route (req : Request) (m a : string) : bool :=
  String.eqb (method req) m && same (query_action req) a.

Definition status_for (r : Result) : nat :=
  if success r then 200%nat else 400%nat.

(** The reply of a route that runs an administration function inside
    [try] and answers with its result. *)
Definition answer (status : Result -> nat) (on_error : Reply)
           (m : VerifyEmail.M Result) (st : VerifyEmail.State) : Served :=
  match m st with
  | (Ok r, st') => Replied (JsonResult (status r) r) st'
  | (Throw, st') => Replied on_error st'
  end.

(** [deleteDomain] and [bulkDeleteDomains] called with a domain that is
    not a string: once connected, [toLowerCase] is not a function and the
    [catch] of the function answers. *)
Definition delete_other (env : Env) (message : string)
  : VerifyEmail.M Result :=
  VerifyEmail.try_catch
    (VerifyEmail.connectToDatabase (connect_fails env) ;;;
     VerifyEmail.throw)
    (VerifyEmail.ret (Plain false message)).

(** The elements of an array when all of them are strings. *)
Fixpoint strings (vs : list value) : option (list string) :=
  match vs with
  | [] => Some []
  | Str s :: vs' => option_map (cons s) (strings vs')
  | _ :: _ => None
  end.

Definition handler (cfg : Config) (vcfg : VerifyEmail.Config)
           (env : Env) (venv : VerifyEmail.Env) (req : Request)
           (st : VerifyEmail.State) : Served :=
  let unauthorized := Replied (JsonMessage 401 "Unauthorized") st in
  if String.eqb (method req) "OPTIONS" then Replied EndOk st
  else if route req "GET" "admin" then
    if negb (isAdmin cfg req) then unauthorized else Beyond
  else if route req "GET" "uploadform" then
    if negb (isAdmin cfg req) then unauthorized else Beyond
  else if route req "POST" "upload" then
    if negb (isAdmin cfg req) then unauthorized else Beyond
  else if route req "POST" "adddomain" then
    if negb (isAdmin cfg req) then unauthorized
    else
      let on_error := JsonResult 500 (Plain false "Error adding domain") in
      match body req with
      | None => Replied on_error st     (* [req.body.domain] of [undefined] *)
      | Some b =>
          match domain b with
          | Undefined | Str EmptyString | Other false _ =>
              Replied (JsonMessage 400 "Please provide a domain") st
          | Str domain =>
              if negb (domainRegex_test (toLowerCase domain))
              then Replied (JsonMessage 400 "Invalid domain format") st
              else answer (fun _ => 200%nat) on_error
                     (addDomain env domain (or_default (addedBy b) "admin"))
                     st
          | Other true _ => Replied on_error st   (* [domain.toLowerCase()] *)
          end
      end
  else if route req "POST" "deletedomain" then
    if negb (isAdmin cfg req) then unauthorized
    else
      let on_error := JsonResult 500 (Plain false "Error deleting domain") in
      match body req with
      | None => Replied on_error st
      | Some b =>
          match domain b with
          | Undefined | Str EmptyString | Other false _ =>
              Replied (JsonMessage 400 "Please provide a domain to delete") st
          | Str domain =>
              answer status_for on_error (deleteDomain env domain) st
          | Other true _ =>
              answer status_for on_error
                (delete_other env "Error deleting domain") st
          end
      end
  else if route req "POST" "bulkdeletedomain" then
    if negb (isAdmin cfg req) then unauthorized
    else
      let on_error := JsonMessage 500 "Unable to bulk delete domains" in
      match body req with
      | None => Replied on_error st
      | Some b =>
          match domains b with
          | None | Some [] =>
              Replied (JsonMessage 400 "Please provide domains to delete") st
          | Some array =>
              match strings array with
              | Some domains =>
                  answer status_for on_error (bulkDeleteDomains env domains) st
              | None =>
                  answer status_for on_error
                    (delete_other env "Error deleting domains") st
              end
          end
      end
  else if route req "POST" "deletealldomains" then
    if negb (isAdmin cfg req) then unauthorized
    else answer status_for (JsonMessage 500 "Unable to delete all domains")
                (removeAllDomains env) st
  else if route req "POST" "deleteemail" then
    if negb (isAdmin cfg req) then unauthorized else Beyond
  else if route req "POST" "bulkdeleteemail" then
    if negb (isAdmin cfg req) then unauthorized else Beyond
  else if route req "POST" "deleteallemails" then
    if negb (isAdmin cfg req) then unauthorized
    else answer status_for (JsonMessage 500 "Unable to delete all email logs")
                (removeAllEmails env) st
  else if String.eqb (method req) "POST"
          && (negb (truthy (query_action req))
              || same (query_action req) "validate") then
    let (r, st') := VerifyEmail.handler vcfg venv (validation req) st in
    Replied (Validation r) st'
  else Replied (JsonMessage 405 "Method not allowed") st.

(** Requests served one at a time: each request is served to its end
    before the next one starts.  Every request comes with the
    surroundings in which it is served.  The run ends without a state at a
    request that leads beyond the model. *)
Fixpoint serve_all (cfg : Config) (vcfg : VerifyEmail.Config)
         (reqs : list (Env * VerifyEmail.Env * Request))
         (st : VerifyEmail.State) : option VerifyEmail.State :=
  match reqs with
  | [] => Some st
  | (env, venv, req) :: reqs' =>
      match handler cfg vcfg env venv req st with
      | Replied _ st' => serve_all cfg vcfg reqs' st'
      | Beyond => None
      end
  end.

End Admin.

(** Properties of allowlists and of the surroundings of a call, used to
    state what the administration functions keep. *)
Module Allowlist.

(** Every stored domain is in lower case. *)
Definition lowercase (l : list VerifyEmail.DomainRecord) : Prop :=
  forall r, In r l ->
            toLowerCase (VerifyEmail.allowed_domain r)
            = VerifyEmail.allowed_domain r.

(** No domain is stored twice. *)
Definition unique (l : list VerifyEmail.DomainRecord) : Prop :=
  forall x, (Mongo.count (Admin.has_domain x) l <= 1)%nat.

(** Every stored domain matches the domain pattern. *)
Definition valid (l : list VerifyEmail.DomainRecord) : Prop :=
  forall r, In r l ->
            Admin.domainRegex_test (VerifyEmail.allowed_domain r) = true.

(** The store serves the call: the connection is there or can be made,
    and neither the query nor the command fails. *)
Definition served (env : Admin.Env) (st : VerifyEmail.State) : Prop :=
  VerifyEmail.cachedDb st || negb (Admin.connect_fails env) = true
  /\ Admin.read_fails env = false
  /\ Admin.write_fails env = false.


(** What a step keeps of the allowlist: lower case, the domain pattern and
    the absence of duplicates. *)
Definition kept (l l' : list VerifyEmail.DomainRecord) : Prop :=
  (lowercase l -> lowercase l')
  /\ (valid l -> valid l')
  /\ (unique l -> unique l').

(** The step removes records and adds none. *)
Definition shrunk (l l' : list VerifyEmail.DomainRecord) : Prop :=
  (forall r, In r l' -> In r l)
  /\ (forall x, (Mongo.count (Admin.has_domain x) l'
                 <= Mongo.count (Admin.has_domain x) l)%nat).

End Allowlist.

Module Routes.

(** The routes of [handler] that start with the check of the admin token:
    method and action. *)
Definition admin_routes : list (string * string) :=
  [("GET", "admin"); ("GET", "uploadform"); ("POST", "upload");
   ("POST", "adddomain"); ("POST", "deletedomain");
   ("POST", "bulkdeletedomain"); ("POST", "deletealldomains");
   ("POST", "deleteemail"); ("POST", "bulkdeleteemail");
   ("POST", "deleteallemails")].

Definition is_admin_route (req : Admin.Request) : bool :=
  List.existsb (fun ma => Admin.route req (fst ma) (snd ma)) admin_routes.

End Routes.

Module Pattern.

(** Every character class of the expression lies within [S]. *)
Fixpoint within (S : ascii -> bool) (r : Regex.re) : Prop :=
  match r with
  | Regex.Cls p => forall c, p c = true -> S c = true
  | Regex.Seq r1 r2 | Regex.Alt r1 r2 => within S r1 /\ within S r2
  | Regex.Star r1 => within S r1
  | _ => True
  end.

(** The expression visibly matches nothing. *)
Fixpoint dead (r : Regex.re) : bool :=
  match r with
  | Regex.Never => true
  | Regex.Seq r1 r2 => dead r1 || dead r2
  | Regex.Alt r1 r2 => dead r1 && dead r2
  | _ => false
  end.

(** The characters of domains: a-z, 0-9, dash and dot. *)
Definition domain_char (c : ascii) : bool :=
  Admin.alnum c || Admin.dash_or_dot c.

End Pattern.
(* ================================================================== *)
(** ** Facts about the JavaScript primitives *)
(* ================================================================== *)

Lemma lower_char_idempotent (c : ascii) :
  lower_char (lower_char c) = lower_char c.
Proof.
  destruct c as [[] [] [] [] [] [] [] []]; reflexivity.
Qed.

Lemma toLowerCase_idempotent (s : string) :
  toLowerCase (toLowerCase s) = toLowerCase s.
Proof.
  induction s as [|c s IH]; simpl.
  - reflexivity.
  - now rewrite lower_char_idempotent, IH.
Qed.

Lemma getSubstitution_dollar_free (m b a r : string) :
  Design.dollar_free r = true -> getSubstitution m b a r = r.
Proof.
  induction r as [|c r IH]; simpl; intros H.
  - reflexivity.
  - apply andb_true_iff in H as [Hc Hr].
    apply negb_true_iff in Hc. rewrite Hc.
    now rewrite (IH Hr).
Qed.

(** With no dollar sign in the replacement text, [replace] is the literal
    replacement of the first occurrence. *)
Lemma replace_dollar_free (s pat repl : string) :
  Design.dollar_free repl = true ->
  replace s pat repl = Design.replace_first s pat repl.
Proof.
  intros H. unfold replace, Design.replace_first.
  destruct (search pat s) as [[b a]|]; [|reflexivity].
  now rewrite getSubstitution_dollar_free.
Qed.

(* ================================================================== *)
(** ** The domain gate *)
(* ================================================================== *)

(** C6. The membership test is case-insensitive: for every environment,
    every state of the store (every allowlist) and every domain string [d],
    [isDomainAllowed d] and [isDomainAllowed (lowercase d)] give the same
    answer and leave the same state. *)
Theorem isDomainAllowed_case_insensitive
        (env : VerifyEmail.Env) (d : string) (st : VerifyEmail.State) :
  VerifyEmail.isDomainAllowed env d st
  = VerifyEmail.isDomainAllowed env (toLowerCase d) st.
Proof.
  unfold VerifyEmail.isDomainAllowed.
  now rewrite toLowerCase_idempotent.
Qed.

Example isDomainAllowed_Example_COM :
  fst (VerifyEmail.isDomainAllowed Sample.verify_env "Example.COM"
                                   Sample.verify_state) = Ok true
  /\ fst (VerifyEmail.isDomainAllowed Sample.verify_env "example.com"
                                      Sample.verify_state) = Ok true.
Proof. split; reflexivity. Qed.

(** The gate always answers: errors never escape it. *)
Lemma isDomainAllowed_total
      (env : VerifyEmail.Env) (d : string) (st : VerifyEmail.State) :
  exists b, fst (VerifyEmail.isDomainAllowed env d st) = Ok b.
Proof.
  unfold VerifyEmail.isDomainAllowed, VerifyEmail.try_catch, VerifyEmail.bind,
    VerifyEmail.connectToDatabase, VerifyEmail.domains_findOne, VerifyEmail.ret.
  destruct (VerifyEmail.cachedDb st), (VerifyEmail.gate_connect_fails env),
    (VerifyEmail.gate_find_fails env); simpl; eauto.
Qed.

(** C7. The gate fails closed: when the lookup raises an error, either
    while connecting (no cached connection and the connection fails) or in
    the query itself, [isDomainAllowed] answers [false]. *)
Theorem isDomainAllowed_fails_closed
        (env : VerifyEmail.Env) (d : string) (st : VerifyEmail.State) :
  (VerifyEmail.cachedDb st = false
   /\ VerifyEmail.gate_connect_fails env = true)
  \/ VerifyEmail.gate_find_fails env = true ->
  fst (VerifyEmail.isDomainAllowed env d st) = Ok false.
Proof.
  unfold VerifyEmail.isDomainAllowed, VerifyEmail.try_catch, VerifyEmail.bind,
    VerifyEmail.connectToDatabase, VerifyEmail.domains_findOne, VerifyEmail.ret.
  intros [[Hc Hf] | Hf]; rewrite ?Hc, ?Hf.
  - reflexivity.
  - destruct (VerifyEmail.cachedDb st), (VerifyEmail.gate_connect_fails env);
      reflexivity.
Qed.

Lemma isDomainAllowed_fails_closed_witness :
  VerifyEmail.gate_find_fails Sample.verify_env_gate_down = true
  /\ fst (VerifyEmail.isDomainAllowed Sample.verify_env_gate_down
            "example.com" Sample.verify_state) = Ok false.
Proof.
  split.
  - reflexivity.
  - apply (isDomainAllowed_fails_closed Sample.verify_env_gate_down
             "example.com" Sample.verify_state).
    right. reflexivity.
Defined.

(* ================================================================== *)
(** ** Emails that pass the format check *)
(* ================================================================== *)

Section Matcher.

Variable p : ascii -> bool.
Variable k : string -> bool.

(** A successful [p+ k] match splits the text into a non-empty run of [p]
    characters and a rest accepted by [k]. *)
Lemma plus_then_inv (s : string) :
  plus_then p k s = true ->
  exists a r, s = (a ++ r)%string /\ a <> EmptyString
              /\ Design.all_chars p a = true /\ k r = true.
Proof.
  induction s as [|c s IH]; simpl; intros H; [discriminate|].
  apply andb_true_iff in H as [Hc H].
  apply orb_true_iff in H as [H|H].
  - exists (String c EmptyString), s. simpl. rewrite Hc.
    repeat split; auto. discriminate.
  - destruct (IH H) as (a & r & -> & _ & Ha & Hr).
    exists (String c a), r. simpl. rewrite Hc, Ha.
    repeat split; auto. discriminate.
Qed.

End Matcher.

Lemma lit_then_inv (c : ascii) (k : string -> bool) (s : string) :
  lit_then c k s = true -> exists r, s = String c r /\ k r = true.
Proof.
  destruct s as [|c' s]; simpl; intros H; [discriminate|].
  apply andb_true_iff in H as [Hc H].
  apply Ascii.eqb_eq in Hc. subst. eauto.
Qed.

Lemma all_chars_app (p : ascii -> bool) (a b : string) :
  Design.all_chars p (a ++ b) = Design.all_chars p a && Design.all_chars p b.
Proof.
  induction a as [|c a IH]; simpl; [reflexivity|].
  now rewrite IH, andb_assoc.
Qed.

Lemma all_chars_impl (p q : ascii -> bool) (s : string) :
  (forall c, p c = true -> q c = true) ->
  Design.all_chars p s = true -> Design.all_chars q s = true.
Proof.
  intros Hpq. induction s as [|c s IH]; simpl; [reflexivity|].
  intros H. apply andb_true_iff in H as [Hc Hs].
  now rewrite (Hpq _ Hc), (IH Hs).
Qed.

Lemma split_without_sep (sep : ascii) (a : string) :
  Design.all_chars (Design.is_not sep) a = true -> split sep a = [a].
Proof.
  induction a as [|c a IH]; simpl; [reflexivity|].
  intros H. apply andb_true_iff in H as [Hc Ha].
  unfold Design.is_not in Hc. apply negb_true_iff in Hc.
  now rewrite Hc, (IH Ha).
Qed.

Lemma split_at_sep (sep : ascii) (a b : string) :
  Design.all_chars (Design.is_not sep) a = true ->
  split sep (a ++ String sep b) = a :: split sep b.
Proof.
  induction a as [|c a IH]; simpl.
  - intros _. now rewrite Ascii.eqb_refl.
  - intros H. apply andb_true_iff in H as [Hc Ha].
    unfold Design.is_not in Hc. apply negb_true_iff in Hc.
    now rewrite Hc, (IH Ha).
Qed.

Lemma after_at_app (a b : string) :
  Design.all_chars (Design.is_not "@") a = true ->
  Design.after_at (a ++ String "@" b) = b.
Proof.
  induction a as [|c a IH]; simpl; [reflexivity|].
  intros H. apply andb_true_iff in H as [Hc Ha].
  unfold Design.is_not in Hc. apply negb_true_iff in Hc.
  now rewrite Hc, (IH Ha).
Qed.

Lemma not_space_or_at_is_not_at (c : ascii) :
  VerifyEmail.not_space_or_at c = true -> Design.is_not "@" c = true.
Proof.
  unfold VerifyEmail.not_space_or_at, Design.is_not. intros H.
  apply negb_true_iff in H. apply orb_false_iff in H as [_ H].
  now rewrite H.
Qed.

(** An email that passes the format check has exactly one [@]: a non-empty
    local part and a domain part, neither with an [@] or white space. *)
Lemma emailRegex_shape (e : string) :
  VerifyEmail.emailRegex_test e = true ->
  exists a b, e = (a ++ String "@" b)%string
              /\ a <> EmptyString
              /\ Design.all_chars VerifyEmail.not_space_or_at a = true
              /\ Design.all_chars VerifyEmail.not_space_or_at b = true.
Proof.
  unfold VerifyEmail.emailRegex_test. intros H.
  apply plus_then_inv in H as (a & r & -> & Hne & Ha & H).
  apply lit_then_inv in H as (r1 & -> & H).
  apply plus_then_inv in H as (b1 & r2 & -> & _ & Hb1 & H).
  apply lit_then_inv in H as (r3 & -> & H).
  apply plus_then_inv in H as (b3 & r4 & -> & _ & Hb3 & H).
  destruct r4; [|discriminate].
  exists a, (b1 ++ String "." (b3 ++ EmptyString))%string.
  repeat split; auto.
  rewrite all_chars_app. simpl. rewrite all_chars_app. simpl.
  now rewrite Hb1, Hb3.
Qed.

Lemma emailRegex_split (e : string) :
  VerifyEmail.emailRegex_test e = true ->
  exists a, split "@" e = [a; Design.after_at e].
Proof.
  intros H. apply emailRegex_shape in H as (a & b & -> & _ & Ha & Hb).
  apply (all_chars_impl _ _ _ not_space_or_at_is_not_at) in Ha, Hb.
  exists a. now rewrite split_at_sep, after_at_app, split_without_sep.
Qed.

Lemma emailRegex_nonempty (e : string) :
  VerifyEmail.emailRegex_test e = true -> exists c s, e = String c s.
Proof.
  destruct e as [|c s]; [discriminate|eauto].
Qed.

(** After the format check, [getDomainFromEmail] does not throw: it returns
    the lowercased text after the [@]. *)
Lemma getDomainFromEmail_wellformed (e : string) :
  VerifyEmail.emailRegex_test e = true ->
  VerifyEmail.getDomainFromEmail e = Ok (toLowerCase (Design.after_at e)).
Proof.
  intros H. destruct (emailRegex_split e H) as [a Hs].
  unfold VerifyEmail.getDomainFromEmail. now rewrite Hs.
Qed.

Lemma generateRedirectUrl_wellformed (cfg : VerifyEmail.Config) (e : string) :
  VerifyEmail.emailRegex_test e = true ->
  exists u, VerifyEmail.generateRedirectUrl cfg e = Ok u.
Proof.
  intros H. destruct (emailRegex_split e H) as [a Hs].
  unfold VerifyEmail.generateRedirectUrl,
    VerifyEmail.generateCleanDomainFromEmail.
  rewrite Hs. simpl. eauto.
Qed.

(* ================================================================== *)
(** ** Redirect resolution *)
(* ================================================================== *)

Example generateCleanDomainFromEmail_examples :
  VerifyEmail.generateCleanDomainFromEmail "user@mail.acme.co" = Ok "acme"
  /\ VerifyEmail.generateCleanDomainFromEmail "user@mail.example.co"
     = Ok "example"
  /\ VerifyEmail.generateCleanDomainFromEmail "user@localhost"
     = Ok "localhost"
  /\ VerifyEmail.generateCleanDomainFromEmail "User@Mail.ACME.co" = Ok "acme".
Proof. repeat split; reflexivity. Qed.

(** The example of the design document. *)
Example generateRedirectUrl_example :
  VerifyEmail.generateRedirectUrl Sample.cfg "user@mail.acme.co"
  = Ok "https://acme.example.net/x?e=user@mail.acme.co".
Proof. reflexivity. Qed.

(** When neither the base label nor the email holds a dollar sign, the
    redirect is the template with the first [{domain}] replaced by the label
    and then the first [{email}] replaced by the email, both as they are. *)
Lemma generateRedirectUrl_literal
      (cfg : VerifyEmail.Config) (e label : string) :
  VerifyEmail.generateCleanDomainFromEmail e = Ok label ->
  Design.dollar_free label = true ->
  Design.dollar_free e = true ->
  VerifyEmail.generateRedirectUrl cfg e
  = Ok (Design.replace_first
          (Design.replace_first (VerifyEmail.REDIRECT_URL cfg) "{domain}" label)
          "{email}" e).
Proof.
  intros Hl Hdl He. unfold VerifyEmail.generateRedirectUrl.
  rewrite Hl. now rewrite !replace_dollar_free.
Qed.

(** C5. The email [a$&b@mail.acme.co] passes the format check and, with its
    domain on the allowlist, reaches [generateRedirectUrl]; there the
    sequence [$&] of the email is read by [String.prototype.replace] as a
    reference to the matched text, so the redirect holds [a{email}b@...]
    where the literal replacement holds [a$&b@...]: the email is not
    inserted as it is. *)
Theorem generateRedirectUrl_dollar_pattern :
  VerifyEmail.emailRegex_test "a$&b@mail.acme.co" = true
  /\ VerifyEmail.generateRedirectUrl Sample.cfg "a$&b@mail.acme.co"
     = Ok "https://acme.example.net/x?e=a{email}b@mail.acme.co"
  /\ Design.replace_first
       (Design.replace_first (VerifyEmail.REDIRECT_URL Sample.cfg)
                             "{domain}" "acme")
       "{email}" "a$&b@mail.acme.co"
     = "https://acme.example.net/x?e=a$&b@mail.acme.co"
  /\ fst (VerifyEmail.handler Sample.cfg Sample.verify_env
            (Sample.request "a$&b@mail.acme.co") Sample.verify_state)
     = VerifyEmail.Json 200
         (VerifyEmail.Validated "Email validated successfully"
            "https://acme.example.net/x?e=a{email}b@mail.acme.co").
Proof. repeat split; reflexivity. Qed.

(* ================================================================== *)
(** ** The store operations *)
(* ================================================================== *)

Section Collections.

Context {A : Type}.
Variable q : A -> bool.

Lemma count_zero_findOne (c : list A) :
  Mongo.count q c = 0%nat -> Mongo.findOne q c = None.
Proof.
  unfold Mongo.count, Mongo.findOne.
  induction c as [|x c IH]; simpl; [reflexivity|].
  destruct (q x); simpl; [discriminate|exact IH].
Qed.

Lemma findOne_count_pos (c : list A) (x : A) :
  Mongo.findOne q c = Some x -> (0 < Mongo.count q c)%nat.
Proof.
  intros H. destruct (Mongo.count q c) eqn:E; [|lia].
  rewrite (count_zero_findOne c E) in H. discriminate.
Qed.

(** [deleteOne] removes exactly one match when there is one. *)
Lemma count_deleteOne (c : list A) :
  Mongo.count q (Mongo.deleteOne q c) = pred (Mongo.count q c).
Proof.
  unfold Mongo.count.
  induction c as [|x c IH]; simpl; [reflexivity|].
  destruct (q x) eqn:E; simpl; [reflexivity|].
  now rewrite E.
Qed.

(** Deleting by another query never adds a match. *)
Lemma count_deleteOne_le (q' : A -> bool) (c : list A) :
  (Mongo.count q (Mongo.deleteOne q' c) <= Mongo.count q c)%nat.
Proof.
  unfold Mongo.count.
  induction c as [|x c IH]; simpl; [lia|].
  destruct (q' x); simpl; destruct (q x); simpl; lia.
Qed.

Lemma count_filter_le (keep : A -> bool) (c : list A) :
  (Mongo.count q (List.filter keep c) <= Mongo.count q c)%nat.
Proof.
  unfold Mongo.count.
  induction c as [|x c IH]; simpl; [lia|].
  destruct (keep x); simpl; destruct (q x); simpl; lia.
Qed.

Lemma count_insertOne (d : A) (c : list A) :
  Mongo.count q (Mongo.insertOne d c)
  = (Mongo.count q c + if q d then 1 else 0)%nat.
Proof.
  unfold Mongo.count, Mongo.insertOne.
  rewrite List.filter_app, List.length_app. simpl.
  destruct (q d); reflexivity.
Qed.

Lemma count_zero_filter (keep : A -> bool) (c : list A) :
  (forall x, In x c -> q x = true -> keep x = false) ->
  Mongo.count q (List.filter keep c) = 0%nat.
Proof.
  unfold Mongo.count.
  induction c as [|x c IH]; simpl; intros H; [reflexivity|].
  destruct (keep x) eqn:Ek; simpl.
  - destruct (q x) eqn:Eq; simpl.
    + rewrite (H x (or_introl eq_refl) Eq) in Ek. discriminate.
    + apply IH. intros y Hy. apply H. now right.
  - apply IH. intros y Hy. apply H. now right.
Qed.

End Collections.

(* ================================================================== *)
(** ** The redeem handler served alone *)
(* ================================================================== *)

Ltac unfold_download :=
  unfold Download.handler, Download.start, Download.steps, Download.step,
    Download.lookup_ok, TokenDb.connectToDB in *.

Ltac split_download env st t :=
  destruct (TokenDb.db st), (Download.connect_fails env),
    (Download.findOne_fails env), (Download.deleteOne_fails env);
  simpl in *;
  destruct (Mongo.findOne (TokenDb.by_token t) (TokenDb.tokens st));
  simpl in *;
  destruct (Download.getSignedUrl env (Download.command env) 60);
  simpl in *.

(** The handler always ends: with a response, or with a rejected promise. *)
Lemma download_handler_returns
      (env : Download.Env) (q : option string) (st : TokenDb.State) :
  exists o, fst (Download.handler env q st) = Some o.
Proof.
  unfold_download.
  destruct q as [[|c s]|]; simpl; eauto.
  split_download env st (String c s); eauto.
Qed.

Lemma download_found
      (env : Download.Env) (t : string) (st : TokenDb.State)
      (r : TokenDb.TokenRecord) (url : string) :
  Js.truthy (Some t) = true ->
  Download.lookup_ok env st = true ->
  Download.deleteOne_fails env = false ->
  Mongo.findOne (TokenDb.by_token t) (TokenDb.tokens st) = Some r ->
  Download.getSignedUrl env (Download.command env) 60 = Some url ->
  Download.handler env (Some t) st
  = (Some (Redirect url),
     TokenDb.mkState true
       (Mongo.deleteOne (TokenDb.by_token t) (TokenDb.tokens st))
       (TokenDb.ttl_index st)).
Proof.
  intros Ht Hok Hdel Hfind Hsign.
  destruct t as [|c s]; [discriminate|].
  unfold_download. rewrite Hdel.
  destruct st as [dbc toks ttl]; simpl in *.
  destruct dbc, (Download.connect_fails env),
    (Download.findOne_fails env); simpl in *; try discriminate;
    rewrite Hfind, Hsign; reflexivity.
Qed.

Lemma download_absent
      (env : Download.Env) (t : string) (st : TokenDb.State) :
  Js.truthy (Some t) = true ->
  Download.lookup_ok env st = true ->
  Mongo.findOne (TokenDb.by_token t) (TokenDb.tokens st) = None ->
  Download.handler env (Some t) st
  = (Some (Send 403 "Invalid or expired token."),
     TokenDb.mkState true (TokenDb.tokens st) (TokenDb.ttl_index st)).
Proof.
  intros Ht Hok Hfind.
  destruct t as [|c s]; [discriminate|].
  unfold_download.
  destruct st as [dbc toks ttl]; simpl in *.
  destruct dbc, (Download.connect_fails env),
    (Download.findOne_fails env); simpl in *; try discriminate;
    rewrite Hfind; reflexivity.
Qed.

(** Without a record for the token, no environment leads to a redirect. *)
Lemma download_absent_no_redirect
      (env : Download.Env) (t : string) (st : TokenDb.State) :
  Mongo.findOne (TokenDb.by_token t) (TokenDb.tokens st) = None ->
  Flow.is_redirect (fst (Download.handler env (Some t) st)) = false.
Proof.
  intros Hfind. unfold_download.
  destruct t as [|c s]; [reflexivity|].
  destruct (TokenDb.db st), (Download.connect_fails env),
    (Download.findOne_fails env); simpl in *; rewrite ?Hfind; reflexivity.
Qed.

(** A redirect means that the first record of the token was deleted. *)
Lemma download_redirect_inv
      (env : Download.Env) (q : option string) (st : TokenDb.State)
      (url : string) :
  fst (Download.handler env q st) = Some (Redirect url) ->
  exists t, q = Some t
            /\ TokenDb.tokens (snd (Download.handler env q st))
               = Mongo.deleteOne (TokenDb.by_token t) (TokenDb.tokens st).
Proof.
  unfold_download.
  destruct q as [[|c s]|]; simpl; try discriminate.
  intros H. exists (String c s). split; [reflexivity|].
  split_download env st (String c s); try discriminate; reflexivity.
Qed.

(** The handler never adds a record. *)
Lemma download_count_le
      (env : Download.Env) (q : option string) (st : TokenDb.State)
      (p : TokenDb.TokenRecord -> bool) :
  (Mongo.count p (TokenDb.tokens (snd (Download.handler env q st)))
   <= Mongo.count p (TokenDb.tokens st))%nat.
Proof.
  unfold_download.
  destruct q as [[|c s]|]; simpl; try lia.
  split_download env st (String c s); try lia;
    apply count_deleteOne_le.
Qed.

(* ================================================================== *)
(** ** The signed grant *)
(* ================================================================== *)

Lemma padStart_four_digits_upto :
  List.forallb
    (fun i => String.eqb (padStart 4 "0" (toString (N.of_nat i)))
                         (Design.four_digits (N.of_nat i)))
    (List.seq 0 (100 * 100)) = true.
Proof. vm_compute. reflexivity. Qed.

(** Below 10000, the padded numeral is the four-digit numeral. *)
Lemma padStart_four_digits (n : N) :
  (n < 10000)%N -> padStart 4 "0" (toString n) = Design.four_digits n.
Proof.
  intros Hn.
  pose proof (proj1 (List.forallb_forall _ _) padStart_four_digits_upto
                    (N.to_nat n)) as H.
  cbv beta in H. rewrite N2Nat.id in H. apply String.eqb_eq, H.
  apply List.in_seq. lia.
Qed.

(** C8. On a successful redemption (the token has a record, the store
    serves the request and the presigner answers) the response is the 302
    redirect to the URL that the presigner returned for the fixed key
    [Acrobat_Reader_V112.msi], a validity of exactly 60 seconds and the
    content disposition [attachment; filename="Acrobat_Reader_V112_NNNN.msi"],
    where NNNN is the zero-padded four-digit numeral of the random draw. *)
Theorem redeem_success_response
        (env : Download.Env) (t : string) (st : TokenDb.State)
        (r : TokenDb.TokenRecord) :
  Js.truthy (Some t) = true ->
  Download.lookup_ok env st = true ->
  Download.deleteOne_fails env = false ->
  Mongo.findOne (TokenDb.by_token t) (TokenDb.tokens st) = Some r ->
  (Download.random_draw env < 10000)%N ->
  Download.getSignedUrl env (Download.command env) 60 <> None ->
  exists url,
    fst (Download.handler env (Some t) st) = Some (Redirect url)
    /\ status_of (Redirect url) = Some 302%nat
    /\ Download.getSignedUrl env
         (Download.mkCommand (Download.R2_BUCKET env)
            "Acrobat_Reader_V112.msi"
            ("attachment; filename=" ++ Download.dquote
             ++ "Acrobat_Reader_V112_"
             ++ Design.four_digits (Download.random_draw env)
             ++ ".msi" ++ Download.dquote))
         60 = Some url.
Proof.
  intros Ht Hok Hdel Hfind Hdraw Hsign.
  destruct (Download.getSignedUrl env (Download.command env) 60)
    as [url|] eqn:E; [|congruence].
  exists url. split; [|split].
  - now rewrite (download_found env t st r url).
  - reflexivity.
  - rewrite <- E. unfold Download.command, Download.newFileName,
      Download.suffix.
    now rewrite (padStart_four_digits _ Hdraw).
Qed.

Lemma redeem_success_response_witness :
  exists url,
    fst (Download.handler (Sample.download_env 1000) (Some "abc123")
           (TokenDb.mkState true [TokenDb.mkTokenRecord "abc123" 0 60000]
                            true))
    = Some (Redirect url)
    /\ status_of (Redirect url) = Some 302%nat
    /\ Sample.signer
         (Download.mkCommand (Some "bucket") "Acrobat_Reader_V112.msi"
            ("attachment; filename=" ++ Download.dquote
             ++ "Acrobat_Reader_V112_" ++ "0042" ++ ".msi"
             ++ Download.dquote))
         60 = Some url.
Proof.
  apply (redeem_success_response (Sample.download_env 1000) "abc123"
           (TokenDb.mkState true [TokenDb.mkTokenRecord "abc123" 0 60000]
                            true)
           (TokenDb.mkTokenRecord "abc123" 0 60000)).
  - reflexivity.
  - reflexivity.
  - reflexivity.
  - reflexivity.
  - reflexivity.
  - discriminate.
Defined.

(* ================================================================== *)
(** ** Two redeem requests in flight *)
(* ================================================================== *)

(** Served one after the other, two requests for a token issued once get
    one redirect and one 403. *)
Example redeem_twice_in_turn :
  let st := snd (StoreToken.handler (Sample.issue_env 0) (Some "abc123")
                                    TokenDb.initial) in
  let env := Sample.download_env 1000 in
  let c := Download.run_pair env env
             [Download.First; Download.First; Download.First; Download.First;
              Download.Second; Download.Second; Download.Second;
              Download.Second]
             (Download.mkPair (Download.start (Some "abc123"))
                              (Download.start (Some "abc123")) st) in
  Download.first c = Download.Done (Redirect Sample.signed_url)
  /\ Download.second c
     = Download.Done (Send 403 "Invalid or expired token.").
Proof. split; reflexivity. Qed.

Lemma run_pair_cons
      (envA envB : Download.Env) (w : Download.Who)
      (ws : list Download.Who) (c : Download.Pair) :
  Download.run_pair envA envB (w :: ws) c
  = Download.run_pair envA envB ws (Download.step_pair envA envB w c).
Proof. reflexivity. Qed.

Lemma step_pair_first
      (envA envB : Download.Env) (pA pB : Download.Pending)
      (st : TokenDb.State) :
  Download.step_pair envA envB Download.First (Download.mkPair pA pB st)
  = Download.mkPair (fst (Download.step envA pA st)) pB
                    (snd (Download.step envA pA st)).
Proof.
  unfold Download.step_pair. cbn [Download.first Download.second Download.store].
  now destruct (Download.step envA pA st).
Qed.

Lemma step_pair_second
      (envA envB : Download.Env) (pA pB : Download.Pending)
      (st : TokenDb.State) :
  Download.step_pair envA envB Download.Second (Download.mkPair pA pB st)
  = Download.mkPair pA (fst (Download.step envB pB st))
                    (snd (Download.step envB pB st)).
Proof.
  unfold Download.step_pair. cbn [Download.first Download.second Download.store].
  now destruct (Download.step envB pB st).
Qed.

Lemma step_connect
      (env : Download.Env) (t : string) (st : TokenDb.State) :
  TokenDb.db st || negb (Download.connect_fails env) = true ->
  Download.step env (Download.AwaitConnect t) st
  = (Download.AwaitFindOne t,
     TokenDb.mkState true (TokenDb.tokens st) (TokenDb.ttl_index st)).
Proof.
  unfold Download.step, TokenDb.connectToDB. destruct st as [dbc toks ttl].
  cbn [TokenDb.db TokenDb.tokens TokenDb.ttl_index].
  destruct dbc, (Download.connect_fails env); simpl; intros H;
    try discriminate; reflexivity.
Qed.

Lemma step_findOne_found
      (env : Download.Env) (t : string) (st : TokenDb.State)
      (r : TokenDb.TokenRecord) :
  Download.findOne_fails env = false ->
  Mongo.findOne (TokenDb.by_token t) (TokenDb.tokens st) = Some r ->
  Download.step env (Download.AwaitFindOne t) st
  = (Download.AwaitDeleteOne t, st).
Proof.
  intros Hf Hfind. unfold Download.step. now rewrite Hf, Hfind.
Qed.

Lemma step_deleteOne
      (env : Download.Env) (t : string) (st : TokenDb.State) :
  Download.deleteOne_fails env = false ->
  Download.step env (Download.AwaitDeleteOne t) st
  = (Download.AwaitSignedUrl t,
     TokenDb.mkState (TokenDb.db st)
       (Mongo.deleteOne (TokenDb.by_token t) (TokenDb.tokens st))
       (TokenDb.ttl_index st)).
Proof.
  intros Hd. unfold Download.step. now rewrite Hd.
Qed.

Lemma step_signedUrl
      (env : Download.Env) (t : string) (st : TokenDb.State) (url : string) :
  Download.getSignedUrl env (Download.command env) 60 = Some url ->
  Download.step env (Download.AwaitSignedUrl t) st
  = (Download.Done (Redirect url), st).
Proof.
  intros Hs. unfold Download.step. now rewrite Hs.
Qed.

(** Whenever a record holds the token and the store and the presigner
    serve both requests, the alternating schedule ends with two redirects:
    both lookups come before the first deletion. *)
Lemma interleaved_redeems_both_redirect
      (envA envB : Download.Env) (t : string) (st : TokenDb.State)
      (r : TokenDb.TokenRecord) (urlA urlB : string) :
  Js.truthy (Some t) = true ->
  Download.lookup_ok envA st = true ->
  Download.lookup_ok envB st = true ->
  Download.deleteOne_fails envA = false ->
  Download.deleteOne_fails envB = false ->
  Mongo.findOne (TokenDb.by_token t) (TokenDb.tokens st) = Some r ->
  Download.getSignedUrl envA (Download.command envA) 60 = Some urlA ->
  Download.getSignedUrl envB (Download.command envB) 60 = Some urlB ->
  let c := Download.run_pair envA envB
             [Download.First; Download.Second; Download.First;
              Download.Second; Download.First; Download.Second;
              Download.First; Download.Second]
             (Download.mkPair (Download.start (Some t))
                              (Download.start (Some t)) st) in
  Download.first c = Download.Done (Redirect urlA)
  /\ Download.second c = Download.Done (Redirect urlB).
Proof.
  intros Ht HokA HokB HdA HdB Hfind HsA HsB.
  destruct t as [|ch s]; [discriminate|].
  unfold Download.lookup_ok in HokA, HokB.
  apply andb_true_iff in HokA as [HcA HfA], HokB as [HcB HfB].
  apply negb_true_iff in HfA, HfB.
  cbv zeta. unfold Download.start.
  rewrite run_pair_cons, step_pair_first, step_connect by exact HcA.
  cbn [fst snd].
  rewrite run_pair_cons, step_pair_second, step_connect by reflexivity.
  cbn [fst snd TokenDb.tokens TokenDb.ttl_index].
  rewrite run_pair_cons, step_pair_first,
    (step_findOne_found envA _ _ r) by assumption.
  cbn [fst snd].
  rewrite run_pair_cons, step_pair_second,
    (step_findOne_found envB _ _ r) by assumption.
  cbn [fst snd].
  rewrite run_pair_cons, step_pair_first, step_deleteOne by assumption.
  cbn [fst snd].
  rewrite run_pair_cons, step_pair_second, step_deleteOne by assumption.
  cbn [fst snd].
  rewrite run_pair_cons, step_pair_first, (step_signedUrl envA _ _ urlA)
    by assumption.
  cbn [fst snd].
  rewrite run_pair_cons, step_pair_second, (step_signedUrl envB _ _ urlB)
    by assumption.
  split; reflexivity.
Qed.

(** C1. The token [abc123] is issued once; two redeem requests for it are
    in flight and their store operations are served in turn: both
    [findOne] calls see the record before either [deleteOne] removes it, and
    both requests end with the 302 redirect.  The lookup and the deletion
    are two operations, and a second request can run between them. *)
Theorem concurrent_redeems_both_succeed :
  let st := snd (StoreToken.handler (Sample.issue_env 0) (Some "abc123")
                                    TokenDb.initial) in
  let env := Sample.download_env 1000 in
  let c := Download.run_pair env env
             [Download.First; Download.Second; Download.First;
              Download.Second; Download.First; Download.Second;
              Download.First; Download.Second]
             (Download.mkPair (Download.start (Some "abc123"))
                              (Download.start (Some "abc123")) st) in
  TokenDb.tokens st = [TokenDb.mkTokenRecord "abc123" 0 60000]
  /\ Download.first c = Download.Done (Redirect Sample.signed_url)
  /\ Download.second c = Download.Done (Redirect Sample.signed_url)
  /\ TokenDb.tokens (Download.store c) = [].
Proof. repeat split; reflexivity. Qed.

(* ================================================================== *)
(** ** Expiry *)
(* ================================================================== *)

(** The issue handler stores the expiry 60 seconds after its clock read. *)
Lemma issue_stores_expiry
      (env : StoreToken.Env) (t : string) (st : TokenDb.State) :
  Js.truthy (Some t) = true ->
  (TokenDb.db st || negb (StoreToken.connect_fails env)) = true ->
  StoreToken.insertOne_fails env = false ->
  TokenDb.tokens (snd (StoreToken.handler env (Some t) st))
  = TokenDb.tokens st
    ++ [TokenDb.mkTokenRecord t (StoreToken.new_Date env)
                              (StoreToken.Date_now env + 60000)%Z].
Proof.
  intros Ht Hc Hi. destruct t as [|c s]; [discriminate|].
  unfold StoreToken.handler, TokenDb.connectToDB, Mongo.insertOne.
  rewrite Hi.
  destruct st as [dbc toks ttl]; simpl in *.
  destruct dbc, (StoreToken.connect_fails env); simpl in *;
    try discriminate;
    destruct (StoreToken.createIndex_fails env); reflexivity.
Qed.

(** The clock of the request has no part in the answer. *)
Lemma download_ignores_clock
      (now now' : Z) (cf ff df : bool) (n : N) (b : option string)
      (sg : Download.GetObjectCommand -> N -> option string)
      (q : option string) (st : TokenDb.State) :
  Download.handler (Download.mkEnv now cf ff df n b sg) q st
  = Download.handler (Download.mkEnv now' cf ff df n b sg) q st.
Proof. reflexivity. Qed.

Lemma sweep_removes_expired
      (now : Z) (t : string) (st : TokenDb.State) :
  TokenDb.ttl_index st = true ->
  (forall r, In r (TokenDb.tokens st) -> TokenDb.token r = t ->
             (TokenDb.expireAt r < now)%Z) ->
  Mongo.findOne (TokenDb.by_token t) (TokenDb.tokens (TokenDb.sweep now st))
  = None.
Proof.
  intros Httl Hexp. unfold TokenDb.sweep. rewrite Httl. simpl.
  apply count_zero_findOne, count_zero_filter.
  intros r Hin Hr. apply String.eqb_eq in Hr.
  apply Z.leb_gt. now apply Hexp.
Qed.

(** C3, as the code has it.  Expiry is enforced by the store's removal of
    expired records and by nothing else: for a request made after the
    expiry of every record of the token, the handler still redirects while
    a record is in the store, and answers 403 once a sweep has removed the
    expired records. *)
Theorem expiry_enforced_by_sweep_only
        (env : Download.Env) (t : string) (st : TokenDb.State)
        (r : TokenDb.TokenRecord) (url : string) :
  Js.truthy (Some t) = true ->
  TokenDb.ttl_index st = true ->
  Download.lookup_ok env st = true ->
  Download.deleteOne_fails env = false ->
  Download.getSignedUrl env (Download.command env) 60 = Some url ->
  Mongo.findOne (TokenDb.by_token t) (TokenDb.tokens st) = Some r ->
  (forall r', In r' (TokenDb.tokens st) -> TokenDb.token r' = t ->
              (TokenDb.expireAt r' < Download.clock env)%Z) ->
  fst (Download.handler env (Some t) st) = Some (Redirect url)
  /\ fst (Download.handler env (Some t)
            (TokenDb.sweep (Download.clock env) st))
     = Some (Send 403 "Invalid or expired token.").
Proof.
  intros Ht Httl Hok Hdel Hsign Hfind Hexp. split.
  - now rewrite (download_found env t st r url).
  - rewrite download_absent; auto.
    + unfold TokenDb.sweep. now rewrite Httl.
    + now apply sweep_removes_expired.
Qed.

Lemma expiry_enforced_by_sweep_only_witness :
  let st := TokenDb.mkState true [TokenDb.mkTokenRecord "abc123" 0 60000]
                            true in
  fst (Download.handler (Sample.download_env 120000) (Some "abc123") st)
  = Some (Redirect Sample.signed_url)
  /\ fst (Download.handler (Sample.download_env 120000) (Some "abc123")
            (TokenDb.sweep 120000 st))
     = Some (Send 403 "Invalid or expired token.").
Proof.
  apply (expiry_enforced_by_sweep_only (Sample.download_env 120000) "abc123"
           (TokenDb.mkState true [TokenDb.mkTokenRecord "abc123" 0 60000]
                            true)
           (TokenDb.mkTokenRecord "abc123" 0 60000) Sample.signed_url).
  - reflexivity.
  - reflexivity.
  - reflexivity.
  - reflexivity.
  - reflexivity.
  - reflexivity.
  - simpl. intros r' [<- | []] _. simpl. lia.
Defined.

(** The token [abc123] is issued at time 0 and expires at 60000; no sweep
    has run; a redeem request made at time 120000 is answered with the
    redirect. *)
Lemma expired_token_still_consumed :
  let st := snd (StoreToken.handler (Sample.issue_env 0) (Some "abc123")
                                    TokenDb.initial) in
  TokenDb.tokens st = [TokenDb.mkTokenRecord "abc123" 0 (0 + 60000)]
  /\ (0 + 60000 < Download.clock (Sample.download_env 120000))%Z
  /\ fst (Download.handler (Sample.download_env 120000) (Some "abc123") st)
     = Some (Redirect Sample.signed_url).
Proof. repeat split; reflexivity. Qed.

(* ================================================================== *)
(** ** Redeeming twice *)
(* ================================================================== *)

(** The token [abc123] is issued twice, so that two records hold it; the
    first redeem request succeeds and the second succeeds as well. *)
Lemma second_redeem_succeeds_on_duplicate :
  fst (Flow.run Sample.cfg
         [Flow.Issue (Sample.issue_env 0) (Some "abc123");
          Flow.Issue (Sample.issue_env 1) (Some "abc123");
          Flow.Redeem (Sample.download_env 1000) (Some "abc123");
          Flow.Redeem (Sample.download_env 2000) (Some "abc123")]
         Sample.system)
  = [Flow.TokenReply (Some (End_ 204));
     Flow.TokenReply (Some (End_ 204));
     Flow.TokenReply (Some (Redirect Sample.signed_url));
     Flow.TokenReply (Some (Redirect Sample.signed_url))].
Proof. reflexivity. Qed.

Lemma issue_other_token
      (env : StoreToken.Env) (q : option string) (st : TokenDb.State)
      (t : string) :
  match q with Some t' => String.eqb t' t | None => false end = false ->
  Mongo.count (TokenDb.by_token t)
              (TokenDb.tokens (snd (StoreToken.handler env q st)))
  = Mongo.count (TokenDb.by_token t) (TokenDb.tokens st).
Proof.
  intros Hq. unfold StoreToken.handler, TokenDb.connectToDB.
  destruct q as [[|c s]|]; try reflexivity.
  assert (Hd : forall a b,
             TokenDb.by_token t (TokenDb.mkTokenRecord (String c s) a b)
             = false) by (intros; exact Hq).
  destruct (TokenDb.db st), (StoreToken.connect_fails env),
    (StoreToken.insertOne_fails env), (StoreToken.createIndex_fails env);
    cbn [snd TokenDb.tokens TokenDb.db TokenDb.ttl_index];
    try reflexivity;
    rewrite count_insertOne, Hd; lia.
Qed.

(** A token value with no record stays without one as long as it is not
    issued. *)
Lemma serve_keeps_absent
      (cfg : VerifyEmail.Config) (e : Flow.Event) (s : Flow.System)
      (t : string) :
  Flow.issues t e = false ->
  Mongo.count (TokenDb.by_token t) (TokenDb.tokens (Flow.token_db s)) = 0%nat ->
  Mongo.count (TokenDb.by_token t)
    (TokenDb.tokens (Flow.token_db (snd (Flow.serve cfg e s)))) = 0%nat.
Proof.
  intros He H0. destruct e as [env q|env q|env req|now]; simpl.
  - pose proof (issue_other_token env q (Flow.token_db s) t He) as H.
    destruct (StoreToken.handler env q (Flow.token_db s)); simpl in *.
    congruence.
  - pose proof (download_count_le env q (Flow.token_db s)
                                  (TokenDb.by_token t)) as H.
    destruct (Download.handler env q (Flow.token_db s)); simpl in *.
    lia.
  - destruct (VerifyEmail.handler cfg env req (Flow.verify_db s)); simpl.
    exact H0.
  - unfold TokenDb.sweep.
    destruct (TokenDb.ttl_index (Flow.token_db s)); simpl; [|exact H0].
    pose proof (count_filter_le (TokenDb.by_token t)
                  (fun r => (now <=? TokenDb.expireAt r)%Z)
                  (TokenDb.tokens (Flow.token_db s))) as H.
    lia.
Qed.

Lemma run_keeps_absent
      (cfg : VerifyEmail.Config) (es : list Flow.Event) (t : string) :
  List.forallb (fun e => negb (Flow.issues t e)) es = true ->
  forall s,
    Mongo.count (TokenDb.by_token t) (TokenDb.tokens (Flow.token_db s))
    = 0%nat ->
    Mongo.count (TokenDb.by_token t)
      (TokenDb.tokens (Flow.token_db (snd (Flow.run cfg es s)))) = 0%nat.
Proof.
  induction es as [|e es IH]; simpl; intros Hes s H0; [exact H0|].
  apply andb_true_iff in Hes as [He Hes]. apply negb_true_iff in He.
  pose proof (serve_keeps_absent cfg e s t He H0) as H1.
  destruct (Flow.serve cfg e s) as [r s1]; simpl in *.
  specialize (IH Hes s1 H1).
  destruct (Flow.run cfg es s1) as [rs s2]; simpl in *.
  exact IH.
Qed.

(** C2, as the code has it.  When exactly one record holds the token value
    and a redeem request on it has succeeded, the record is gone: after any
    further requests and sweeps that do not issue the value again, no redeem
    request on it succeeds, and it gets the 403 answer whenever the store
    serves the lookup. *)
Theorem second_redeem_fails
        (cfg : VerifyEmail.Config) (s s1 : Flow.System) (env : Download.Env)
        (t url : string) (es : list Flow.Event) (env2 : Download.Env) :
  Mongo.count (TokenDb.by_token t) (TokenDb.tokens (Flow.token_db s)) = 1%nat ->
  Flow.serve cfg (Flow.Redeem env (Some t)) s
  = (Flow.TokenReply (Some (Redirect url)), s1) ->
  List.forallb (fun e => negb (Flow.issues t e)) es = true ->
  let s2 := snd (Flow.run cfg es s1) in
  Flow.is_redirect (fst (Download.handler env2 (Some t) (Flow.token_db s2)))
  = false
  /\ (Download.lookup_ok env2 (Flow.token_db s2) = true ->
      fst (Download.handler env2 (Some t) (Flow.token_db s2))
      = Some (Send 403 "Invalid or expired token.")).
Proof.
  intros Hone Hfirst Hes s2.
  assert (H1 : Mongo.count (TokenDb.by_token t)
                 (TokenDb.tokens (Flow.token_db s1)) = 0%nat).
  { simpl in Hfirst.
    destruct (Download.handler env (Some t) (Flow.token_db s))
      as [o st'] eqn:E.
    injection Hfirst as Ho Hs1. subst o s1. simpl.
    destruct (download_redirect_inv env (Some t) (Flow.token_db s) url)
      as (t' & Ht' & Htok).
    - now rewrite E.
    - injection Ht' as <-. rewrite E in Htok. simpl in Htok.
      rewrite Htok, count_deleteOne, Hone. reflexivity. }
  pose proof (run_keeps_absent cfg es t Hes s1 H1) as H2.
  fold s2 in H2. apply count_zero_findOne in H2.
  split.
  - now apply download_absent_no_redirect.
  - intros Hok.
    assert (Ht : Js.truthy (Some t) = true).
    { simpl in Hfirst. destruct t; [|reflexivity].
      unfold Download.handler in Hfirst. simpl in Hfirst. discriminate. }
    now rewrite download_absent.
Qed.

Lemma second_redeem_fails_witness :
  let s := snd (Flow.run Sample.cfg
                  [Flow.Issue (Sample.issue_env 0) (Some "abc123")]
                  Sample.system) in
  let s1 := snd (Flow.serve Sample.cfg
                   (Flow.Redeem (Sample.download_env 1000) (Some "abc123"))
                   s) in
  let es := [Flow.Validate Sample.verify_env (Sample.request "bob@example.com");
             Flow.Issue (Sample.issue_env 2000) (Some "other");
             Flow.Sweep 3000] in
  let s2 := snd (Flow.run Sample.cfg es s1) in
  Flow.is_redirect
    (fst (Download.handler (Sample.download_env 4000) (Some "abc123")
                           (Flow.token_db s2))) = false
  /\ (Download.lookup_ok (Sample.download_env 4000) (Flow.token_db s2) = true ->
      fst (Download.handler (Sample.download_env 4000) (Some "abc123")
                            (Flow.token_db s2))
      = Some (Send 403 "Invalid or expired token.")).
Proof.
  apply (second_redeem_fails Sample.cfg
           (snd (Flow.run Sample.cfg
                   [Flow.Issue (Sample.issue_env 0) (Some "abc123")]
                   Sample.system))
           _ (Sample.download_env 1000) "abc123" Sample.signed_url).
  - reflexivity.
  - reflexivity.
  - reflexivity.
Defined.

(* ================================================================== *)
(** ** The validation handler *)
(* ================================================================== *)

Ltac unfold_verify :=
  unfold VerifyEmail.logEmail, VerifyEmail.isDomainAllowed,
    VerifyEmail.try_catch, VerifyEmail.bind, VerifyEmail.ret,
    VerifyEmail.lift, VerifyEmail.connectToDatabase,
    VerifyEmail.emails_insertOne, VerifyEmail.domains_findOne in *.

(** [logEmail] catches every error. *)
Lemma logEmail_total
      (env : VerifyEmail.Env) (e : string) (ua ip : option string)
      (st : VerifyEmail.State) :
  exists b, fst (VerifyEmail.logEmail env e ua ip st) = Ok b.
Proof.
  unfold_verify.
  destruct (VerifyEmail.cachedDb st), (VerifyEmail.log_connect_fails env),
    (VerifyEmail.getDomainFromEmail e), (VerifyEmail.log_insert_fails env);
    simpl; eauto.
Qed.

(** [logEmail] leaves the allowlist as it is; whether the connection is
    cached after it does not depend on the outcome of the insertion. *)
Lemma logEmail_frame
      (env : VerifyEmail.Env) (e : string) (ua ip : option string)
      (st : VerifyEmail.State) :
  VerifyEmail.allowed_domains (snd (VerifyEmail.logEmail env e ua ip st))
  = VerifyEmail.allowed_domains st
  /\ VerifyEmail.cachedDb (snd (VerifyEmail.logEmail env e ua ip st))
     = VerifyEmail.cachedDb st || negb (VerifyEmail.log_connect_fails env).
Proof.
  unfold_verify.
  destruct (VerifyEmail.cachedDb st) eqn:Ec,
    (VerifyEmail.log_connect_fails env),
    (VerifyEmail.getDomainFromEmail e), (VerifyEmail.log_insert_fails env);
    simpl; auto.
Qed.

(** The answer of the gate is a function of the connection cache, the
    allowlist and the two failure flags of the gate. *)
Lemma isDomainAllowed_answer
      (env : VerifyEmail.Env) (d : string) (st : VerifyEmail.State) :
  fst (VerifyEmail.isDomainAllowed env d st)
  = Ok ((VerifyEmail.cachedDb st || negb (VerifyEmail.gate_connect_fails env))
        && negb (VerifyEmail.gate_find_fails env)
        && match Mongo.findOne
                   (fun r => String.eqb (VerifyEmail.allowed_domain r)
                                        (toLowerCase d))
                   (VerifyEmail.allowed_domains st) with
           | Some _ => true
           | None => false
           end).
Proof.
  unfold_verify.
  destruct (VerifyEmail.cachedDb st), (VerifyEmail.gate_connect_fails env),
    (VerifyEmail.gate_find_fails env); simpl; reflexivity.
Qed.

Lemma isDomainAllowed_frame
      (env : VerifyEmail.Env) (d : string) (st : VerifyEmail.State) :
  VerifyEmail.allowed_domains (snd (VerifyEmail.isDomainAllowed env d st))
  = VerifyEmail.allowed_domains st
  /\ VerifyEmail.emails (snd (VerifyEmail.isDomainAllowed env d st))
     = VerifyEmail.emails st
  /\ exists rest,
       VerifyEmail.journal (snd (VerifyEmail.isDomainAllowed env d st))
       = VerifyEmail.journal st ++ rest
       /\ (rest = [] \/ rest = [VerifyEmail.OpFindDomain (toLowerCase d)]).
Proof.
  unfold_verify.
  destruct (VerifyEmail.cachedDb st), (VerifyEmail.gate_connect_fails env),
    (VerifyEmail.gate_find_fails env); simpl; repeat split; auto;
    solve [ exists []; rewrite List.app_nil_r; auto
          | eexists; split; [reflexivity | auto] ].
Qed.

Lemma body_email_inv (req : VerifyEmail.Request) (e : string) :
  VerifyEmail.body_email req = Some e ->
  VerifyEmail.body req = Some (Str e).
Proof.
  unfold VerifyEmail.body_email.
  destruct (VerifyEmail.body req) as [[|s|t x]|]; try discriminate.
  intros H. injection H as ->. reflexivity.
Qed.

(** [logEmail] on a value that is not a string: nothing is written. *)
Lemma logEmail_other_effects (env : VerifyEmail.Env) (st : VerifyEmail.State) :
  fst (VerifyEmail.logEmail_other env st) = Ok false
  /\ VerifyEmail.emails (snd (VerifyEmail.logEmail_other env st))
     = VerifyEmail.emails st
  /\ VerifyEmail.allowed_domains (snd (VerifyEmail.logEmail_other env st))
     = VerifyEmail.allowed_domains st
  /\ VerifyEmail.journal (snd (VerifyEmail.logEmail_other env st))
     = VerifyEmail.journal st.
Proof.
  unfold VerifyEmail.logEmail_other, VerifyEmail.try_catch, VerifyEmail.bind,
    VerifyEmail.ret, VerifyEmail.throw, VerifyEmail.connectToDatabase.
  destruct (VerifyEmail.cachedDb st), (VerifyEmail.log_connect_fails env);
    simpl; auto.
Qed.

(** What the route does with a request whose email is not a string that
    passes the format check: it answers without reading or writing a
    collection. *)
Lemma validate_not_logged
      (cfg : VerifyEmail.Config) (env : VerifyEmail.Env)
      (req : VerifyEmail.Request) (st : VerifyEmail.State) :
  (forall e, VerifyEmail.body_email req = Some e ->
             VerifyEmail.emailRegex_test e = false) ->
  let out := VerifyEmail.handler cfg env req st in
  VerifyEmail.emails (snd out) = VerifyEmail.emails st
  /\ VerifyEmail.allowed_domains (snd out) = VerifyEmail.allowed_domains st
  /\ VerifyEmail.journal (snd out) = VerifyEmail.journal st
  /\ (VerifyEmail.unreadable req = true ->
      fst out = VerifyEmail.Json 500
                  (VerifyEmail.Message
                     "Unable to verify email. Please try again later."))
  /\ (VerifyEmail.unreadable req = false ->
      snd out = st
      /\ exists m, fst out = VerifyEmail.Json 400 (VerifyEmail.Message m)).
Proof.
  intros Hbad. cbv zeta.
  unfold VerifyEmail.handler, VerifyEmail.unreadable, VerifyEmail.body_email
    in *.
  destruct (VerifyEmail.body req) as [[|[|c s]|[|] [x|]]|]; cbn [negb].
  all: try (rewrite (Hbad _ eq_refl)).
  all: try (destruct (VerifyEmail.emailRegex_test x) eqn:Hre; cbn [negb]).
  all: try (unfold VerifyEmail.bind;
            destruct (logEmail_other_effects env st) as (Hr & He & Hd & Hj);
            destruct (VerifyEmail.logEmail_other env st) as [lr st1];
            cbn [fst snd] in *; subst lr).
  all: cbn; repeat split; auto; intros; try discriminate; eauto.
Qed.

Lemma validate_never_200
      (cfg : VerifyEmail.Config) (env : VerifyEmail.Env)
      (req : VerifyEmail.Request) (st : VerifyEmail.State)
      (body : VerifyEmail.Body) :
  (forall e, VerifyEmail.body_email req = Some e ->
             VerifyEmail.emailRegex_test e = false) ->
  fst (VerifyEmail.handler cfg env req st) <> VerifyEmail.Json 200 body.
Proof.
  intros Hbad.
  destruct (validate_not_logged cfg env req st Hbad)
    as (_ & _ & _ & H500 & H400).
  destruct (VerifyEmail.unreadable req).
  - rewrite (H500 eq_refl). discriminate.
  - destruct (H400 eq_refl) as (_ & m & ->). discriminate.
Qed.

(** The handler on an email that passes the format check: the email is
    logged, then the gate is asked, and its answer decides the response. *)
Lemma validate_wellformed
      (cfg : VerifyEmail.Config) (env : VerifyEmail.Env)
      (req : VerifyEmail.Request) (st : VerifyEmail.State) (e : string) :
  VerifyEmail.body_email req = Some e ->
  VerifyEmail.emailRegex_test e = true ->
  exists u,
    VerifyEmail.generateRedirectUrl cfg e = Ok u
    /\ VerifyEmail.handler cfg env req st
       = let st1 := snd (VerifyEmail.logEmail env e
                           (VerifyEmail.header_user_agent req) (VerifyEmail.ip_of req) st) in
         let g := VerifyEmail.isDomainAllowed env
                    (toLowerCase (Design.after_at e)) st1 in
         (match fst g with
          | Ok true =>
              VerifyEmail.Json 200
                (VerifyEmail.Validated "Email validated successfully" u)
          | _ =>
              VerifyEmail.Json 400
                (VerifyEmail.Message
                   "Please enter your work email address for verification")
          end, snd g).
Proof.
  intros Hbody Hre.
  destruct (generateRedirectUrl_wellformed cfg e Hre) as [u Hu].
  exists u. split; [exact Hu|].
  destruct (emailRegex_nonempty e Hre) as (c & s & He).
  subst e. unfold VerifyEmail.handler.
  rewrite (body_email_inv req _ Hbody).
  cbv beta iota zeta. rewrite Hre. cbn [negb].
  unfold VerifyEmail.bind at 1.
  set (e := String c s) in *.
  destruct (logEmail_total env e (VerifyEmail.header_user_agent req)
                           (VerifyEmail.ip_of req) st) as [b Hb].
  destruct (VerifyEmail.logEmail env e (VerifyEmail.header_user_agent req)
                                 (VerifyEmail.ip_of req) st) as [lr st1].
  simpl in Hb. subst lr. cbn [snd].
  unfold VerifyEmail.bind at 1, VerifyEmail.lift.
  rewrite (getDomainFromEmail_wellformed e Hre).
  unfold VerifyEmail.bind at 1.
  destruct (isDomainAllowed_total env (toLowerCase (Design.after_at e)) st1)
    as [a Ha].
  destruct (VerifyEmail.isDomainAllowed env
              (toLowerCase (Design.after_at e)) st1) as [gr st2].
  simpl in Ha. subst gr. cbn [fst snd].
  destruct a; cbn [negb].
  - unfold VerifyEmail.bind, VerifyEmail.ret. now rewrite Hu.
  - reflexivity.
Qed.

Lemma logEmail_writes
      (env : VerifyEmail.Env) (e : string) (ua ip : option string)
      (st : VerifyEmail.State) :
  VerifyEmail.emailRegex_test e = true ->
  VerifyEmail.cachedDb st || negb (VerifyEmail.log_connect_fails env) = true ->
  VerifyEmail.log_insert_fails env = false ->
  let entry := VerifyEmail.mkEmailEntry e (VerifyEmail.clock env)
                 (or_default ua "Unknown") (or_default ip "Unknown")
                 (toLowerCase (Design.after_at e)) in
  VerifyEmail.emails (snd (VerifyEmail.logEmail env e ua ip st))
  = VerifyEmail.emails st ++ [entry]
  /\ VerifyEmail.journal (snd (VerifyEmail.logEmail env e ua ip st))
     = VerifyEmail.journal st ++ [VerifyEmail.OpInsertEmail entry].
Proof.
  intros Hre Hc Hi entry. subst entry. unfold_verify.
  rewrite (getDomainFromEmail_wellformed e Hre), Hi.
  destruct (VerifyEmail.cachedDb st), (VerifyEmail.log_connect_fails env);
    simpl in *; try discriminate; auto.
Qed.

(** The handler never changes the allowlist. *)
Lemma validate_keeps_allowlist
      (cfg : VerifyEmail.Config) (env : VerifyEmail.Env)
      (req : VerifyEmail.Request) (st : VerifyEmail.State) :
  VerifyEmail.allowed_domains (snd (VerifyEmail.handler cfg env req st))
  = VerifyEmail.allowed_domains st.
Proof.
  destruct (VerifyEmail.body_email req) as [e|] eqn:Hbody.
  - destruct (VerifyEmail.emailRegex_test e) eqn:Hre.
    + destruct (validate_wellformed cfg env req st e Hbody Hre)
        as (u & _ & ->).
      cbv zeta. cbn [snd].
      rewrite (proj1 (isDomainAllowed_frame _ _ _)).
      apply logEmail_frame.
    + apply (validate_not_logged cfg env req st).
      intros e' He'. congruence.
  - apply (validate_not_logged cfg env req st).
    intros e' He'. congruence.
Qed.

Lemma validate_rejected
      (cfg : VerifyEmail.Config) (env : VerifyEmail.Env)
      (req : VerifyEmail.Request) (st : VerifyEmail.State) (e : string) :
  VerifyEmail.body_email req = Some e ->
  VerifyEmail.emailRegex_test e = true ->
  Mongo.findOne
    (fun r => String.eqb (VerifyEmail.allowed_domain r)
                         (toLowerCase (Design.after_at e)))
    (VerifyEmail.allowed_domains st) = None ->
  fst (VerifyEmail.handler cfg env req st)
  = VerifyEmail.Json 400
      (VerifyEmail.Message
         "Please enter your work email address for verification").
Proof.
  intros Hbody Hre Hnone.
  destruct (validate_wellformed cfg env req st e Hbody Hre) as (u & _ & ->).
  cbv zeta. cbn [fst].
  rewrite isDomainAllowed_answer, toLowerCase_idempotent.
  rewrite (proj1 (logEmail_frame _ _ _ _ _)), Hnone.
  now rewrite andb_false_r.
Qed.

Lemma validate_accepted
      (cfg : VerifyEmail.Config) (env : VerifyEmail.Env)
      (req : VerifyEmail.Request) (st : VerifyEmail.State) (e : string)
      (d : VerifyEmail.DomainRecord) :
  VerifyEmail.body_email req = Some e ->
  VerifyEmail.emailRegex_test e = true ->
  Mongo.findOne
    (fun r => String.eqb (VerifyEmail.allowed_domain r)
                         (toLowerCase (Design.after_at e)))
    (VerifyEmail.allowed_domains st) = Some d ->
  VerifyEmail.gate_connect_fails env = false ->
  VerifyEmail.gate_find_fails env = false ->
  exists u,
    VerifyEmail.generateRedirectUrl cfg e = Ok u
    /\ fst (VerifyEmail.handler cfg env req st)
       = VerifyEmail.Json 200
           (VerifyEmail.Validated "Email validated successfully" u).
Proof.
  intros Hbody Hre Hsome Hgc Hgf.
  destruct (validate_wellformed cfg env req st e Hbody Hre) as (u & Hu & ->).
  exists u. split; [exact Hu|].
  cbv zeta. cbn [fst].
  rewrite isDomainAllowed_answer, toLowerCase_idempotent.
  rewrite (proj1 (logEmail_frame _ _ _ _ _)), Hsome, Hgc, Hgf.
  now rewrite orb_true_r.
Qed.

(* ================================================================== *)
(** ** Sequences of requests *)
(* ================================================================== *)

Lemma serve_validate
      (cfg : VerifyEmail.Config) (env : VerifyEmail.Env)
      (req : VerifyEmail.Request) (s : Flow.System) :
  Flow.serve cfg (Flow.Validate env req) s
  = (Flow.ValidateReply
       (fst (VerifyEmail.handler cfg env req (Flow.verify_db s))),
     Flow.mkSystem (Flow.token_db s)
       (snd (VerifyEmail.handler cfg env req (Flow.verify_db s)))).
Proof.
  simpl. now destruct (VerifyEmail.handler cfg env req (Flow.verify_db s)).
Qed.

Lemma serve_redeem
      (cfg : VerifyEmail.Config) (env : Download.Env) (q : option string)
      (s : Flow.System) :
  Flow.serve cfg (Flow.Redeem env q) s
  = (Flow.TokenReply (fst (Download.handler env q (Flow.token_db s))),
     Flow.mkSystem (snd (Download.handler env q (Flow.token_db s)))
                   (Flow.verify_db s)).
Proof.
  simpl. now destruct (Download.handler env q (Flow.token_db s)).
Qed.

Lemma run_cons
      (cfg : VerifyEmail.Config) (e : Flow.Event) (es : list Flow.Event)
      (s : Flow.System) :
  Flow.run cfg (e :: es) s
  = (fst (Flow.serve cfg e s)
       :: fst (Flow.run cfg es (snd (Flow.serve cfg e s))),
     snd (Flow.run cfg es (snd (Flow.serve cfg e s)))).
Proof.
  simpl. destruct (Flow.serve cfg e s) as [r s1]. simpl.
  now destruct (Flow.run cfg es s1).
Qed.



(* ================================================================== *)
(** ** Redemption and email validation *)
(* ================================================================== *)








(** C9. A rejected email leaves the token store as it is: when the domain
    of a well-formed email is not on the allowlist, validating it twice is
    answered with the rejection both times and the token store is unchanged;
    a token with a record is then still redeemed, and an email with an
    allowed domain is then still accepted. *)
Theorem rejection_preserves_token
        (cfg : VerifyEmail.Config) (s : Flow.System)
        (env1 env2 env3 : VerifyEmail.Env) (req req3 : VerifyEmail.Request)
        (e good : string) (d : VerifyEmail.DomainRecord)
        (envR : Download.Env) (t url : string) (r : TokenDb.TokenRecord) :
  VerifyEmail.body_email req = Some e ->
  VerifyEmail.emailRegex_test e = true ->
  Mongo.findOne
    (fun x => String.eqb (VerifyEmail.allowed_domain x)
                         (toLowerCase (Design.after_at e)))
    (VerifyEmail.allowed_domains (Flow.verify_db s)) = None ->
  Js.truthy (Some t) = true ->
  Mongo.findOne (TokenDb.by_token t) (TokenDb.tokens (Flow.token_db s))
  = Some r ->
  Download.lookup_ok envR (Flow.token_db s) = true ->
  Download.deleteOne_fails envR = false ->
  Download.getSignedUrl envR (Download.command envR) 60 = Some url ->
  VerifyEmail.body_email req3 = Some good ->
  VerifyEmail.emailRegex_test good = true ->
  Mongo.findOne
    (fun x => String.eqb (VerifyEmail.allowed_domain x)
                         (toLowerCase (Design.after_at good)))
    (VerifyEmail.allowed_domains (Flow.verify_db s)) = Some d ->
  VerifyEmail.gate_connect_fails env3 = false ->
  VerifyEmail.gate_find_fails env3 = false ->
  let rejected :=
    Flow.ValidateReply
      (VerifyEmail.Json 400
         (VerifyEmail.Message
            "Please enter your work email address for verification")) in
  Flow.token_db
    (snd (Flow.run cfg [Flow.Validate env1 req; Flow.Validate env2 req] s))
  = Flow.token_db s
  /\ fst (Flow.run cfg [Flow.Validate env1 req; Flow.Validate env2 req;
                        Flow.Redeem envR (Some t)] s)
     = [rejected; rejected; Flow.TokenReply (Some (Redirect url))]
  /\ exists u,
       VerifyEmail.generateRedirectUrl cfg good = Ok u
       /\ fst (Flow.run cfg [Flow.Validate env1 req; Flow.Validate env2 req;
                             Flow.Validate env3 req3] s)
          = [rejected; rejected;
             Flow.ValidateReply
               (VerifyEmail.Json 200
                  (VerifyEmail.Validated "Email validated successfully" u))].
Proof.
  intros Hbody Hre Hnone Ht Hfind Hok Hdel Hsign Hbody3 Hre3 Hsome Hgc Hgf
         rejected.
  set (v1 := snd (VerifyEmail.handler cfg env1 req (Flow.verify_db s))).
  set (v2 := snd (VerifyEmail.handler cfg env2 req v1)).
  assert (Hd1 : VerifyEmail.allowed_domains v1
                = VerifyEmail.allowed_domains (Flow.verify_db s))
    by apply validate_keeps_allowlist.
  assert (Hd2 : VerifyEmail.allowed_domains v2
                = VerifyEmail.allowed_domains (Flow.verify_db s))
    by (unfold v2; now rewrite validate_keeps_allowlist).
  assert (Hr1 : fst (VerifyEmail.handler cfg env1 req (Flow.verify_db s))
                = VerifyEmail.Json 400
                    (VerifyEmail.Message
                       "Please enter your work email address for verification"))
    by now apply (validate_rejected cfg env1 req _ e).
  assert (Hr2 : fst (VerifyEmail.handler cfg env2 req v1)
                = VerifyEmail.Json 400
                    (VerifyEmail.Message
                       "Please enter your work email address for verification"))
    by (apply (validate_rejected cfg env2 req _ e); auto; now rewrite Hd1).
  split; [|split].
  - rewrite !run_cons, !serve_validate. reflexivity.
  - rewrite !run_cons, !serve_validate, serve_redeem. cbn [fst snd].
    cbn [Flow.token_db Flow.verify_db]. fold v1. fold v2.
    rewrite Hr1, Hr2, (download_found envR t _ r url); auto.
  - destruct (validate_accepted cfg env3 req3 v2 good d) as (u & Hu & Hr3);
      auto; [now rewrite Hd2|].
    exists u. split; [exact Hu|].
    rewrite !run_cons, !serve_validate. cbn [fst snd].
    cbn [Flow.token_db Flow.verify_db]. fold v1. fold v2.
    now rewrite Hr1, Hr2, Hr3.
Qed.

Lemma rejection_preserves_token_witness :
  let s := snd (Flow.run Sample.cfg
                  [Flow.Issue (Sample.issue_env 0) (Some "abc123")]
                  Sample.system) in
  let bad := Sample.request "bob@other.org" in
  let good := Sample.request "Bob@Example.COM" in
  let rejected :=
    Flow.ValidateReply
      (VerifyEmail.Json 400
         (VerifyEmail.Message
            "Please enter your work email address for verification")) in
  Flow.token_db
    (snd (Flow.run Sample.cfg
            [Flow.Validate Sample.verify_env bad;
             Flow.Validate Sample.verify_env_gate_down bad] s))
  = Flow.token_db s
  /\ fst (Flow.run Sample.cfg
            [Flow.Validate Sample.verify_env bad;
             Flow.Validate Sample.verify_env_gate_down bad;
             Flow.Redeem (Sample.download_env 1000) (Some "abc123")] s)
     = [rejected; rejected; Flow.TokenReply (Some (Redirect Sample.signed_url))]
  /\ exists u,
       VerifyEmail.generateRedirectUrl Sample.cfg "Bob@Example.COM" = Ok u
       /\ fst (Flow.run Sample.cfg
                 [Flow.Validate Sample.verify_env bad;
                  Flow.Validate Sample.verify_env_gate_down bad;
                  Flow.Validate Sample.verify_env good] s)
          = [rejected; rejected;
             Flow.ValidateReply
               (VerifyEmail.Json 200
                  (VerifyEmail.Validated "Email validated successfully" u))].
Proof.
  apply (rejection_preserves_token Sample.cfg
           (snd (Flow.run Sample.cfg
                   [Flow.Issue (Sample.issue_env 0) (Some "abc123")]
                   Sample.system))
           Sample.verify_env Sample.verify_env_gate_down Sample.verify_env
           (Sample.request "bob@other.org") (Sample.request "Bob@Example.COM")
           "bob@other.org" "Bob@Example.COM"
           (VerifyEmail.mkDomainRecord "example.com" 0 "system")
           (Sample.download_env 1000) "abc123" Sample.signed_url
           (TokenDb.mkTokenRecord "abc123" 0 60000)).
  all: reflexivity.
Defined.

(* ================================================================== *)
(** ** The email log *)
(* ================================================================== *)

(** The connection that [logEmail] makes serves the gate as well: on the
    allowlisted address [bob@example.com], with no connection cached and
    with a gate that cannot connect by itself, the request is accepted when
    the logging connects, and rejected when the logging fails to connect. *)
Lemma logging_failure_changes_response :
  let req := Sample.request "bob@example.com" in
  let logging_works := VerifyEmail.mkEnv 5 false false true false in
  let logging_fails := VerifyEmail.mkEnv 5 true false true false in
  fst (VerifyEmail.handler Sample.cfg logging_works req Sample.verify_state)
  = VerifyEmail.Json 200
      (VerifyEmail.Validated "Email validated successfully"
         "https://example.example.net/x?e=bob@example.com")
  /\ fst (VerifyEmail.handler Sample.cfg logging_fails req Sample.verify_state)
     = VerifyEmail.Json 400
         (VerifyEmail.Message
            "Please enter your work email address for verification")
  /\ fst (VerifyEmail.handler Sample.cfg logging_works req Sample.verify_state)
     <> fst (VerifyEmail.handler Sample.cfg logging_fails req
                                 Sample.verify_state).
Proof. repeat split; try reflexivity. discriminate. Qed.

(** C10, as the code has it.  An email that passes the format check is
    written to the email log with the time, the user agent, the address and
    the lowercased domain, before the allowlist is asked and whatever the
    gate then answers.  A failure of the insertion never changes the
    response, and a failure of the logging's connection does not change it
    when a connection is cached already or the gate can connect by itself;
    when neither holds, the gate fails closed and the response is the
    rejection.  A request whose email is missing or fails the format check
    leaves the store as it is, and no other email than a string that passes
    the check is logged. *)
Theorem wellformed_email_logged
        (cfg : VerifyEmail.Config) (env : VerifyEmail.Env)
        (req : VerifyEmail.Request) (st : VerifyEmail.State) (e : string) :
  VerifyEmail.body_email req = Some e ->
  VerifyEmail.emailRegex_test e = true ->
  let entry :=
    VerifyEmail.mkEmailEntry e (VerifyEmail.clock env)
      (or_default (VerifyEmail.header_user_agent req) "Unknown")
      (or_default (VerifyEmail.ip_of req) "Unknown")
      (toLowerCase (Design.after_at e)) in
  let st' := snd (VerifyEmail.handler cfg env req st) in
  let with_logging (connect_fails insert_fails : bool) :=
    VerifyEmail.mkEnv (VerifyEmail.clock env) connect_fails insert_fails
                      (VerifyEmail.gate_connect_fails env)
                      (VerifyEmail.gate_find_fails env) in
  (VerifyEmail.cachedDb st || negb (VerifyEmail.log_connect_fails env) = true ->
   VerifyEmail.log_insert_fails env = false ->
   VerifyEmail.emails st' = VerifyEmail.emails st ++ [entry]
   /\ exists rest,
        VerifyEmail.journal st'
        = VerifyEmail.journal st ++ VerifyEmail.OpInsertEmail entry :: rest
        /\ (rest = []
            \/ rest = [VerifyEmail.OpFindDomain
                         (toLowerCase (Design.after_at e))]))
  /\ (forall connect_fails insert_fails : bool,
        connect_fails = VerifyEmail.log_connect_fails env
        \/ VerifyEmail.gate_connect_fails env = false
        \/ VerifyEmail.cachedDb st = true ->
        fst (VerifyEmail.handler cfg (with_logging connect_fails insert_fails)
                                 req st)
        = fst (VerifyEmail.handler cfg env req st))
  /\ (forall insert_fails : bool,
        VerifyEmail.cachedDb st = false ->
        VerifyEmail.gate_connect_fails env = true ->
        fst (VerifyEmail.handler cfg (with_logging true insert_fails) req st)
        = VerifyEmail.Json 400
            (VerifyEmail.Message
               "Please enter your work email address for verification"))
  /\ (forall req' : VerifyEmail.Request,
        (forall e', VerifyEmail.checked_text req' = Some e' ->
                    VerifyEmail.emailRegex_test e' = false) ->
        snd (VerifyEmail.handler cfg env req' st) = st)
  /\ (forall req' : VerifyEmail.Request,
        (forall e', VerifyEmail.body_email req' = Some e' ->
                    VerifyEmail.emailRegex_test e' = false) ->
        VerifyEmail.emails (snd (VerifyEmail.handler cfg env req' st))
        = VerifyEmail.emails st
        /\ VerifyEmail.journal (snd (VerifyEmail.handler cfg env req' st))
           = VerifyEmail.journal st).
Proof.
  intros Hbody Hre entry st' with_logging. split; [|split; [|split; [|split]]].
  - intros Hc Hi. subst st'.
    destruct (validate_wellformed cfg env req st e Hbody Hre) as (u & _ & ->).
    cbv zeta. cbn [snd].
    destruct (isDomainAllowed_frame env (toLowerCase (Design.after_at e))
                (snd (VerifyEmail.logEmail env e
                        (VerifyEmail.header_user_agent req)
                        (VerifyEmail.ip_of req) st)))
      as (_ & Hem & rest & Hj & Hrest).
    destruct (logEmail_writes env e (VerifyEmail.header_user_agent req)
                (VerifyEmail.ip_of req) st Hre Hc Hi) as [Hle Hlj].
    split.
    + now rewrite Hem, Hle.
    + exists rest. split.
      * rewrite Hj, Hlj, <- List.app_assoc. reflexivity.
      * rewrite toLowerCase_idempotent in Hrest. exact Hrest.
  - intros connect_fails insert_fails Hcf. subst with_logging.
    destruct (validate_wellformed cfg env req st e Hbody Hre) as (u & Hu & ->).
    destruct (validate_wellformed cfg
                (VerifyEmail.mkEnv (VerifyEmail.clock env)
                   connect_fails insert_fails
                   (VerifyEmail.gate_connect_fails env)
                   (VerifyEmail.gate_find_fails env)) req st e Hbody Hre)
      as (u' & Hu' & ->).
    assert (u' = u) by congruence. subst u'.
    cbv zeta. cbn [fst]. rewrite !isDomainAllowed_answer.
    rewrite !(proj1 (logEmail_frame _ _ _ _ _)).
    rewrite !(proj2 (logEmail_frame _ _ _ _ _)).
    cbn [VerifyEmail.log_connect_fails VerifyEmail.gate_connect_fails
         VerifyEmail.gate_find_fails].
    destruct Hcf as [-> | [-> | ->]]; [reflexivity| |reflexivity].
    now rewrite !orb_true_r.
  - intros insert_fails Hc Hg. subst with_logging.
    destruct (validate_wellformed cfg
                (VerifyEmail.mkEnv (VerifyEmail.clock env) true insert_fails
                   (VerifyEmail.gate_connect_fails env)
                   (VerifyEmail.gate_find_fails env)) req st e Hbody Hre)
      as (u' & Hu' & ->).
    cbv zeta. cbn [fst]. rewrite isDomainAllowed_answer.
    rewrite (proj2 (logEmail_frame _ _ _ _ _)).
    cbn [VerifyEmail.log_connect_fails VerifyEmail.gate_connect_fails
         VerifyEmail.gate_find_fails].
    now rewrite Hc, Hg.
  - intros req' Hreq'.
    unfold VerifyEmail.handler, VerifyEmail.checked_text in *.
    destruct (VerifyEmail.body req') as [[|[|c s]|[|] [x|]]|];
      try reflexivity; now rewrite (Hreq' _ eq_refl).
  - intros req' Hreq'.
    destruct (validate_not_logged cfg env req' st Hreq')
      as (He & _ & Hj & _). auto.
Qed.

Lemma wellformed_email_logged_witness :
  let req := Sample.request "bob@example.com" in
  let env := VerifyEmail.mkEnv 5 false false true false in
  let entry := VerifyEmail.mkEmailEntry "bob@example.com" 5 "curl/8"
                                        "10.0.0.1" "example.com" in
  let st' := snd (VerifyEmail.handler Sample.cfg env req
                                      Sample.verify_state) in
  (true = true -> false = false ->
   VerifyEmail.emails st' = [entry]
   /\ exists rest,
        VerifyEmail.journal st' = VerifyEmail.OpInsertEmail entry :: rest
        /\ (rest = [] \/ rest = [VerifyEmail.OpFindDomain "example.com"]))
  /\ (forall connect_fails insert_fails : bool,
        connect_fails = false \/ true = false \/ false = true ->
        fst (VerifyEmail.handler Sample.cfg
               (VerifyEmail.mkEnv 5 connect_fails insert_fails true false) req
               Sample.verify_state)
        = fst (VerifyEmail.handler Sample.cfg env req Sample.verify_state))
  /\ (forall insert_fails : bool,
        false = false -> true = true ->
        fst (VerifyEmail.handler Sample.cfg
               (VerifyEmail.mkEnv 5 true insert_fails true false) req
               Sample.verify_state)
        = VerifyEmail.Json 400
            (VerifyEmail.Message
               "Please enter your work email address for verification"))
  /\ (forall req' : VerifyEmail.Request,
        (forall e', VerifyEmail.checked_text req' = Some e' ->
                    VerifyEmail.emailRegex_test e' = false) ->
        snd (VerifyEmail.handler Sample.cfg env req' Sample.verify_state)
        = Sample.verify_state)
  /\ (forall req' : VerifyEmail.Request,
        (forall e', VerifyEmail.body_email req' = Some e' ->
                    VerifyEmail.emailRegex_test e' = false) ->
        VerifyEmail.emails
          (snd (VerifyEmail.handler Sample.cfg env req' Sample.verify_state))
        = []
        /\ VerifyEmail.journal
             (snd (VerifyEmail.handler Sample.cfg env req'
                                       Sample.verify_state))
           = []).
Proof.
  apply (wellformed_email_logged Sample.cfg
           (VerifyEmail.mkEnv 5 false false true false)
           (Sample.request "bob@example.com") Sample.verify_state
           "bob@example.com").
  - reflexivity.
  - reflexivity.
Defined.


(* ================================================================== *)
(** ** More on the token endpoints *)
(* ================================================================== *)

Section MoreCollections.

Context {A : Type}.

Lemma count_pos_findOne (q : A -> bool) (c : list A) :
  (0 < Mongo.count q c)%nat -> exists x, Mongo.findOne q c = Some x.
Proof.
  unfold Mongo.count, Mongo.findOne.
  induction c as [|x c IH]; simpl; [lia|].
  destruct (q x); simpl; eauto.
Qed.

Lemma filter_deleteOne_other (p q : A -> bool) (c : list A) :
  (forall x, q x = true -> p x = false) ->
  List.filter p (Mongo.deleteOne q c) = List.filter p c.
Proof.
  intros H. induction c as [|x c IH]; simpl; [reflexivity|].
  destruct (q x) eqn:E; simpl.
  - now rewrite (H x E).
  - now rewrite IH.
Qed.

Lemma deleteOne_first_match (q : A -> bool) (pre post : list A) (x : A) :
  Mongo.count q pre = 0%nat -> q x = true ->
  Mongo.deleteOne q (pre ++ x :: post) = pre ++ post.
Proof.
  unfold Mongo.count. intros Hpre Hx.
  induction pre as [|y pre IH]; simpl in *.
  - now rewrite Hx.
  - destruct (q y); simpl in *; [discriminate|]. now rewrite IH.
Qed.

Lemma findOne_first_match (q : A -> bool) (pre post : list A) (x : A) :
  Mongo.count q pre = 0%nat -> q x = true ->
  Mongo.findOne q (pre ++ x :: post) = Some x.
Proof.
  unfold Mongo.count, Mongo.findOne. intros Hpre Hx.
  induction pre as [|y pre IH]; simpl in *.
  - now rewrite Hx.
  - destruct (q y); simpl in *; [discriminate|]. now apply IH.
Qed.

End MoreCollections.

Lemma by_token_other (t t' : string) (r : TokenDb.TokenRecord) :
  t <> t' -> TokenDb.by_token t r = true -> TokenDb.by_token t' r = false.
Proof.
  unfold TokenDb.by_token. intros Hne H. apply String.eqb_eq in H.
  apply String.eqb_neq. congruence.
Qed.

(** X1. A redeem request for one token value never touches the records of
    another value, whatever happens to the request. *)
Theorem redeem_leaves_other_tokens
        (env : Download.Env) (q : option string) (st : TokenDb.State)
        (t' : string) :
  q <> Some t' ->
  List.filter (TokenDb.by_token t')
              (TokenDb.tokens (snd (Download.handler env q st)))
  = List.filter (TokenDb.by_token t') (TokenDb.tokens st).
Proof.
  intros Hq. unfold_download.
  destruct q as [[|c s]|]; simpl; try reflexivity.
  assert (Hne : String c s <> t') by congruence.
  split_download env st (String c s); try reflexivity;
    apply filter_deleteOne_other; intros x; now apply by_token_other.
Qed.

Lemma redeem_leaves_other_tokens_witness :
  let st := TokenDb.mkState true
              [TokenDb.mkTokenRecord "abc123" 0 60000;
               TokenDb.mkTokenRecord "other" 5 60005] true in
  List.filter (TokenDb.by_token "other")
    (TokenDb.tokens
       (snd (Download.handler (Sample.download_env 1000) (Some "abc123") st)))
  = [TokenDb.mkTokenRecord "other" 5 60005].
Proof.
  apply (redeem_leaves_other_tokens (Sample.download_env 1000)
           (Some "abc123")
           (TokenDb.mkState true
              [TokenDb.mkTokenRecord "abc123" 0 60000;
               TokenDb.mkTokenRecord "other" 5 60005] true) "other").
  discriminate.
Defined.

(** X2. A redeem request that is served alone, with no other request
    between its lookup and its deletion, sends a redirect only after it
    has removed one record of the token: the number of records of the value
    goes down by exactly one.  (With two requests in flight at once this
    fails: when both lookups are served before either deletion, the second
    deletion removes nothing and its request is redirected all the same.) *)
Theorem redirect_removes_one_record
        (env : Download.Env) (q : option string) (st : TokenDb.State)
        (url : string) :
  fst (Download.handler env q st) = Some (Redirect url) ->
  exists t,
    q = Some t
    /\ S (Mongo.count (TokenDb.by_token t)
            (TokenDb.tokens (snd (Download.handler env q st))))
       = Mongo.count (TokenDb.by_token t) (TokenDb.tokens st).
Proof.
  intros H.
  destruct (download_redirect_inv env q st url H) as (t & Hq & Htok).
  exists t. split; [exact Hq|].
  rewrite Htok, count_deleteOne.
  assert (Hpos : (0 < Mongo.count (TokenDb.by_token t) (TokenDb.tokens st))%nat).
  { destruct (Mongo.count (TokenDb.by_token t) (TokenDb.tokens st)) eqn:E;
      [|lia].
    apply count_zero_findOne in E.
    pose proof (download_absent_no_redirect env t st E) as Hno.
    subst q. rewrite H in Hno. discriminate. }
  lia.
Qed.

Lemma redirect_removes_one_record_witness :
  let st := TokenDb.mkState true
              [TokenDb.mkTokenRecord "abc123" 0 60000;
               TokenDb.mkTokenRecord "abc123" 5 60005] true in
  exists t,
    Some "abc123" = Some t
    /\ S (Mongo.count (TokenDb.by_token t)
            (TokenDb.tokens
               (snd (Download.handler (Sample.download_env 1000)
                                      (Some "abc123") st))))
       = Mongo.count (TokenDb.by_token t) (TokenDb.tokens st).
Proof.
  apply (redirect_removes_one_record (Sample.download_env 1000)
           (Some "abc123")
           (TokenDb.mkState true
              [TokenDb.mkTokenRecord "abc123" 0 60000;
               TokenDb.mkTokenRecord "abc123" 5 60005] true)
           Sample.signed_url).
  reflexivity.
Defined.

(** X3. A token value held by [n] records is redeemed exactly [n] times:
    of [k] redeem requests served in turn while store and presigner work,
    the first [min k n] are answered with the redirect and the others are
    not. *)
Theorem redeemed_as_often_as_issued
        (cfg : VerifyEmail.Config) (t : string) (envs : list Download.Env)
        (s : Flow.System) (n : nat) :
  Js.truthy (Some t) = true ->
  List.Forall
    (fun env => Download.connect_fails env = false
                /\ Download.findOne_fails env = false
                /\ Download.deleteOne_fails env = false
                /\ Download.getSignedUrl env (Download.command env) 60 <> None)
    envs ->
  Mongo.count (TokenDb.by_token t) (TokenDb.tokens (Flow.token_db s)) = n ->
  List.map Flow.consumed
    (fst (Flow.run cfg
            (List.map (fun env => Flow.Redeem env (Some t)) envs) s))
  = List.repeat true (Nat.min (List.length envs) n)
    ++ List.repeat false (List.length envs - n).
Proof.
  intros Ht Henvs. revert s n.
  induction Henvs as [|env envs (Hc & Hf & Hd & Hs) _ IH];
    intros s n Hn.
  - reflexivity.
  - cbn [List.map List.length]. rewrite run_cons, serve_redeem.
    cbn [fst snd List.map].
    assert (Hok : Download.lookup_ok env (Flow.token_db s) = true).
    { unfold Download.lookup_ok. rewrite Hc, Hf. now rewrite orb_true_r. }
    destruct n as [|n].
    + apply count_zero_findOne in Hn as Hnone.
      rewrite (download_absent env t _ Ht Hok Hnone). cbn [fst snd].
      rewrite (IH _ 0%nat) by exact Hn.
      rewrite Nat.min_0_r, Nat.sub_0_r. reflexivity.
    + destruct (count_pos_findOne (TokenDb.by_token t)
                  (TokenDb.tokens (Flow.token_db s))) as [r Hr]; [lia|].
      destruct (Download.getSignedUrl env (Download.command env) 60)
        as [url|] eqn:Hurl; [|congruence].
      rewrite (download_found env t _ r url Ht Hok Hd Hr Hurl).
      cbn [fst snd].
      rewrite (IH _ n).
      * reflexivity.
      * cbn [Flow.token_db TokenDb.tokens].
        rewrite count_deleteOne, Hn. reflexivity.
Qed.

Lemma redeemed_as_often_as_issued_witness :
  let s := Flow.mkSystem
             (TokenDb.mkState true
                [TokenDb.mkTokenRecord "abc123" 0 60000;
                 TokenDb.mkTokenRecord "abc123" 5 60005] true)
             Sample.verify_state in
  let envs := [Sample.download_env 1000; Sample.download_env 2000;
               Sample.download_env 3000] in
  List.map Flow.consumed
    (fst (Flow.run Sample.cfg
            (List.map (fun env => Flow.Redeem env (Some "abc123")) envs) s))
  = [true; true; false].
Proof.
  apply (redeemed_as_often_as_issued Sample.cfg "abc123"
           [Sample.download_env 1000; Sample.download_env 2000;
            Sample.download_env 3000]
           (Flow.mkSystem
              (TokenDb.mkState true
                 [TokenDb.mkTokenRecord "abc123" 0 60000;
                  TokenDb.mkTokenRecord "abc123" 5 60005] true)
              Sample.verify_state) 2).
  - reflexivity.
  - repeat constructor; discriminate.
  - reflexivity.
Defined.




(** X5. A failure of the store never consumes a token: when the connection,
    the lookup or the deletion fails, the records are as before and no
    redirect is sent. *)
Theorem store_failure_keeps_token
        (env : Download.Env) (q : option string) (st : TokenDb.State) :
  (TokenDb.db st = false /\ Download.connect_fails env = true)
  \/ Download.findOne_fails env = true
  \/ Download.deleteOne_fails env = true ->
  TokenDb.tokens (snd (Download.handler env q st)) = TokenDb.tokens st
  /\ Flow.is_redirect (fst (Download.handler env q st)) = false.
Proof.
  intros H. unfold_download.
  destruct q as [[|c s]|]; simpl; auto.
  destruct st as [dbc toks ttl]. cbn [TokenDb.db TokenDb.tokens] in *.
  destruct H as [[Hdb Hc] | [Hf | Hd]].
  - subst dbc. rewrite Hc. simpl. auto.
  - rewrite Hf. destruct dbc, (Download.connect_fails env); simpl; auto.
  - rewrite Hd.
    destruct dbc, (Download.connect_fails env),
      (Download.findOne_fails env); simpl; auto;
      destruct (Mongo.findOne (TokenDb.by_token (String c s)) toks);
      simpl; auto.
Qed.

Lemma store_failure_keeps_token_witness :
  let env := Download.mkEnv 1000 false false true 42 (Some "bucket")
                            Sample.signer in
  let st := TokenDb.mkState true [TokenDb.mkTokenRecord "abc123" 0 60000]
                            true in
  TokenDb.tokens (snd (Download.handler env (Some "abc123") st))
  = [TokenDb.mkTokenRecord "abc123" 0 60000]
  /\ Flow.is_redirect (fst (Download.handler env (Some "abc123") st)) = false.
Proof.
  apply (store_failure_keeps_token
           (Download.mkEnv 1000 false false true 42 (Some "bucket")
                           Sample.signer)
           (Some "abc123")
           (TokenDb.mkState true [TokenDb.mkTokenRecord "abc123" 0 60000]
                            true)).
  right. right. reflexivity.
Defined.

(** What the issue handler does once the record is inserted. *)
Lemma issue_inserted
      (env : StoreToken.Env) (t : string) (st : TokenDb.State) :
  Js.truthy (Some t) = true ->
  TokenDb.db st || negb (StoreToken.connect_fails env) = true ->
  StoreToken.insertOne_fails env = false ->
  StoreToken.handler env (Some t) st
  = (if StoreToken.createIndex_fails env then Unhandled else End_ 204,
     TokenDb.mkState true
       (TokenDb.tokens st
        ++ [TokenDb.mkTokenRecord t (StoreToken.new_Date env)
                                  (StoreToken.Date_now env + 60000)%Z])
       (TokenDb.ttl_index st || negb (StoreToken.createIndex_fails env))).
Proof.
  intros Ht Hc Hi. destruct t as [|c s]; [discriminate|].
  unfold StoreToken.handler, TokenDb.connectToDB, Mongo.insertOne.
  rewrite Hi. destruct st as [dbc toks ttl]; simpl in *.
  destruct dbc, (StoreToken.connect_fails env); simpl in *;
    try discriminate;
    destruct (StoreToken.createIndex_fails env); simpl;
    rewrite ?orb_true_r, ?orb_false_r; reflexivity.
Qed.

Lemma count_zero_by_token_app (t : string) (l : list TokenDb.TokenRecord)
      (a b : Z) :
  Mongo.count (TokenDb.by_token t) l = 0%nat ->
  Mongo.deleteOne (TokenDb.by_token t) (l ++ [TokenDb.mkTokenRecord t a b]) = l
  /\ Mongo.findOne (TokenDb.by_token t) (l ++ [TokenDb.mkTokenRecord t a b])
     = Some (TokenDb.mkTokenRecord t a b).
Proof.
  intros H0.
  assert (Hr : TokenDb.by_token t (TokenDb.mkTokenRecord t a b) = true)
    by apply String.eqb_refl.
  split.
  - rewrite (deleteOne_first_match _ l [] _ H0 Hr). apply List.app_nil_r.
  - apply (findOne_first_match _ l [] _ H0 Hr).
Qed.

(** X6. Issuing a fresh token value and redeeming it brings the token
    collection back to what it was: the issue is answered with 204, the
    redeem with the redirect, also when new connections fail by then,
    since the connection made for the issue is kept. *)
Theorem issue_then_redeem_restores_store
        (cfg : VerifyEmail.Config) (ienv : StoreToken.Env)
        (denv : Download.Env) (t url : string) (s : Flow.System) :
  Js.truthy (Some t) = true ->
  Mongo.count (TokenDb.by_token t) (TokenDb.tokens (Flow.token_db s)) = 0%nat ->
  TokenDb.db (Flow.token_db s) || negb (StoreToken.connect_fails ienv) = true ->
  StoreToken.insertOne_fails ienv = false ->
  StoreToken.createIndex_fails ienv = false ->
  Download.findOne_fails denv = false ->
  Download.deleteOne_fails denv = false ->
  Download.getSignedUrl denv (Download.command denv) 60 = Some url ->
  let out := Flow.run cfg [Flow.Issue ienv (Some t);
                           Flow.Redeem denv (Some t)] s in
  fst out = [Flow.TokenReply (Some (End_ 204));
             Flow.TokenReply (Some (Redirect url))]
  /\ TokenDb.tokens (Flow.token_db (snd out))
     = TokenDb.tokens (Flow.token_db s).
Proof.
  intros Ht H0 Hc Hi Hx Hf Hd Hs out. subst out.
  rewrite !run_cons, serve_redeem.
  cbn [Flow.serve Flow.run fst snd].
  rewrite (issue_inserted ienv t _ Ht Hc Hi), Hx.
  cbn [fst snd Flow.token_db].
  destruct (count_zero_by_token_app t _ (StoreToken.new_Date ienv)
              (StoreToken.Date_now ienv + 60000)%Z H0) as [Hdel Hfind].
  assert (Hok : forall toks ttl,
             Download.lookup_ok denv (TokenDb.mkState true toks ttl) = true)
    by (intros; unfold Download.lookup_ok; now rewrite Hf).
  rewrite (download_found denv t _
             (TokenDb.mkTokenRecord t (StoreToken.new_Date ienv)
                (StoreToken.Date_now ienv + 60000)%Z) url Ht
             (Hok _ _) Hd Hfind Hs).
  cbn [fst snd Flow.token_db TokenDb.tokens].
  split; [reflexivity|exact Hdel].
Qed.

Lemma issue_then_redeem_restores_store_witness :
  let denv := Download.mkEnv 1000 true false false 42 (Some "bucket")
                             Sample.signer in
  let out := Flow.run Sample.cfg
               [Flow.Issue (Sample.issue_env 0) (Some "abc123");
                Flow.Redeem denv (Some "abc123")] Sample.system in
  fst out = [Flow.TokenReply (Some (End_ 204));
             Flow.TokenReply (Some (Redirect Sample.signed_url))]
  /\ TokenDb.tokens (Flow.token_db (snd out)) = [].
Proof.
  apply (issue_then_redeem_restores_store Sample.cfg (Sample.issue_env 0)
           (Download.mkEnv 1000 true false false 42 (Some "bucket")
                           Sample.signer)
           "abc123" Sample.signed_url Sample.system).
  all: reflexivity.
Defined.

(** X7. The 204 answer of the issue handler is only sent when the record
    is stored, with its expiry 60000 ms after the clock read, and the index
    on [expireAt] exists. *)
Theorem issue_204_means_stored
        (env : StoreToken.Env) (q : option string) (st : TokenDb.State) :
  fst (StoreToken.handler env q st) = End_ 204 ->
  exists t,
    q = Some t
    /\ Js.truthy q = true
    /\ TokenDb.tokens (snd (StoreToken.handler env q st))
       = TokenDb.tokens st
         ++ [TokenDb.mkTokenRecord t (StoreToken.new_Date env)
                                   (StoreToken.Date_now env + 60 * 1000)%Z]
    /\ TokenDb.ttl_index (snd (StoreToken.handler env q st)) = true
    /\ TokenDb.db (snd (StoreToken.handler env q st)) = true.
Proof.
  unfold StoreToken.handler, TokenDb.connectToDB, Mongo.insertOne.
  destruct q as [[|c s]|]; simpl; try discriminate.
  destruct st as [dbc toks ttl]. cbn [TokenDb.db TokenDb.tokens].
  intros H. exists (String c s).
  destruct dbc, (StoreToken.connect_fails env),
    (StoreToken.insertOne_fails env), (StoreToken.createIndex_fails env);
    simpl in *; try discriminate; auto.
Qed.

Lemma issue_204_means_stored_witness :
  exists t,
    Some "abc123" = Some t
    /\ Js.truthy (Some "abc123") = true
    /\ TokenDb.tokens
         (snd (StoreToken.handler (Sample.issue_env 7) (Some "abc123")
                                  TokenDb.initial))
       = [] ++ [TokenDb.mkTokenRecord t 7 (7 + 60 * 1000)%Z]
    /\ TokenDb.ttl_index
         (snd (StoreToken.handler (Sample.issue_env 7) (Some "abc123")
                                  TokenDb.initial)) = true
    /\ TokenDb.db
         (snd (StoreToken.handler (Sample.issue_env 7) (Some "abc123")
                                  TokenDb.initial)) = true.
Proof.
  apply (issue_204_means_stored (Sample.issue_env 7) (Some "abc123")
                                TokenDb.initial).
  reflexivity.
Defined.

(** X8. When [createIndex] fails, the issue request ends in an error, but
    the record is already stored: the token is redeemed all the same, and
    the request has not created the index that lets the store expire it. *)
Theorem issue_index_failure_leaves_token
        (cfg : VerifyEmail.Config) (ienv : StoreToken.Env)
        (denv : Download.Env) (t url : string) (s : Flow.System) :
  Js.truthy (Some t) = true ->
  Mongo.count (TokenDb.by_token t) (TokenDb.tokens (Flow.token_db s)) = 0%nat ->
  TokenDb.db (Flow.token_db s) || negb (StoreToken.connect_fails ienv) = true ->
  StoreToken.insertOne_fails ienv = false ->
  StoreToken.createIndex_fails ienv = true ->
  Download.findOne_fails denv = false ->
  Download.deleteOne_fails denv = false ->
  Download.getSignedUrl denv (Download.command denv) 60 = Some url ->
  fst (Flow.run cfg [Flow.Issue ienv (Some t); Flow.Redeem denv (Some t)] s)
  = [Flow.TokenReply (Some Unhandled); Flow.TokenReply (Some (Redirect url))]
  /\ TokenDb.ttl_index
       (Flow.token_db (snd (Flow.serve cfg (Flow.Issue ienv (Some t)) s)))
     = TokenDb.ttl_index (Flow.token_db s).
Proof.
  intros Ht H0 Hc Hi Hx Hf Hd Hs.
  rewrite !run_cons, serve_redeem.
  cbn [Flow.serve Flow.run fst snd].
  rewrite (issue_inserted ienv t _ Ht Hc Hi), Hx.
  cbn [fst snd Flow.token_db TokenDb.ttl_index].
  destruct (count_zero_by_token_app t _ (StoreToken.new_Date ienv)
              (StoreToken.Date_now ienv + 60000)%Z H0) as [Hdel Hfind].
  assert (Hok : forall toks ttl,
             Download.lookup_ok denv (TokenDb.mkState true toks ttl) = true)
    by (intros; unfold Download.lookup_ok; now rewrite Hf).
  split; [|now rewrite orb_false_r].
  now rewrite (download_found denv t _
                 (TokenDb.mkTokenRecord t (StoreToken.new_Date ienv)
                    (StoreToken.Date_now ienv + 60000)%Z) url Ht
                 (Hok _ _) Hd Hfind Hs).
Qed.

Lemma issue_index_failure_leaves_token_witness :
  let ienv := StoreToken.mkEnv 0 0 false false true in
  fst (Flow.run Sample.cfg
         [Flow.Issue ienv (Some "abc123");
          Flow.Redeem (Sample.download_env 1000) (Some "abc123")]
         Sample.system)
  = [Flow.TokenReply (Some Unhandled);
     Flow.TokenReply (Some (Redirect Sample.signed_url))]
  /\ TokenDb.ttl_index
       (Flow.token_db
          (snd (Flow.serve Sample.cfg (Flow.Issue ienv (Some "abc123"))
                           Sample.system)))
     = false.
Proof.
  apply (issue_index_failure_leaves_token Sample.cfg
           (StoreToken.mkEnv 0 0 false false true)
           (Sample.download_env 1000) "abc123" Sample.signed_url
           Sample.system).
  all: reflexivity.
Defined.

(** X9. Among several records of one token value, a redeem request removes
    the oldest: the first record of the value in insertion order goes, the
    records after it stay. *)
Theorem redeem_takes_oldest_record
        (env : Download.Env) (t url : string) (st : TokenDb.State)
        (pre post : list TokenDb.TokenRecord) (r : TokenDb.TokenRecord) :
  Js.truthy (Some t) = true ->
  TokenDb.tokens st = pre ++ r :: post ->
  Mongo.count (TokenDb.by_token t) pre = 0%nat ->
  TokenDb.by_token t r = true ->
  Download.lookup_ok env st = true ->
  Download.deleteOne_fails env = false ->
  Download.getSignedUrl env (Download.command env) 60 = Some url ->
  Download.handler env (Some t) st
  = (Some (Redirect url),
     TokenDb.mkState true (pre ++ post) (TokenDb.ttl_index st)).
Proof.
  intros Ht Htok Hpre Hr Hok Hd Hs.
  rewrite (download_found env t st r url); auto.
  - now rewrite Htok, (deleteOne_first_match _ pre post r Hpre Hr).
  - rewrite Htok. now apply findOne_first_match.
Qed.

Lemma redeem_takes_oldest_record_witness :
  Download.handler (Sample.download_env 1000) (Some "abc123")
    (TokenDb.mkState true
       [TokenDb.mkTokenRecord "other" 1 60001;
        TokenDb.mkTokenRecord "abc123" 2 60002;
        TokenDb.mkTokenRecord "abc123" 3 60003] true)
  = (Some (Redirect Sample.signed_url),
     TokenDb.mkState true
       ([TokenDb.mkTokenRecord "other" 1 60001]
        ++ [TokenDb.mkTokenRecord "abc123" 3 60003]) true).
Proof.
  apply (redeem_takes_oldest_record (Sample.download_env 1000) "abc123"
           Sample.signed_url
           (TokenDb.mkState true
              [TokenDb.mkTokenRecord "other" 1 60001;
               TokenDb.mkTokenRecord "abc123" 2 60002;
               TokenDb.mkTokenRecord "abc123" 3 60003] true)
           [TokenDb.mkTokenRecord "other" 1 60001]
           [TokenDb.mkTokenRecord "abc123" 3 60003]
           (TokenDb.mkTokenRecord "abc123" 2 60002)).
  all: reflexivity.
Defined.

(* ================================================================== *)
(** ** More on the functions of the validation route *)
(* ================================================================== *)

Lemma split_nonempty (sep : ascii) (s : string) : split sep s <> [].
Proof.
  destruct s as [|c s]; simpl; [discriminate|].
  destruct (Ascii.eqb c sep); [discriminate|].
  destruct (split sep s); discriminate.
Qed.

Lemma split_app_sep (sep : ascii) (p r : string) :
  split sep (p ++ String sep r) = split sep p ++ split sep r.
Proof.
  induction p as [|c p IH]; simpl.
  - now rewrite Ascii.eqb_refl.
  - destruct (Ascii.eqb c sep); [now rewrite IH|].
    rewrite IH. pose proof (split_nonempty sep p) as Hne.
    destruct (split sep p); [congruence|reflexivity].
Qed.

Lemma split_parts_sep_free (sep : ascii) (s x : string) :
  In x (split sep s) -> Design.all_chars (Design.is_not sep) x = true.
Proof.
  revert x. induction s as [|c s IH]; simpl; intros x Hx.
  - destruct Hx as [<- | []]. reflexivity.
  - destruct (Ascii.eqb c sep) eqn:E.
    + destruct Hx as [<- | Hx]; [reflexivity|now apply IH].
    + pose proof (split_nonempty sep s) as Hne.
      destruct (split sep s) as [|h t]; [congruence|].
      destruct Hx as [<- | Hx].
      * simpl. unfold Design.is_not at 1. rewrite E. simpl.
        apply IH. now left.
      * apply IH. now right.
Qed.

Lemma split_parts_lowercase (sep : ascii) (s x : string) :
  toLowerCase s = s -> In x (split sep s) -> toLowerCase x = x.
Proof.
  revert x. induction s as [|c s IH]; simpl; intros x Hs Hx.
  - destruct Hx as [<- | []]. reflexivity.
  - injection Hs as Hc Hs.
    destruct (Ascii.eqb c sep).
    + destruct Hx as [<- | Hx]; [reflexivity|now apply IH].
    + pose proof (split_nonempty sep s) as Hne.
      destruct (split sep s) as [|h t]; [congruence|].
      destruct Hx as [<- | Hx].
      * simpl. rewrite Hc. f_equal. apply IH; [exact Hs|now left].
      * apply IH; [exact Hs|now right].
Qed.

Lemma toLowerCase_app (a b : string) :
  toLowerCase (a ++ b) = (toLowerCase a ++ toLowerCase b)%string.
Proof.
  induction a as [|c a IH]; simpl; [reflexivity|now rewrite IH].
Qed.

Lemma toLowerCase_app_dot (a b : string) :
  toLowerCase (a ++ String "." b)
  = (toLowerCase a ++ String "." (toLowerCase b))%string.
Proof. now rewrite toLowerCase_app. Qed.

Lemma lower_char_keeps_dot (c : ascii) :
  Design.is_not "." (lower_char c) = Design.is_not "." c.
Proof.
  destruct c as [[] [] [] [] [] [] [] []]; reflexivity.
Qed.

Lemma toLowerCase_dot_free (s : string) :
  Design.all_chars (Design.is_not ".") (toLowerCase s)
  = Design.all_chars (Design.is_not ".") s.
Proof.
  induction s as [|c s IH]; simpl; [reflexivity|].
  now rewrite lower_char_keeps_dot, IH.
Qed.

(** X10. [getDomainFromEmail] throws when the text has no [@]; otherwise it
    returns, in lower case, the text between the first [@] and the next
    one, or the end when there is no other. *)
Theorem getDomainFromEmail_behaviour (a b c : string) :
  Design.all_chars (Design.is_not "@") a = true ->
  Design.all_chars (Design.is_not "@") b = true ->
  VerifyEmail.getDomainFromEmail a = Throw
  /\ VerifyEmail.getDomainFromEmail (a ++ String "@" b) = Ok (toLowerCase b)
  /\ VerifyEmail.getDomainFromEmail (a ++ String "@" (b ++ String "@" c))
     = Ok (toLowerCase b).
Proof.
  intros Ha Hb. unfold VerifyEmail.getDomainFromEmail.
  rewrite (split_without_sep _ a Ha).
  rewrite (split_at_sep _ a b Ha), (split_without_sep _ b Hb).
  rewrite (split_at_sep _ a _ Ha), (split_at_sep _ b c Hb).
  repeat split; reflexivity.
Qed.

Lemma getDomainFromEmail_behaviour_witness :
  VerifyEmail.getDomainFromEmail "user" = Throw
  /\ VerifyEmail.getDomainFromEmail ("user" ++ String "@" "Mail.Acme.CO")
     = Ok (toLowerCase "Mail.Acme.CO")
  /\ VerifyEmail.getDomainFromEmail
       ("user" ++ String "@" ("Mail.Acme.CO" ++ String "@" "evil.org"))
     = Ok (toLowerCase "Mail.Acme.CO").
Proof.
  apply (getDomainFromEmail_behaviour "user" "Mail.Acme.CO" "evil.org").
  - reflexivity.
  - reflexivity.
Defined.

(** X11. The base label that [generateCleanDomainFromEmail] returns is one
    label in lower case: it holds no dot and no capital letter. *)
Theorem clean_domain_is_one_lowercase_label (e l : string) :
  VerifyEmail.generateCleanDomainFromEmail e = Ok l ->
  Design.all_chars (Design.is_not ".") l = true /\ toLowerCase l = l.
Proof.
  unfold VerifyEmail.generateCleanDomainFromEmail, index.
  destruct (nth_error (split "@" e) 1) as [d|]; [|discriminate].
  intros H. injection H as H.
  set (parts := split "." (toLowerCase d)) in *.
  assert (Hin : forall i x, nth_error parts i = Some x ->
                            Design.all_chars (Design.is_not ".") x = true
                            /\ toLowerCase x = x).
  { intros i x Hx. apply List.nth_error_In in Hx. split.
    - now apply (split_parts_sep_free "." (toLowerCase d)).
    - apply (split_parts_lowercase "." (toLowerCase d));
        [apply toLowerCase_idempotent|exact Hx]. }
  subst l.
  destruct (1 <? List.length parts)%nat.
  - generalize (Hin (List.length parts - 2)%nat).
    generalize (nth_error parts (List.length parts - 2)).
    intros o2 H2.
    destruct o2 as [x|]; [exact (H2 x eq_refl)|split; reflexivity].
  - clearbody parts. destruct parts as [|x ps]; [split; reflexivity|].
    exact (Hin 0%nat x eq_refl).
Qed.

Lemma clean_domain_is_one_lowercase_label_witness :
  Design.all_chars (Design.is_not ".") "acme" = true
  /\ toLowerCase "acme" = "acme".
Proof.
  apply (clean_domain_is_one_lowercase_label "User@Mail.ACME.co" "acme").
  reflexivity.
Defined.

(** X12. The base label is the last label but one of the domain: for a
    domain of one label it is that label, and for a domain that ends with
    [l.t] it is [l], whatever comes before; always in lower case. *)
Theorem base_label_is_last_but_one (a p l t : string) :
  Design.all_chars (Design.is_not "@") a = true ->
  Design.all_chars (Design.is_not "@") p = true ->
  Design.all_chars (Design.is_not "@") l = true ->
  Design.all_chars (Design.is_not "@") t = true ->
  Design.all_chars (Design.is_not ".") l = true ->
  Design.all_chars (Design.is_not ".") t = true ->
  VerifyEmail.generateCleanDomainFromEmail (a ++ String "@" l)
  = Ok (toLowerCase l)
  /\ VerifyEmail.generateCleanDomainFromEmail
       (a ++ String "@" (l ++ String "." t))
     = Ok (toLowerCase l)
  /\ VerifyEmail.generateCleanDomainFromEmail
       (a ++ String "@" (p ++ String "." (l ++ String "." t)))
     = Ok (toLowerCase l).
Proof.
  intros Ha Hp Hl Ht Hld Htd.
  assert (Hat : forall d, Design.all_chars (Design.is_not "@") d = true ->
                          nth_error (split "@" (a ++ String "@" d)) 1
                          = Some d).
  { intros d Hd. now rewrite (split_at_sep _ a d Ha), (split_without_sep _ d Hd). }
  assert (Hdot : Design.is_not "@" "." = true) by reflexivity.
  assert (Hll : split "." (toLowerCase l) = [toLowerCase l])
    by (apply split_without_sep; now rewrite toLowerCase_dot_free).
  assert (Htt : split "." (toLowerCase t) = [toLowerCase t])
    by (apply split_without_sep; now rewrite toLowerCase_dot_free).
  assert (Hlt : split "." (toLowerCase (l ++ String "." t))
                = [toLowerCase l; toLowerCase t]).
  { now rewrite toLowerCase_app_dot, split_app_sep, Hll, Htt. }
  unfold VerifyEmail.generateCleanDomainFromEmail, index.
  split; [|split].
  - rewrite (Hat l Hl), Hll. reflexivity.
  - rewrite (Hat (l ++ String "." t)%string), Hlt; [reflexivity|].
    rewrite all_chars_app. simpl. now rewrite Hl, Ht.
  - rewrite (Hat (p ++ String "." (l ++ String "." t))%string).
    + rewrite toLowerCase_app_dot, split_app_sep, Hlt.
      rewrite List.length_app. cbn [List.length].
      replace (List.length (split "." (toLowerCase p)) + 2 - 2)%nat
        with (List.length (split "." (toLowerCase p)) + 0)%nat by lia.
      replace (1 <? List.length (split "." (toLowerCase p)) + 2)%nat
        with true by (symmetry; apply Nat.ltb_lt; lia).
      rewrite List.nth_error_app2 by lia.
      replace (List.length (split "." (toLowerCase p)) + 0
               - List.length (split "." (toLowerCase p)))%nat
        with 0%nat by lia.
      reflexivity.
    + rewrite all_chars_app. simpl. rewrite all_chars_app. simpl.
      now rewrite Hp, Hl, Ht.
Qed.

Lemma base_label_is_last_but_one_witness :
  VerifyEmail.generateCleanDomainFromEmail ("user" ++ String "@" "Acme")
  = Ok (toLowerCase "Acme")
  /\ VerifyEmail.generateCleanDomainFromEmail
       ("user" ++ String "@" ("Acme" ++ String "." "co"))
     = Ok (toLowerCase "Acme")
  /\ VerifyEmail.generateCleanDomainFromEmail
       ("user" ++ String "@" ("eu.mail" ++ String "." ("Acme" ++ String "." "co")))
     = Ok (toLowerCase "Acme").
Proof.
  apply (base_label_is_last_but_one "user" "eu.mail" "Acme" "co").
  all: reflexivity.
Defined.

Lemma append_empty_r (s : string) : (s ++ EmptyString)%string = s.
Proof. induction s as [|c s IH]; simpl; [reflexivity|now rewrite IH]. Qed.

Lemma plus_then_intro (p : ascii -> bool) (k : string -> bool)
      (a r : string) :
  a <> EmptyString -> Design.all_chars p a = true -> k r = true ->
  plus_then p k (a ++ r) = true.
Proof.
  intros Hne Ha Hk. induction a as [|c a IH]; [congruence|].
  simpl in *. apply andb_true_iff in Ha as [Hc Ha]. rewrite Hc. simpl.
  destruct a as [|d a].
  - simpl. now rewrite Hk.
  - rewrite IH; [apply orb_true_r|discriminate|exact Ha].
Qed.

(** X13. The format check accepts exactly the texts of the shape
    [local@name.rest] in which the three parts are not empty and hold
    neither white space nor an [@]: one [@] only, and a dot inside the
    domain that is neither its first nor its last character. *)
Theorem emailRegex_accepts_exactly (e : string) :
  VerifyEmail.emailRegex_test e = true
  <-> exists a b c,
        e = (a ++ String "@" (b ++ String "." c))%string
        /\ a <> EmptyString /\ b <> EmptyString /\ c <> EmptyString
        /\ Design.all_chars VerifyEmail.not_space_or_at a = true
        /\ Design.all_chars VerifyEmail.not_space_or_at b = true
        /\ Design.all_chars VerifyEmail.not_space_or_at c = true.
Proof.
  unfold VerifyEmail.emailRegex_test. split.
  - intros H.
    apply plus_then_inv in H as (a & r & -> & Ha0 & Ha & H).
    apply lit_then_inv in H as (r1 & -> & H).
    apply plus_then_inv in H as (b & r2 & -> & Hb0 & Hb & H).
    apply lit_then_inv in H as (r3 & -> & H).
    apply plus_then_inv in H as (c & r4 & -> & Hc0 & Hc & H).
    destruct r4; [|discriminate].
    exists a, b, c. rewrite append_empty_r.
    repeat split; auto.
  - intros (a & b & c & -> & Ha0 & Hb0 & Hc0 & Ha & Hb & Hc).
    apply plus_then_intro; auto. simpl.
    apply plus_then_intro; auto. simpl.
    rewrite <- (append_empty_r c).
    apply plus_then_intro; auto.
Qed.

Lemma split_parts_all (p : ascii -> bool) (sep : ascii) (s x : string) :
  Design.all_chars p s = true -> In x (split sep s) ->
  Design.all_chars p x = true.
Proof.
  revert x. induction s as [|c s IH]; simpl; intros x Hs Hx.
  - destruct Hx as [<- | []]. reflexivity.
  - apply andb_true_iff in Hs as [Hc Hs].
    destruct (Ascii.eqb c sep).
    + destruct Hx as [<- | Hx]; [reflexivity|now apply IH].
    + pose proof (split_nonempty sep s) as Hne.
      destruct (split sep s) as [|h t]; [congruence|].
      destruct Hx as [<- | Hx].
      * simpl. rewrite Hc. apply IH; [exact Hs|now left].
      * apply IH; [exact Hs|now right].
Qed.

Lemma dollar_free_all_chars (s : string) :
  Design.dollar_free s = Design.all_chars (Design.is_not "$") s.
Proof.
  induction s as [|c s IH]; simpl; [reflexivity|now rewrite IH].
Qed.

Lemma lower_char_keeps_dollar (c : ascii) :
  Design.is_not "$" (lower_char c) = Design.is_not "$" c.
Proof.
  destruct c as [[] [] [] [] [] [] [] []]; reflexivity.
Qed.

Lemma toLowerCase_dollar_free (s : string) :
  Design.dollar_free (toLowerCase s) = Design.dollar_free s.
Proof.
  rewrite !dollar_free_all_chars.
  induction s as [|c s IH]; simpl; [reflexivity|].
  now rewrite lower_char_keeps_dollar, IH.
Qed.

(** X14. For an email that passes the format check and holds no dollar
    sign, the redirect is the template with its first [{domain}] replaced
    by the base label and then the first [{email}] of the result replaced by
    the email, both inserted as they are. *)
Theorem redirect_is_literal_without_dollar
        (cfg : VerifyEmail.Config) (e : string) :
  VerifyEmail.emailRegex_test e = true ->
  Design.dollar_free e = true ->
  exists label,
    VerifyEmail.generateCleanDomainFromEmail e = Ok label
    /\ VerifyEmail.generateRedirectUrl cfg e
       = Ok (Design.replace_first
               (Design.replace_first (VerifyEmail.REDIRECT_URL cfg)
                                     "{domain}" label)
               "{email}" e).
Proof.
  intros Hre He.
  destruct (emailRegex_split e Hre) as [a Hs].
  assert (Hd : Design.dollar_free (toLowerCase (Design.after_at e)) = true).
  { rewrite toLowerCase_dollar_free, dollar_free_all_chars.
    apply (split_parts_all _ "@" e); [now rewrite <- dollar_free_all_chars|].
    rewrite Hs. simpl. auto. }
  assert (Hlabel : exists label,
             VerifyEmail.generateCleanDomainFromEmail e = Ok label
             /\ Design.dollar_free label = true).
  { unfold VerifyEmail.generateCleanDomainFromEmail, index. rewrite Hs.
    change (nth_error [a; Design.after_at e] 1)
      with (Some (Design.after_at e)).
    cbv beta iota zeta.
    set (parts := split "." (toLowerCase (Design.after_at e))).
    assert (Hin : forall i x, nth_error parts i = Some x ->
                              Design.dollar_free x = true).
    { intros i x Hx. apply List.nth_error_In in Hx.
      rewrite dollar_free_all_chars.
      apply (split_parts_all _ "." (toLowerCase (Design.after_at e)));
        [now rewrite <- dollar_free_all_chars|exact Hx]. }
    eexists. split; [reflexivity|].
    destruct (1 <? List.length parts)%nat.
    - generalize (Hin (List.length parts - 2)%nat).
      destruct (nth_error parts (List.length parts - 2)) as [x|];
        intros H; [exact (H x eq_refl)|reflexivity].
    - generalize (Hin 0%nat).
      destruct (nth_error parts 0) as [x|];
        intros H; [exact (H x eq_refl)|reflexivity]. }
  destruct Hlabel as (label & Hl & Hdl).
  exists label. split; [exact Hl|].
  unfold VerifyEmail.generateRedirectUrl. rewrite Hl.
  now rewrite !replace_dollar_free.
Qed.

Lemma redirect_is_literal_without_dollar_witness :
  exists label,
    VerifyEmail.generateCleanDomainFromEmail "user@mail.acme.co" = Ok label
    /\ VerifyEmail.generateRedirectUrl Sample.cfg "user@mail.acme.co"
       = Ok (Design.replace_first
               (Design.replace_first (VerifyEmail.REDIRECT_URL Sample.cfg)
                                     "{domain}" label)
               "{email}" "user@mail.acme.co").
Proof.
  apply (redirect_is_literal_without_dollar Sample.cfg "user@mail.acme.co").
  - reflexivity.
  - reflexivity.
Defined.

(** [logEmail] and the validation route only append to the log. *)
Lemma logEmail_log_grows
      (env : VerifyEmail.Env) (e : string) (ua ip : option string)
      (st : VerifyEmail.State) :
  exists new,
    VerifyEmail.emails (snd (VerifyEmail.logEmail env e ua ip st))
    = VerifyEmail.emails st ++ new.
Proof.
  unfold_verify.
  destruct (VerifyEmail.cachedDb st), (VerifyEmail.log_connect_fails env),
    (VerifyEmail.getDomainFromEmail e) as [d|],
    (VerifyEmail.log_insert_fails env); simpl;
    solve [ eexists; reflexivity
          | exists []; now rewrite List.app_nil_r ].
Qed.

Lemma validate_log_grows
      (cfg : VerifyEmail.Config) (env : VerifyEmail.Env)
      (req : VerifyEmail.Request) (st : VerifyEmail.State) :
  exists new,
    VerifyEmail.emails (snd (VerifyEmail.handler cfg env req st))
    = VerifyEmail.emails st ++ new.
Proof.
  destruct (VerifyEmail.body_email req) as [e|] eqn:Hbody.
  - destruct (VerifyEmail.emailRegex_test e) eqn:Hre.
    + destruct (validate_wellformed cfg env req st e Hbody Hre)
        as (u & _ & ->).
      cbv zeta. cbn [snd].
      rewrite (proj1 (proj2 (isDomainAllowed_frame _ _ _))).
      apply logEmail_log_grows.
    + exists []. rewrite List.app_nil_r.
      apply (validate_not_logged cfg env req st).
      intros e' He'. congruence.
  - exists []. rewrite List.app_nil_r.
    apply (validate_not_logged cfg env req st).
    intros e' He'. congruence.
Qed.

(** X15. [logEmail] never throws and never touches the allowlist; it
    answers [true] exactly when it has appended one entry for the email, and
    [false] with the log unchanged otherwise (no connection, no [@] in the
    text, or a failed insertion). *)
Theorem logEmail_effects
        (env : VerifyEmail.Env) (e : string) (ua ip : option string)
        (st : VerifyEmail.State) :
  let out := VerifyEmail.logEmail env e ua ip st in
  VerifyEmail.allowed_domains (snd out) = VerifyEmail.allowed_domains st
  /\ ((fst out = Ok true
       /\ exists d,
            VerifyEmail.getDomainFromEmail e = Ok d
            /\ VerifyEmail.emails (snd out)
               = VerifyEmail.emails st
                 ++ [VerifyEmail.mkEmailEntry e (VerifyEmail.clock env)
                       (or_default ua "Unknown") (or_default ip "Unknown") d])
      \/ (fst out = Ok false
          /\ VerifyEmail.emails (snd out) = VerifyEmail.emails st)).
Proof.
  cbv zeta. unfold_verify.
  destruct (VerifyEmail.cachedDb st), (VerifyEmail.log_connect_fails env),
    (VerifyEmail.getDomainFromEmail e) as [d|],
    (VerifyEmail.log_insert_fails env); simpl;
    (split; [reflexivity|]); eauto.
Qed.

(** X16. The validation route accepts only allowlisted domains: a 200
    answer means that the email passed the format check and that the
    allowlist holds a record equal to the lowercased text after its [@];
    the redirect in the answer is the one [generateRedirectUrl] computes. *)
Theorem acceptance_means_allowlisted
        (cfg : VerifyEmail.Config) (env : VerifyEmail.Env)
        (req : VerifyEmail.Request) (st : VerifyEmail.State)
        (body : VerifyEmail.Body) :
  fst (VerifyEmail.handler cfg env req st) = VerifyEmail.Json 200 body ->
  exists e d u,
    VerifyEmail.body_email req = Some e
    /\ VerifyEmail.emailRegex_test e = true
    /\ Mongo.findOne
         (fun r => String.eqb (VerifyEmail.allowed_domain r)
                              (toLowerCase (Design.after_at e)))
         (VerifyEmail.allowed_domains st) = Some d
    /\ VerifyEmail.generateRedirectUrl cfg e = Ok u
    /\ body = VerifyEmail.Validated "Email validated successfully" u.
Proof.
  destruct (VerifyEmail.body_email req) as [e|] eqn:Hbody.
  - destruct (VerifyEmail.emailRegex_test e) eqn:Hre.
    + destruct (validate_wellformed cfg env req st e Hbody Hre)
        as (u & Hu & ->).
      cbv zeta. cbn [fst].
      rewrite isDomainAllowed_answer, toLowerCase_idempotent.
      rewrite (proj1 (logEmail_frame _ _ _ _ _)).
      destruct (Mongo.findOne _ (VerifyEmail.allowed_domains st))
        as [d|] eqn:Hfind.
      * destruct (_ && _ && true); intros H; [|discriminate].
        injection H as <-. exists e, d, u. auto.
      * rewrite andb_false_r. discriminate.
    + intros H. exfalso. revert H. apply validate_never_200.
      intros e' He'. congruence.
  - intros H. exfalso. revert H. apply validate_never_200.
    intros e' He'. congruence.
Qed.

Lemma acceptance_means_allowlisted_witness :
  exists e d u,
    VerifyEmail.body_email (Sample.request "Bob@Example.COM") = Some e
    /\ VerifyEmail.emailRegex_test e = true
    /\ Mongo.findOne
         (fun r => String.eqb (VerifyEmail.allowed_domain r)
                              (toLowerCase (Design.after_at e)))
         (VerifyEmail.allowed_domains Sample.verify_state) = Some d
    /\ VerifyEmail.generateRedirectUrl Sample.cfg e = Ok u
    /\ VerifyEmail.Validated "Email validated successfully"
         "https://example.example.net/x?e=Bob@Example.COM"
       = VerifyEmail.Validated "Email validated successfully" u.
Proof.
  apply (acceptance_means_allowlisted Sample.cfg Sample.verify_env
           (Sample.request "Bob@Example.COM") Sample.verify_state).
  reflexivity.
Defined.

Lemma wellformed_is_readable (req : VerifyEmail.Request) (e : string) :
  VerifyEmail.body_email req = Some e -> VerifyEmail.unreadable req = false.
Proof.
  intros H. unfold VerifyEmail.unreadable.
  now rewrite (body_email_inv req e H).
Qed.

(** X17. The validation route answers 500 exactly for the requests that
    it cannot read: those without a body, and those whose email is a
    truthy value that is not a string and that cannot be converted to a
    string or passes the format check once converted.  Every other request
    is answered with 200 or 400, whatever fails in the store.  In no case
    does the allowlist change, and the log only grows. *)
Theorem validation_answers_500_only_when_unreadable
        (cfg : VerifyEmail.Config) (env : VerifyEmail.Env)
        (req : VerifyEmail.Request) (st : VerifyEmail.State) :
  let out := VerifyEmail.handler cfg env req st in
  (if VerifyEmail.unreadable req
   then fst out = VerifyEmail.Json 500
                    (VerifyEmail.Message
                       "Unable to verify email. Please try again later.")
   else exists body, fst out = VerifyEmail.Json 200 body
                     \/ fst out = VerifyEmail.Json 400 body)
  /\ VerifyEmail.allowed_domains (snd out) = VerifyEmail.allowed_domains st
  /\ exists new, VerifyEmail.emails (snd out) = VerifyEmail.emails st ++ new.
Proof.
  cbv zeta. split; [|split].
  - assert (Hbad : forall e,
               VerifyEmail.body_email req = Some e ->
               VerifyEmail.emailRegex_test e = false ->
               forall e', VerifyEmail.body_email req = Some e' ->
                          VerifyEmail.emailRegex_test e' = false)
      by (intros; congruence).
    destruct (VerifyEmail.body_email req) as [e|] eqn:Hbody.
    + rewrite (wellformed_is_readable req e Hbody).
      destruct (VerifyEmail.emailRegex_test e) eqn:Hre.
      * destruct (validate_wellformed cfg env req st e Hbody Hre)
          as (u & _ & ->).
        cbv zeta. cbn [fst].
        destruct (fst (VerifyEmail.isDomainAllowed env _ _)) as [[|]|];
          eauto.
      * destruct (validate_not_logged cfg env req st)
          as (_ & _ & _ & _ & H400);
          [intros e' He'; congruence|].
        rewrite (wellformed_is_readable req e Hbody) in H400.
        destruct (H400 eq_refl) as (_ & m & ->). eauto.
    + destruct (validate_not_logged cfg env req st)
        as (_ & _ & _ & H500 & H400);
        [intros e' He'; congruence|].
      destruct (VerifyEmail.unreadable req).
      * exact (H500 eq_refl).
      * destruct (H400 eq_refl) as (_ & m & ->). eauto.
  - apply validate_keeps_allowlist.
  - apply validate_log_grows.
Qed.

(* ================================================================== *)
(** ** The administration of the allowlist *)
(* ================================================================== *)

Ltac unfold_admin :=
  unfold Admin.addDomain, Admin.deleteDomain, Admin.bulkAddDomains,
    Admin.bulkDeleteDomains, Admin.removeAllDomains, Admin.removeAllEmails,
    Admin.domains_insertOne, Admin.domains_insertMany,
    Admin.domains_deleteOne, Admin.domains_find_in,
    Admin.domains_deleteMany_in, Admin.domains_countDocuments,
    Admin.domains_deleteMany_all, Admin.emails_countDocuments,
    Admin.emails_deleteMany_all, Admin.set_domains, Admin.set_emails,
    VerifyEmail.try_catch, VerifyEmail.bind, VerifyEmail.ret,
    VerifyEmail.connectToDatabase, VerifyEmail.domains_findOne in *.

Lemma findOne_app_last {A} (q : A -> bool) (l : list A) (x : A) :
  q x = true -> exists y, Mongo.findOne q (l ++ [x]) = Some y.
Proof.
  intros Hx. unfold Mongo.findOne.
  induction l as [|a l IH]; simpl.
  - rewrite Hx. eauto.
  - destruct (q a); eauto.
Qed.

Lemma has_domain_refl (d : string) (a : Z) (by_ : string) :
  Admin.has_domain d (VerifyEmail.mkDomainRecord d a by_) = true.
Proof. apply String.eqb_refl. Qed.

(** What [addDomain] does when the store serves it. *)
Lemma addDomain_served
      (env : Admin.Env) (d by_ : string) (st : VerifyEmail.State) :
  Allowlist.served env st ->
  let l := VerifyEmail.allowed_domains st in
  match Mongo.findOne (Admin.has_domain (toLowerCase d)) l with
  | Some _ =>
      fst (Admin.addDomain env d by_ st)
      = Ok (Admin.Exists_ "Domain already exists")
      /\ VerifyEmail.allowed_domains (snd (Admin.addDomain env d by_ st)) = l
  | None =>
      fst (Admin.addDomain env d by_ st)
      = Ok (Admin.Plain true "Domain added successfully")
      /\ VerifyEmail.allowed_domains (snd (Admin.addDomain env d by_ st))
         = l ++ [VerifyEmail.mkDomainRecord (toLowerCase d)
                   (Admin.new_Date env 0) by_]
  end
  /\ VerifyEmail.cachedDb (snd (Admin.addDomain env d by_ st)) = true
  /\ VerifyEmail.emails (snd (Admin.addDomain env d by_ st))
     = VerifyEmail.emails st.
Proof.
  intros (Hc & Hr & Hw). cbv zeta. unfold_admin. unfold Mongo.insertOne.
  fold (Admin.has_domain (toLowerCase d)).
  rewrite Hr, Hw. destruct st as [cached em l j].
  cbn [VerifyEmail.cachedDb VerifyEmail.allowed_domains VerifyEmail.emails
       VerifyEmail.journal] in *.
  destruct cached, (Admin.connect_fails env); simpl in *; try discriminate;
    destruct (Mongo.findOne (Admin.has_domain (toLowerCase d)) l);
    simpl; auto.
Qed.

(** X18. A domain that [addDomain] has accepted is allowed from then on,
    in every spelling of its letters' case, also when new connections
    fail: the gate uses the connection that [addDomain] made. *)
Theorem added_domain_is_allowed
        (env : Admin.Env) (genv : VerifyEmail.Env) (d d' by_ : string)
        (st : VerifyEmail.State) :
  Allowlist.served env st ->
  toLowerCase d' = toLowerCase d ->
  VerifyEmail.gate_find_fails genv = false ->
  Admin.success
    (match fst (Admin.addDomain env d by_ st) with
     | Ok r => r
     | Throw => Admin.Plain false EmptyString
     end) = true
  /\ fst (VerifyEmail.isDomainAllowed genv d'
            (snd (Admin.addDomain env d by_ st))) = Ok true.
Proof.
  intros Hs Hd' Hg.
  destruct (addDomain_served env d by_ st Hs) as (Hadd & Hcached & _).
  rewrite isDomainAllowed_answer, Hcached, Hg, Hd'. cbn [orb negb andb].
  fold (Admin.has_domain (toLowerCase d)).
  destruct (Mongo.findOne (Admin.has_domain (toLowerCase d))
              (VerifyEmail.allowed_domains st)) as [r|] eqn:E;
    destruct Hadd as [-> ->]; cbn [Admin.success].
  - now rewrite E.
  - destruct (findOne_app_last (Admin.has_domain (toLowerCase d))
                (VerifyEmail.allowed_domains st)
                (VerifyEmail.mkDomainRecord (toLowerCase d)
                                            (Admin.new_Date env 0) by_)
                (has_domain_refl _ _ _)) as [y ->].
    auto.
Qed.

Lemma added_domain_is_allowed_witness :
  let env := Admin.mkEnv (fun _ => 9%Z) false false false in
  let genv := VerifyEmail.mkEnv 10 false false true false in
  Admin.success
    (match fst (Admin.addDomain env "New.Example.ORG" "admin"
                                Sample.verify_state) with
     | Ok r => r
     | Throw => Admin.Plain false EmptyString
     end) = true
  /\ fst (VerifyEmail.isDomainAllowed genv "NEW.example.org"
            (snd (Admin.addDomain env "New.Example.ORG" "admin"
                                  Sample.verify_state))) = Ok true.
Proof.
  apply (added_domain_is_allowed
           (Admin.mkEnv (fun _ => 9%Z) false false false)
           (VerifyEmail.mkEnv 10 false false true false)
           "New.Example.ORG" "NEW.example.org" "admin" Sample.verify_state).
  - repeat split; reflexivity.
  - reflexivity.
  - reflexivity.
Defined.

(** The allowlist after [addDomain], whatever fails: as before, or with
    one record for a domain that had none. *)
Lemma addDomain_allowlist
      (env : Admin.Env) (d by_ : string) (st : VerifyEmail.State) :
  let l := VerifyEmail.allowed_domains st in
  let l' := VerifyEmail.allowed_domains (snd (Admin.addDomain env d by_ st)) in
  l' = l
  \/ (Mongo.findOne (Admin.has_domain (toLowerCase d)) l = None
      /\ l' = l ++ [VerifyEmail.mkDomainRecord (toLowerCase d)
                      (Admin.new_Date env 0) by_]).
Proof.
  cbv zeta. unfold_admin. unfold Mongo.insertOne.
  fold (Admin.has_domain (toLowerCase d)).
  destruct st as [cached em l j].
  cbn [VerifyEmail.cachedDb VerifyEmail.allowed_domains VerifyEmail.emails
       VerifyEmail.journal].
  destruct cached, (Admin.connect_fails env), (Admin.read_fails env),
    (Admin.write_fails env); simpl; auto;
    destruct (Mongo.findOne (Admin.has_domain (toLowerCase d)) l) eqn:E;
    simpl; auto.
Qed.

Lemma count_insertOne_app {A} (q : A -> bool) (l : list A) (d : A) :
  Mongo.count q (l ++ [d]) = (Mongo.count q l + if q d then 1 else 0)%nat.
Proof. apply (count_insertOne q d l). Qed.

Lemma findOne_none_count {A} (q : A -> bool) (l : list A) :
  Mongo.findOne q l = None -> Mongo.count q l = 0%nat.
Proof.
  unfold Mongo.findOne, Mongo.count.
  induction l as [|x l IH]; simpl; [reflexivity|].
  destruct (q x); [discriminate|exact IH].
Qed.

(** Appending a checked, lowercased domain that no record holds keeps
    what the allowlist had. *)
Lemma append_absent_domain
      (l : list VerifyEmail.DomainRecord) (d : string) (a : Z) (by_ : string) :
  Mongo.findOne (Admin.has_domain (toLowerCase d)) l = None ->
  (Allowlist.unique l ->
   Allowlist.unique (l ++ [VerifyEmail.mkDomainRecord (toLowerCase d) a by_]))
  /\ (Allowlist.lowercase l ->
      Allowlist.lowercase
        (l ++ [VerifyEmail.mkDomainRecord (toLowerCase d) a by_]))
  /\ (Admin.domainRegex_test (toLowerCase d) = true ->
      Allowlist.valid l ->
      Allowlist.valid (l ++ [VerifyEmail.mkDomainRecord (toLowerCase d) a by_])).
Proof.
  intros Hnone. split; [|split].
  - intros Hu x. rewrite count_insertOne_app.
    specialize (Hu x). unfold Admin.has_domain at 2. simpl.
    destruct (String.eqb_spec (toLowerCase d) x) as [<- | Hne]; [|lia].
    rewrite (findOne_none_count _ _ Hnone). lia.
  - intros Hl r Hr. apply List.in_app_or in Hr as [Hr | [<- | []]].
    + now apply Hl.
    + simpl. apply toLowerCase_idempotent.
  - intros Hre Hv r Hr. apply List.in_app_or in Hr as [Hr | [<- | []]].
    + now apply Hv.
    + exact Hre.
Qed.

(** [addDomain] is its three awaited operations served in a row. *)
Lemma addDomain_is_its_steps
      (env : Admin.Env) (d by_ : string) (st : VerifyEmail.State) :
  exists r,
    Admin.add_steps 3 env (Admin.add_start d by_ st) st
    = (Admin.Returned r, snd (Admin.addDomain env d by_ st))
    /\ fst (Admin.addDomain env d by_ st) = Ok r.
Proof.
  unfold Admin.add_steps, Admin.add_start, Admin.add_step, Admin.add_failed.
  unfold_admin. destruct st as [cached em l j].
  cbn [VerifyEmail.cachedDb VerifyEmail.emails VerifyEmail.allowed_domains
       VerifyEmail.journal].
  destruct cached, (Admin.connect_fails env),
    (Admin.read_fails env), (Admin.write_fails env);
    cbn [VerifyEmail.cachedDb VerifyEmail.allowed_domains fst snd];
    try (destruct (Mongo.findOne _ l));
    cbn [fst snd]; eauto.
Qed.

(** The first awaited operation of a call that can connect. *)
Lemma add_step_connect
      (env : Admin.Env) (d by_ : string) (st0 st : VerifyEmail.State) :
  VerifyEmail.cachedDb st0 || negb (Admin.connect_fails env) = true ->
  (VerifyEmail.cachedDb st0 = true -> VerifyEmail.cachedDb st = true) ->
  Admin.add_step env (Admin.add_start d by_ st0) st
  = (Admin.AddFindOne d by_,
     VerifyEmail.mkState true (VerifyEmail.emails st)
       (VerifyEmail.allowed_domains st) (VerifyEmail.journal st)).
Proof.
  intros Hc Hmono. unfold Admin.add_start, Admin.add_step.
  destruct (VerifyEmail.cachedDb st0); cbn in Hc.
  - destruct st as [cached em l j]. cbn in Hmono. now rewrite (Hmono eq_refl).
  - apply negb_true_iff in Hc. now rewrite Hc.
Qed.

Lemma add_step_findOne_absent
      (env : Admin.Env) (d by_ : string) (st : VerifyEmail.State) :
  Admin.read_fails env = false ->
  Mongo.findOne (Admin.has_domain (toLowerCase d))
                (VerifyEmail.allowed_domains st) = None ->
  Admin.add_step env (Admin.AddFindOne d by_) st
  = (Admin.AddInsertOne d by_,
     VerifyEmail.mkState (VerifyEmail.cachedDb st) (VerifyEmail.emails st)
       (VerifyEmail.allowed_domains st)
       (VerifyEmail.journal st
        ++ [VerifyEmail.OpFindDomain (toLowerCase d)])).
Proof.
  intros Hr Hnone. unfold Admin.add_step, VerifyEmail.domains_findOne.
  rewrite Hr. fold (Admin.has_domain (toLowerCase d)). now rewrite Hnone.
Qed.

Lemma add_step_insertOne
      (env : Admin.Env) (d by_ : string) (st : VerifyEmail.State) :
  Admin.write_fails env = false ->
  Admin.add_step env (Admin.AddInsertOne d by_) st
  = (Admin.Returned (Admin.Plain true "Domain added successfully"),
     Admin.set_domains
       (VerifyEmail.allowed_domains st
        ++ [VerifyEmail.mkDomainRecord (toLowerCase d)
              (Admin.new_Date env 0) by_]) st).
Proof.
  intros Hw. unfold Admin.add_step, Admin.domains_insertOne. now rewrite Hw.
Qed.

Lemma add_step_pair_A
      (envA envB : Admin.Env) (a b : Admin.Adding) (st : VerifyEmail.State) :
  Admin.add_step_pair envA envB Admin.CallerA (Admin.mkAddingPair a b st)
  = Admin.mkAddingPair (fst (Admin.add_step envA a st)) b
                       (snd (Admin.add_step envA a st)).
Proof.
  unfold Admin.add_step_pair. cbn [Admin.callA Admin.callB Admin.shared].
  now destruct (Admin.add_step envA a st).
Qed.

Lemma add_step_pair_B
      (envA envB : Admin.Env) (a b : Admin.Adding) (st : VerifyEmail.State) :
  Admin.add_step_pair envA envB Admin.CallerB (Admin.mkAddingPair a b st)
  = Admin.mkAddingPair a (fst (Admin.add_step envB b st))
                       (snd (Admin.add_step envB b st)).
Proof.
  unfold Admin.add_step_pair. cbn [Admin.callA Admin.callB Admin.shared].
  now destruct (Admin.add_step envB b st).
Qed.

(** Two calls of [addDomain] for one domain, with both lookups served
    before either insertion: both insert. *)
Lemma addDomain_twice_in_flight
      (envA envB : Admin.Env) (d d' byA byB : string)
      (st : VerifyEmail.State) :
  toLowerCase d' = toLowerCase d ->
  Mongo.findOne (Admin.has_domain (toLowerCase d))
                (VerifyEmail.allowed_domains st) = None ->
  Allowlist.served envA st ->
  Allowlist.served envB st ->
  Admin.add_run_pair envA envB
    [Admin.CallerA; Admin.CallerB; Admin.CallerA; Admin.CallerB;
     Admin.CallerA; Admin.CallerB]
    (Admin.mkAddingPair (Admin.add_start d byA st)
                        (Admin.add_start d' byB st) st)
  = Admin.mkAddingPair
      (Admin.Returned (Admin.Plain true "Domain added successfully"))
      (Admin.Returned (Admin.Plain true "Domain added successfully"))
      (VerifyEmail.mkState true (VerifyEmail.emails st)
         (VerifyEmail.allowed_domains st
          ++ [VerifyEmail.mkDomainRecord (toLowerCase d)
                (Admin.new_Date envA 0) byA;
              VerifyEmail.mkDomainRecord (toLowerCase d)
                (Admin.new_Date envB 0) byB])
         (VerifyEmail.journal st
          ++ [VerifyEmail.OpFindDomain (toLowerCase d);
              VerifyEmail.OpFindDomain (toLowerCase d)])).
Proof.
  intros Hd Hnone (Hc & Hr & Hw) (HcB & HrB & HwB).
  unfold Admin.add_run_pair. cbn [List.fold_left].
  rewrite add_step_pair_A, (add_step_connect envA d byA st st Hc)
    by (intros H; exact H).
  cbn [fst snd].
  rewrite add_step_pair_B, (add_step_connect envB d' byB st _ HcB)
    by reflexivity.
  cbn [fst snd VerifyEmail.emails VerifyEmail.allowed_domains
       VerifyEmail.journal].
  rewrite add_step_pair_A, (add_step_findOne_absent envA d byA _ Hr)
    by exact Hnone.
  cbn [fst snd VerifyEmail.cachedDb VerifyEmail.emails
       VerifyEmail.allowed_domains VerifyEmail.journal].
  rewrite add_step_pair_B, (add_step_findOne_absent envB d' byB _ HrB)
    by (rewrite Hd; exact Hnone).
  cbn [fst snd VerifyEmail.cachedDb VerifyEmail.emails
       VerifyEmail.allowed_domains VerifyEmail.journal].
  rewrite add_step_pair_A, (add_step_insertOne envA d byA _ Hw).
  cbn [fst snd].
  rewrite add_step_pair_B, (add_step_insertOne envB d' byB _ HwB).
  unfold Admin.set_domains.
  cbn [fst snd VerifyEmail.cachedDb VerifyEmail.emails
       VerifyEmail.allowed_domains VerifyEmail.journal].
  now rewrite Hd, <- !List.app_assoc.
Qed.

(** X19. Served alone, with its three awaited operations in a row and
    no other request in between, [addDomain] keeps the allowlist free of
    duplicates, in lower case and within the domain pattern, whatever fails
    in the store: it stores a domain only when no record holds it, and
    stores it lowercased as the caller tested it.  The lookup and the
    insertion are two operations, though: when two calls for one domain
    are in flight and both lookups are served before either insertion,
    both calls report that the domain was added and two records hold it. *)
Theorem addDomain_keeps_allowlist_clean
        (env : Admin.Env) (d by_ : string) (st : VerifyEmail.State) :
  let l := VerifyEmail.allowed_domains st in
  let l' := VerifyEmail.allowed_domains (snd (Admin.addDomain env d by_ st)) in
  (exists r,
     Admin.add_steps 3 env (Admin.add_start d by_ st) st
     = (Admin.Returned r, snd (Admin.addDomain env d by_ st))
     /\ fst (Admin.addDomain env d by_ st) = Ok r)
  /\ (Allowlist.unique l -> Allowlist.unique l')
  /\ (Allowlist.lowercase l -> Allowlist.lowercase l')
  /\ (Admin.domainRegex_test (toLowerCase d) = true ->
      Allowlist.valid l -> Allowlist.valid l')
  /\ forall (envB : Admin.Env) (d' byB : string),
       toLowerCase d' = toLowerCase d ->
       Mongo.findOne (Admin.has_domain (toLowerCase d)) l = None ->
       Allowlist.served env st ->
       Allowlist.served envB st ->
       let c := Admin.add_run_pair env envB
                  [Admin.CallerA; Admin.CallerB; Admin.CallerA;
                   Admin.CallerB; Admin.CallerA; Admin.CallerB]
                  (Admin.mkAddingPair (Admin.add_start d by_ st)
                                      (Admin.add_start d' byB st) st) in
       Admin.callA c
       = Admin.Returned (Admin.Plain true "Domain added successfully")
       /\ Admin.callB c
          = Admin.Returned (Admin.Plain true "Domain added successfully")
       /\ Mongo.count (Admin.has_domain (toLowerCase d))
            (VerifyEmail.allowed_domains (Admin.shared c)) = 2%nat.
Proof.
  cbv zeta. split; [apply addDomain_is_its_steps|].
  split; [|split; [|split]].
  1-3: destruct (addDomain_allowlist env d by_ st) as [-> | [Hnone ->]];
    [auto|]; now apply append_absent_domain.
  intros envB d' byB Hd Hnone Hs HsB.
  rewrite (addDomain_twice_in_flight env envB d d' by_ byB st
             Hd Hnone Hs HsB).
  cbn [Admin.callA Admin.callB Admin.shared VerifyEmail.allowed_domains].
  repeat split.
  unfold Mongo.count. rewrite List.filter_app, List.length_app.
  fold (Mongo.count (Admin.has_domain (toLowerCase d))
                    (VerifyEmail.allowed_domains st)).
  rewrite (findOne_none_count _ _ Hnone). cbn [List.filter].
  rewrite !has_domain_refl. reflexivity.
Qed.

Lemma addDomain_keeps_allowlist_clean_witness :
  let env := Admin.mkEnv (fun _ => 9%Z) false false false in
  let c := Admin.add_run_pair env env
             [Admin.CallerA; Admin.CallerB; Admin.CallerA;
              Admin.CallerB; Admin.CallerA; Admin.CallerB]
             (Admin.mkAddingPair
                (Admin.add_start "New.Example.ORG" "alice" Sample.verify_state)
                (Admin.add_start "new.example.org" "bob" Sample.verify_state)
                Sample.verify_state) in
  Admin.callA c = Admin.Returned (Admin.Plain true "Domain added successfully")
  /\ Admin.callB c
     = Admin.Returned (Admin.Plain true "Domain added successfully")
  /\ Mongo.count (Admin.has_domain "new.example.org")
       (VerifyEmail.allowed_domains (Admin.shared c)) = 2%nat.
Proof.
  apply (proj2 (proj2 (proj2 (proj2
           (addDomain_keeps_allowlist_clean
              (Admin.mkEnv (fun _ => 9%Z) false false false)
              "New.Example.ORG" "alice" Sample.verify_state))))
           (Admin.mkEnv (fun _ => 9%Z) false false false)
           "new.example.org" "bob").
  - reflexivity.
  - reflexivity.
  - repeat split; reflexivity.
  - repeat split; reflexivity.
Defined.

Lemma findOne_is_count_pos {A} (q : A -> bool) (l : list A) :
  match Mongo.findOne q l with Some _ => true | None => false end
  = (0 <? Mongo.count q l)%nat.
Proof.
  unfold Mongo.findOne, Mongo.count.
  induction l as [|x l IH]; simpl; [reflexivity|].
  destruct (q x); simpl; [reflexivity|exact IH].
Qed.

Lemma has_domain_other (x y : string) (r : VerifyEmail.DomainRecord) :
  x <> y -> Admin.has_domain y r = true -> Admin.has_domain x r = false.
Proof.
  unfold Admin.has_domain. intros Hne H. apply String.eqb_eq in H.
  apply String.eqb_neq. congruence.
Qed.

(** What [deleteDomain] does when the store serves it. *)
Lemma deleteDomain_served
      (env : Admin.Env) (d : string) (st : VerifyEmail.State) :
  VerifyEmail.cachedDb st || negb (Admin.connect_fails env) = true ->
  Admin.write_fails env = false ->
  let l := VerifyEmail.allowed_domains st in
  Admin.deleteDomain env d st
  = (Ok (if (0 <? Mongo.count (Admin.has_domain (toLowerCase d)) l)%nat
         then Admin.Plain true "Domain deleted successfully"
         else Admin.Plain false "Domain not found"),
     VerifyEmail.mkState true (VerifyEmail.emails st)
       (Mongo.deleteOne (Admin.has_domain (toLowerCase d)) l)
       (VerifyEmail.journal st)).
Proof.
  intros Hc Hw. cbv zeta. unfold_admin. rewrite Hw.
  rewrite <- findOne_is_count_pos.
  destruct st as [cached em l j].
  cbn [VerifyEmail.cachedDb VerifyEmail.allowed_domains VerifyEmail.emails
       VerifyEmail.journal] in *.
  destruct cached, (Admin.connect_fails env); simpl in *; try discriminate;
    destruct (Mongo.findOne (Admin.has_domain (toLowerCase d)) l);
    reflexivity.
Qed.

(** X20. [deleteDomain] removes one record only: it answers "Domain not
    found" exactly when no record holds the domain, it leaves the records
    of every other domain alone, and the domain stays allowed afterwards
    exactly when two or more records held it. *)
Theorem deleteDomain_removes_one_record
        (env : Admin.Env) (genv : VerifyEmail.Env) (d : string)
        (st : VerifyEmail.State) :
  VerifyEmail.cachedDb st || negb (Admin.connect_fails env) = true ->
  Admin.write_fails env = false ->
  VerifyEmail.gate_find_fails genv = false ->
  let l := VerifyEmail.allowed_domains st in
  let n := Mongo.count (Admin.has_domain (toLowerCase d)) l in
  let out := Admin.deleteDomain env d st in
  let l' := VerifyEmail.allowed_domains (snd out) in
  fst out = Ok (if (0 <? n)%nat
                then Admin.Plain true "Domain deleted successfully"
                else Admin.Plain false "Domain not found")
  /\ Mongo.count (Admin.has_domain (toLowerCase d)) l' = pred n
  /\ (forall x, x <> toLowerCase d ->
                List.filter (Admin.has_domain x) l'
                = List.filter (Admin.has_domain x) l)
  /\ fst (VerifyEmail.isDomainAllowed genv d (snd out)) = Ok (1 <? n)%nat.
Proof.
  intros Hc Hw Hg. cbv zeta.
  rewrite (deleteDomain_served env d st Hc Hw). cbn [fst snd].
  cbn [VerifyEmail.allowed_domains].
  split; [reflexivity|]. split; [apply count_deleteOne|]. split.
  - intros x Hx. apply filter_deleteOne_other.
    intros r. now apply has_domain_other.
  - rewrite isDomainAllowed_answer, Hg.
    cbn [VerifyEmail.cachedDb VerifyEmail.allowed_domains orb negb andb].
    fold (Admin.has_domain (toLowerCase d)).
    rewrite findOne_is_count_pos, count_deleteOne.
    f_equal.
    destruct (Mongo.count (Admin.has_domain (toLowerCase d))
                (VerifyEmail.allowed_domains st)) as [|[|n]]; reflexivity.
Qed.

Lemma deleteDomain_removes_one_record_witness :
  let env := Admin.mkEnv (fun _ => 9%Z) false false false in
  let st := VerifyEmail.mkState false []
              [VerifyEmail.mkDomainRecord "dup.org" 1 "up";
               VerifyEmail.mkDomainRecord "example.com" 2 "up";
               VerifyEmail.mkDomainRecord "dup.org" 3 "up"] [] in
  let l := VerifyEmail.allowed_domains st in
  let n := Mongo.count (Admin.has_domain (toLowerCase "Dup.ORG")) l in
  let out := Admin.deleteDomain env "Dup.ORG" st in
  let l' := VerifyEmail.allowed_domains (snd out) in
  fst out = Ok (if (0 <? n)%nat
                then Admin.Plain true "Domain deleted successfully"
                else Admin.Plain false "Domain not found")
  /\ Mongo.count (Admin.has_domain (toLowerCase "Dup.ORG")) l' = pred n
  /\ (forall x, x <> toLowerCase "Dup.ORG" ->
                List.filter (Admin.has_domain x) l'
                = List.filter (Admin.has_domain x) l)
  /\ fst (VerifyEmail.isDomainAllowed Sample.verify_env "Dup.ORG" (snd out))
     = Ok (1 <? n)%nat.
Proof.
  apply (deleteDomain_removes_one_record
           (Admin.mkEnv (fun _ => 9%Z) false false false)
           Sample.verify_env "Dup.ORG"
           (VerifyEmail.mkState false []
              [VerifyEmail.mkDomainRecord "dup.org" 1 "up";
               VerifyEmail.mkDomainRecord "example.com" 2 "up";
               VerifyEmail.mkDomainRecord "dup.org" 3 "up"] [])).
  all: reflexivity.
Defined.

(** X21. Adding a domain that no record holds and deleting it again, in
    any spelling of its letters' case, gives back the allowlist as it
    was. *)
Theorem add_then_delete_restores_allowlist
        (env env2 : Admin.Env) (d d' by_ : string) (st : VerifyEmail.State) :
  Allowlist.served env st ->
  Admin.write_fails env2 = false ->
  toLowerCase d' = toLowerCase d ->
  Mongo.count (Admin.has_domain (toLowerCase d))
              (VerifyEmail.allowed_domains st) = 0%nat ->
  let st1 := snd (Admin.addDomain env d by_ st) in
  fst (Admin.addDomain env d by_ st)
  = Ok (Admin.Plain true "Domain added successfully")
  /\ fst (Admin.deleteDomain env2 d' st1)
     = Ok (Admin.Plain true "Domain deleted successfully")
  /\ VerifyEmail.allowed_domains (snd (Admin.deleteDomain env2 d' st1))
     = VerifyEmail.allowed_domains st.
Proof.
  intros Hs Hw Hd' H0 st1.
  destruct (addDomain_served env d by_ st Hs) as (Hadd & Hcached & _).
  rewrite (count_zero_findOne _ _ H0) in Hadd. destruct Hadd as [Hr Hl].
  fold st1 in Hr, Hl, Hcached.
  split; [exact Hr|].
  rewrite (deleteDomain_served env2 d' st1); [|now rewrite Hcached|exact Hw].
  cbn [fst snd VerifyEmail.allowed_domains]. rewrite Hl, Hd'.
  rewrite count_insertOne_app, H0, has_domain_refl. cbn [Nat.add Nat.ltb Nat.leb].
  split; [reflexivity|].
  rewrite (deleteOne_first_match _ _ [] _ H0 (has_domain_refl _ _ _)).
  apply List.app_nil_r.
Qed.

Lemma add_then_delete_restores_allowlist_witness :
  let env := Admin.mkEnv (fun _ => 9%Z) false false false in
  let st1 := snd (Admin.addDomain env "New.org" "admin" Sample.verify_state) in
  fst (Admin.addDomain env "New.org" "admin" Sample.verify_state)
  = Ok (Admin.Plain true "Domain added successfully")
  /\ fst (Admin.deleteDomain env "NEW.ORG" st1)
     = Ok (Admin.Plain true "Domain deleted successfully")
  /\ VerifyEmail.allowed_domains (snd (Admin.deleteDomain env "NEW.ORG" st1))
     = VerifyEmail.allowed_domains Sample.verify_state.
Proof.
  apply (add_then_delete_restores_allowlist
           (Admin.mkEnv (fun _ => 9%Z) false false false)
           (Admin.mkEnv (fun _ => 9%Z) false false false)
           "New.org" "NEW.ORG" "admin" Sample.verify_state).
  - repeat split; reflexivity.
  - reflexivity.
  - reflexivity.
  - reflexivity.
Defined.

Lemma mem_In (d : string) (ds : list string) :
  Admin.mem d ds = true <-> In d ds.
Proof.
  unfold Admin.mem. rewrite List.existsb_exists. split.
  - intros (x & Hx & E). apply String.eqb_eq in E. now subst.
  - intros H. exists d. split; [exact H|apply String.eqb_refl].
Qed.


Lemma length_domainsToInsert
      (env : Admin.Env) (by_ : string) (ds : list string) (i : nat) :
  List.length (Admin.domainsToInsert env by_ i ds) = List.length ds.
Proof.
  revert i. induction ds as [|d ds IH]; intros i; simpl; [reflexivity|].
  now rewrite IH.
Qed.







(** The batch of the witness stores [new.org] twice. *)
Example bulkAddDomains_repeats :
  Mongo.count (Admin.has_domain "new.org")
    (VerifyEmail.allowed_domains
       (snd (Admin.bulkAddDomains
               (Admin.mkEnv (fun i => Z.of_nat i) false false false)
               ["new.org"; "example.com"; "New.ORG"] "up"
               Sample.verify_state))) = 2%nat.
Proof. reflexivity. Qed.

Lemma length_filter_split {A} (p : A -> bool) (l : list A) :
  (Mongo.count p l + List.length (List.filter (fun x => negb (p x)) l)
   = List.length l)%nat.
Proof.
  unfold Mongo.count. induction l as [|x l IH]; simpl; [reflexivity|].
  destruct (p x); simpl; lia.
Qed.

Lemma filter_has_domain_after_deleteMany
      (ds : list string) (l : list VerifyEmail.DomainRecord) (x : string) :
  List.filter (Admin.has_domain x)
    (List.filter (fun r => negb (Admin.in_domains ds r)) l)
  = if Admin.mem x ds then [] else List.filter (Admin.has_domain x) l.
Proof.
  induction l as [|r l IH]; simpl.
  - now destruct (Admin.mem x ds).
  - unfold Admin.in_domains at 1, Admin.has_domain at 2.
    destruct (String.eqb_spec (VerifyEmail.allowed_domain r) x) as [E | Hne].
    + rewrite E. destruct (Admin.mem x ds) eqn:Em; simpl.
      * rewrite IH. reflexivity.
      * unfold Admin.has_domain at 1. rewrite E, String.eqb_refl.
        now rewrite IH.
    + destruct (Admin.mem (VerifyEmail.allowed_domain r) ds); simpl.
      * exact IH.
      * unfold Admin.has_domain at 1.
        rewrite (proj2 (String.eqb_neq _ _) Hne). exact IH.
Qed.

(** What [bulkDeleteDomains] does when the store serves it. *)
Lemma bulkDeleteDomains_served
      (env : Admin.Env) (domains : list string) (st : VerifyEmail.State) :
  VerifyEmail.cachedDb st || negb (Admin.connect_fails env) = true ->
  Admin.write_fails env = false ->
  domains <> [] ->
  let l := VerifyEmail.allowed_domains st in
  let lowered := List.map toLowerCase domains in
  let n := Mongo.count (Admin.in_domains lowered) l in
  Admin.bulkDeleteDomains env domains st
  = (Ok (if (n =? 0)%nat
         then Admin.Plain false "No domains were deleted"
         else Admin.Deleted
                (toString (N.of_nat n) ++ " domain" ++ Admin.plural n
                 ++ " deleted successfully") n),
     VerifyEmail.mkState true (VerifyEmail.emails st)
       (List.filter (fun r => negb (Admin.in_domains lowered r)) l)
       (VerifyEmail.journal st)).
Proof.
  intros Hc Hw Hne. cbv zeta.
  destruct domains as [|d0 ds]; [congruence|].
  set (domains := d0 :: ds) in *.
  unfold Admin.bulkDeleteDomains. fold domains.
  change (match domains with [] => _ | _ :: _ => ?b end) with b.
  unfold_admin. rewrite Hw.
  destruct st as [cached em l j].
  cbn [VerifyEmail.cachedDb VerifyEmail.allowed_domains VerifyEmail.emails
       VerifyEmail.journal] in *.
  destruct cached, (Admin.connect_fails env); simpl in Hc;
    try discriminate;
    cbn [fst snd VerifyEmail.cachedDb VerifyEmail.allowed_domains
         VerifyEmail.emails VerifyEmail.journal];
    destruct (Mongo.count (Admin.in_domains (List.map toLowerCase domains)) l
              =? 0)%nat; reflexivity.
Qed.

(** X23. [bulkDeleteDomains] removes every record of every listed domain,
    in any spelling of its letters' case, and no other record: afterwards
    none of the listed domains is allowed, the records of the other domains
    are as before, and the count it reports is the number of records that
    are gone. *)
Theorem bulkDeleteDomains_removes_all_records
        (env : Admin.Env) (genv : VerifyEmail.Env) (domains : list string)
        (st : VerifyEmail.State) :
  VerifyEmail.cachedDb st || negb (Admin.connect_fails env) = true ->
  Admin.write_fails env = false ->
  domains <> [] ->
  let l := VerifyEmail.allowed_domains st in
  let out := Admin.bulkDeleteDomains env domains st in
  let l' := VerifyEmail.allowed_domains (snd out) in
  (forall d, In d domains ->
             Mongo.count (Admin.has_domain (toLowerCase d)) l' = 0%nat
             /\ fst (VerifyEmail.isDomainAllowed genv d (snd out)) = Ok false)
  /\ (forall x, ~ In x (List.map toLowerCase domains) ->
                List.filter (Admin.has_domain x) l'
                = List.filter (Admin.has_domain x) l)
  /\ exists r,
       fst out = Ok r
       /\ (List.length l'
           + match r with Admin.Deleted _ n => n | _ => 0 end
           = List.length l)%nat
       /\ Admin.success r = negb (List.length l' =? List.length l)%nat.
Proof.
  intros Hc Hw Hne. cbv zeta.
  rewrite (bulkDeleteDomains_served env domains st Hc Hw Hne).
  cbn [fst snd VerifyEmail.allowed_domains].
  set (lowered := List.map toLowerCase domains).
  set (l := VerifyEmail.allowed_domains st).
  split; [|split].
  - intros d Hd.
    assert (Hm : Admin.mem (toLowerCase d) lowered = true)
      by (apply mem_In; now apply List.in_map).
    assert (H0 : Mongo.count (Admin.has_domain (toLowerCase d))
                   (List.filter (fun r => negb (Admin.in_domains lowered r)) l)
                 = 0%nat).
    { unfold Mongo.count.
      now rewrite filter_has_domain_after_deleteMany, Hm. }
    split; [exact H0|].
    rewrite isDomainAllowed_answer.
    cbn [VerifyEmail.allowed_domains].
    fold (Admin.has_domain (toLowerCase d)).
    now rewrite (count_zero_findOne _ _ H0), andb_false_r.
  - intros x Hx. rewrite filter_has_domain_after_deleteMany.
    destruct (Admin.mem x lowered) eqn:Em; [|reflexivity].
    apply mem_In in Em. contradiction.
  - pose proof (length_filter_split (Admin.in_domains lowered) l) as Hlen.
    destruct (Mongo.count (Admin.in_domains lowered) l) as [|n] eqn:En.
    + eexists. split; [reflexivity|]. cbn [Nat.eqb Admin.success].
      split; [lia|].
      symmetry. apply negb_false_iff, Nat.eqb_eq. lia.
    + eexists. split; [reflexivity|]. cbn [Nat.eqb Admin.success].
      split; [lia|].
      symmetry. apply negb_true_iff, Nat.eqb_neq. lia.
Qed.

Lemma bulkDeleteDomains_removes_all_records_witness :
  let env := Admin.mkEnv (fun _ => 9%Z) false false false in
  let st := VerifyEmail.mkState false []
              [VerifyEmail.mkDomainRecord "dup.org" 1 "up";
               VerifyEmail.mkDomainRecord "example.com" 2 "up";
               VerifyEmail.mkDomainRecord "dup.org" 3 "up"] [] in
  let domains := ["Dup.ORG"; "absent.net"] in
  let l := VerifyEmail.allowed_domains st in
  let out := Admin.bulkDeleteDomains env domains st in
  let l' := VerifyEmail.allowed_domains (snd out) in
  (forall d, In d domains ->
             Mongo.count (Admin.has_domain (toLowerCase d)) l' = 0%nat
             /\ fst (VerifyEmail.isDomainAllowed Sample.verify_env d (snd out))
                = Ok false)
  /\ (forall x, ~ In x (List.map toLowerCase domains) ->
                List.filter (Admin.has_domain x) l'
                = List.filter (Admin.has_domain x) l)
  /\ exists r,
       fst out = Ok r
       /\ (List.length l'
           + match r with Admin.Deleted _ n => n | _ => 0 end
           = List.length l)%nat
       /\ Admin.success r = negb (List.length l' =? List.length l)%nat.
Proof.
  apply (bulkDeleteDomains_removes_all_records
           (Admin.mkEnv (fun _ => 9%Z) false false false)
           Sample.verify_env ["Dup.ORG"; "absent.net"]
           (VerifyEmail.mkState false []
              [VerifyEmail.mkDomainRecord "dup.org" 1 "up";
               VerifyEmail.mkDomainRecord "example.com" 2 "up";
               VerifyEmail.mkDomainRecord "dup.org" 3 "up"] [])).
  - reflexivity.
  - reflexivity.
  - discriminate.
Defined.

(** X24. With the allowlist in lower case, which is how the
    administration functions store it, the gate is membership up to the
    case of letters: when the store serves the lookup, a domain is allowed
    exactly when some record equals it after lowercasing both. *)
Theorem gate_is_case_insensitive_membership
        (env : VerifyEmail.Env) (d : string) (st : VerifyEmail.State) :
  Allowlist.lowercase (VerifyEmail.allowed_domains st) ->
  VerifyEmail.cachedDb st || negb (VerifyEmail.gate_connect_fails env) = true ->
  VerifyEmail.gate_find_fails env = false ->
  fst (VerifyEmail.isDomainAllowed env d st) = Ok true
  <-> exists r, In r (VerifyEmail.allowed_domains st)
                /\ toLowerCase (VerifyEmail.allowed_domain r) = toLowerCase d.
Proof.
  intros Hlow Hc Hf. rewrite isDomainAllowed_answer, Hc, Hf.
  cbn [negb andb]. split.
  - destruct (Mongo.findOne _ _) as [r|] eqn:E; [|discriminate].
    intros _. apply List.find_some in E as [Hin Heq].
    apply String.eqb_eq in Heq. exists r. split; [exact Hin|].
    now rewrite Heq, toLowerCase_idempotent.
  - intros (r & Hin & Heq).
    destruct (Mongo.findOne _ _) as [r'|] eqn:E; [reflexivity|].
    pose proof (List.find_none _ _ E r Hin) as Hno. cbv beta in Hno.
    rewrite <- Heq, (Hlow r Hin), String.eqb_refl in Hno. discriminate.
Qed.

Lemma gate_is_case_insensitive_membership_witness :
  fst (VerifyEmail.isDomainAllowed Sample.verify_env "Example.COM"
                                   Sample.verify_state) = Ok true
  <-> exists r, In r (VerifyEmail.allowed_domains Sample.verify_state)
                /\ toLowerCase (VerifyEmail.allowed_domain r)
                   = toLowerCase "Example.COM".
Proof.
  apply (gate_is_case_insensitive_membership Sample.verify_env "Example.COM"
                                             Sample.verify_state).
  - intros r [<- | [<- | []]]; reflexivity.
  - reflexivity.
  - reflexivity.
Defined.

(* ================================================================== *)
(** ** The routes of the handler *)
(* ================================================================== *)

(** X25. Without the admin token nothing of the administration is served:
    every request to an admin route is answered with 401 and leaves the
    store as it is; the only other answers are those of [OPTIONS], of the
    email validation and 405, so that such a request never changes the
    allowlist and never removes a log entry. *)
Theorem unauthorized_request_changes_nothing
        (cfg : Admin.Config) (vcfg : VerifyEmail.Config) (env : Admin.Env)
        (venv : VerifyEmail.Env) (req : Admin.Request)
        (st : VerifyEmail.State) :
  Admin.isAdmin cfg req = false ->
  exists r st',
    Admin.handler cfg vcfg env venv req st = Admin.Replied r st'
    /\ VerifyEmail.allowed_domains st' = VerifyEmail.allowed_domains st
    /\ (exists new, VerifyEmail.emails st' = VerifyEmail.emails st ++ new)
    /\ (Routes.is_admin_route req = true ->
        Admin.method req <> "OPTIONS" ->
        r = Admin.JsonMessage 401 "Unauthorized" /\ st' = st)
    /\ (Routes.is_admin_route req = false ->
        (r = Admin.EndOk /\ st' = st)
        \/ (r = Admin.JsonMessage 405 "Method not allowed" /\ st' = st)
        \/ (r = Admin.Validation
                  (fst (VerifyEmail.handler vcfg venv (Admin.validation req) st))
            /\ st' = snd (VerifyEmail.handler vcfg venv
                                              (Admin.validation req) st))).
Proof.
  intros Hadmin.
  assert (Hsame : exists new : list VerifyEmail.EmailEntry,
             VerifyEmail.emails st = VerifyEmail.emails st ++ new)
    by (exists []; now rewrite List.app_nil_r).
  unfold Admin.handler, Routes.is_admin_route, Routes.admin_routes.
  cbn [List.existsb fst snd]. rewrite Hadmin. cbn [negb].
  destruct (String.eqb (Admin.method req) "OPTIONS") eqn:Eopt.
  { apply String.eqb_eq in Eopt. exists Admin.EndOk, st.
    repeat split; auto. intros; contradiction. }
  repeat match goal with
         | |- context [if Admin.route req ?m ?a then _ else _] =>
             destruct (Admin.route req m a) eqn:?;
             [ exists (Admin.JsonMessage 401 "Unauthorized"), st;
               cbn [orb]; rewrite ?orb_true_r;
               repeat split; auto; discriminate | ]
         end.
  cbn [orb].
  destruct (String.eqb (Admin.method req) "POST"
            && (negb (truthy (Admin.query_action req))
                || Admin.same (Admin.query_action req) "validate")).
  - pose proof (validate_keeps_allowlist vcfg venv (Admin.validation req) st)
      as Hdom.
    pose proof (validate_log_grows vcfg venv (Admin.validation req) st)
      as Hem.
    destruct (VerifyEmail.handler vcfg venv (Admin.validation req) st)
      as [v st'] eqn:Ev.
    exists (Admin.Validation v), st'. cbn [fst snd] in *.
    repeat split; auto; discriminate.
  - exists (Admin.JsonMessage 405 "Method not allowed"), st.
    repeat split; auto; discriminate.
Qed.

Lemma unauthorized_request_changes_nothing_witness :
  let cfg := Admin.mkConfig (Some "s3cret") in
  let req := Admin.mkRequest "POST" (Some "deletealldomains") (Some "guess")
               (Some (Admin.mkPayload (Some "password") Undefined None None
                                      (Str "bob@example.com")))
               (Some "curl/8") None (Some "10.0.0.1") in
  exists r st',
    Admin.handler cfg Sample.cfg
      (Admin.mkEnv (fun _ => 9%Z) false false false) Sample.verify_env req
      Sample.verify_state = Admin.Replied r st'
    /\ VerifyEmail.allowed_domains st'
       = VerifyEmail.allowed_domains Sample.verify_state
    /\ (exists new, VerifyEmail.emails st'
                    = VerifyEmail.emails Sample.verify_state ++ new)
    /\ (Routes.is_admin_route req = true ->
        Admin.method req <> "OPTIONS" ->
        r = Admin.JsonMessage 401 "Unauthorized" /\ st' = Sample.verify_state)
    /\ (Routes.is_admin_route req = false ->
        (r = Admin.EndOk /\ st' = Sample.verify_state)
        \/ (r = Admin.JsonMessage 405 "Method not allowed"
            /\ st' = Sample.verify_state)
        \/ (r = Admin.Validation
                  (fst (VerifyEmail.handler Sample.cfg Sample.verify_env
                          (Admin.validation req) Sample.verify_state))
            /\ st' = snd (VerifyEmail.handler Sample.cfg Sample.verify_env
                            (Admin.validation req) Sample.verify_state))).
Proof.
  apply (unauthorized_request_changes_nothing
           (Admin.mkConfig (Some "s3cret")) Sample.cfg
           (Admin.mkEnv (fun _ => 9%Z) false false false) Sample.verify_env
           (Admin.mkRequest "POST" (Some "deletealldomains") (Some "guess")
              (Some (Admin.mkPayload (Some "password") Undefined None None
                                     (Str "bob@example.com")))
              (Some "curl/8") None (Some "10.0.0.1"))
           Sample.verify_state).
  reflexivity.
Defined.

(* ================================================================== *)
(** ** The upload of a list of domains *)
(* ================================================================== *)

Lemma addDomain_total
      (env : Admin.Env) (d by_ : string) (st : VerifyEmail.State) :
  exists r, fst (Admin.addDomain env d by_ st) = Ok r.
Proof.
  unfold_admin.
  destruct (VerifyEmail.cachedDb st), (Admin.connect_fails env),
    (Admin.read_fails env), (Admin.write_fails env); simpl; eauto;
    destruct (Mongo.findOne _ _); simpl; eauto.
Qed.

(** [bulkAddDomains] never throws; when it reports added and skipped
    domains, they add up to the batch. *)
Lemma bulkAddDomains_total
      (env : Admin.Env) (ds : list string) (by_ : string)
      (st : VerifyEmail.State) :
  exists r,
    fst (Admin.bulkAddDomains env ds by_ st) = Ok r
    /\ match r with
       | Admin.BulkAdded _ a s => (a + s = List.length ds)%nat
       | Admin.Plain b _ => b = false
       | _ => False
       end.
Proof.
  destruct ds as [|d0 ds];
    [simpl; eexists; split; reflexivity|].
  set (domains := d0 :: ds).
  unfold Admin.bulkAddDomains. fold domains.
  change (match domains with [] => _ | _ :: _ => ?b end) with b.
  unfold_admin.
  destruct (VerifyEmail.cachedDb st), (Admin.connect_fails env),
    (Admin.read_fails env); cbn [fst snd];
    try solve [eexists; split; reflexivity];
    match goal with
    | |- context [match List.filter ?f domains with _ => _ end] =>
        pose proof (List.filter_length_le f domains) as Hle;
        destruct (List.filter f domains) as [|n0 ns] eqn:E
    end;
    cbn [fst snd];
    try solve [eexists; split; [reflexivity|cbn [List.length] in *; lia]];
    destruct (Admin.write_fails env); cbn [fst snd];
    try solve [eexists; split; reflexivity];
    (eexists; split; [reflexivity|]);
    rewrite length_domainsToInsert; cbn [List.length] in *; lia.
Qed.

Lemma classify_lengths (ds : list string) :
  (List.length (fst (Admin.classify ds))
   + List.length (snd (Admin.classify ds)) = List.length ds)%nat.
Proof.
  induction ds as [|d ds IH]; simpl; [reflexivity|].
  destruct (Admin.classify ds) as [v i]. simpl in IH.
  destruct (Admin.domainRegex_test _); simpl; lia.
Qed.

Lemma tally_accounting (d : string) (r : Admin.Result) (res : Admin.Results) :
  Admin.totalProcessed (Admin.tally d r res) = Admin.totalProcessed res
  /\ (Admin.added (Admin.tally d r res) + Admin.skipped (Admin.tally d r res)
      + Admin.failed (Admin.tally d r res)
      = S (Admin.added res + Admin.skipped res + Admin.failed res))%nat.
Proof.
  destruct r as [[|] m|m|m a s|m n]; simpl; split; lia.
Qed.

Lemma addEach_accounting
      (envs : nat -> Admin.Env) (by_ : string) (ds : list string) :
  forall (i : nat) (results : Admin.Results) (st : VerifyEmail.State),
  exists res,
    fst (Admin.addEach envs i by_ ds results st) = Ok res
    /\ Admin.totalProcessed res = Admin.totalProcessed results
    /\ (Admin.added res + Admin.skipped res + Admin.failed res
        = Admin.added results + Admin.skipped results + Admin.failed results
          + List.length ds)%nat.
Proof.
  induction ds as [|d ds IH]; intros i results st.
  - exists results. simpl. repeat split; lia.
  - cbn [Admin.addEach]. unfold VerifyEmail.bind at 1.
    destruct (addDomain_total (envs i) d by_ st) as [r Hr].
    destruct (Admin.addDomain (envs i) d by_ st) as [ar st1].
    simpl in Hr. subst ar.
    destruct (IH (S i) (Admin.tally d r results) st1)
      as (res & Hres & Htot & Hsum).
    destruct (tally_accounting d r results) as [Ht Hs].
    exists res. cbn [List.length]. repeat split; [exact Hres|congruence|lia].
Qed.

(** X26. [processDomainTextContent] never throws and accounts for every
    line that is not blank: the numbers of added, skipped and failed
    domains add up to the number of lines processed, whether the batch
    insertion works or the function falls back to adding one by one, and
    whatever fails in the store. *)
Theorem processDomainTextContent_accounts_for_every_line
        (bulk_env : Admin.Env) (envs : nat -> Admin.Env)
        (content by_ : string) (st : VerifyEmail.State) :
  exists res,
    fst (Admin.processDomainTextContent bulk_env envs content by_ st) = Ok res
    /\ Admin.totalProcessed res
       = List.length (List.filter Admin.nonblank (Text.split_lines content))
    /\ (Admin.added res + Admin.skipped res + Admin.failed res
        = Admin.totalProcessed res)%nat.
Proof.
  unfold Admin.processDomainTextContent.
  set (domains := List.filter Admin.nonblank (Text.split_lines content)).
  pose proof (classify_lengths domains) as Hlen.
  destruct (Admin.classify domains) as [valid invalid]. cbn [fst snd] in Hlen.
  destruct valid as [|v0 vs].
  - eexists. split; [reflexivity|]. cbn in *. split; lia.
  - set (valid := v0 :: vs) in *.
    unfold VerifyEmail.bind at 1.
    destruct (bulkAddDomains_total bulk_env valid by_ st) as (r & Hr & Hshape).
    destruct (Admin.bulkAddDomains bulk_env valid by_ st) as [br st1].
    simpl in Hr. subst br.
    destruct r as [[|] m|m|m a s|m n]; try contradiction; try discriminate.
    + destruct (addEach_accounting envs by_ valid 0
                  (Admin.mkResults (List.length domains) 0 0
                                   (List.length invalid) invalid) st1)
        as (res & Hres & Htot & Hsum).
      exists res. cbn in *. repeat split; [exact Hres|exact Htot|lia].
    + eexists. split; [reflexivity|]. cbn in *. split; lia.
Qed.

(* ================================================================== *)
(** ** What every route keeps of the allowlist *)
(* ================================================================== *)

Lemma shrunk_refl (l : list VerifyEmail.DomainRecord) : Allowlist.shrunk l l.
Proof. split; auto. Qed.

Lemma shrunk_kept (l l' : list VerifyEmail.DomainRecord) :
  Allowlist.shrunk l l' -> Allowlist.kept l l'.
Proof.
  intros [Hin Hcount]. repeat split.
  - intros H r Hr. apply H. now apply Hin.
  - intros H r Hr. apply H. now apply Hin.
  - intros H x. specialize (H x). specialize (Hcount x). lia.
Qed.

Lemma deleteOne_In {A} (q : A -> bool) (l : list A) (x : A) :
  In x (Mongo.deleteOne q l) -> In x l.
Proof.
  induction l as [|a l IH]; simpl; [auto|].
  destruct (q a); simpl; intuition.
Qed.

Lemma shrunk_deleteOne (q : VerifyEmail.DomainRecord -> bool)
      (l : list VerifyEmail.DomainRecord) :
  Allowlist.shrunk l (Mongo.deleteOne q l).
Proof.
  split.
  - intros r. apply deleteOne_In.
  - intros x. apply count_deleteOne_le.
Qed.

Lemma shrunk_filter (keep : VerifyEmail.DomainRecord -> bool)
      (l : list VerifyEmail.DomainRecord) :
  Allowlist.shrunk l (List.filter keep l).
Proof.
  split.
  - intros r Hr. now apply List.filter_In in Hr.
  - intros x. apply count_filter_le.
Qed.

Lemma shrunk_nil (l : list VerifyEmail.DomainRecord) : Allowlist.shrunk l [].
Proof.
  split; [intros r []|]. intros x. unfold Mongo.count. simpl. lia.
Qed.

(** The deleting functions only remove records, whatever fails. *)
Lemma deleting_functions_shrink
      (env : Admin.Env) (d : string) (ds : list string)
      (st : VerifyEmail.State) :
  let l := VerifyEmail.allowed_domains st in
  Allowlist.shrunk l
    (VerifyEmail.allowed_domains (snd (Admin.deleteDomain env d st)))
  /\ Allowlist.shrunk l
       (VerifyEmail.allowed_domains (snd (Admin.bulkDeleteDomains env ds st)))
  /\ Allowlist.shrunk l
       (VerifyEmail.allowed_domains (snd (Admin.removeAllDomains env st)))
  /\ VerifyEmail.allowed_domains (snd (Admin.removeAllEmails env st)) = l.
Proof.
  cbv zeta. destruct st as [cached em l j].
  cbn [VerifyEmail.allowed_domains].
  split; [|split; [|split]].
  - unfold_admin.
    destruct cached, (Admin.connect_fails env), (Admin.write_fails env);
      simpl; try apply shrunk_refl;
      destruct (Mongo.findOne _ l); simpl; apply shrunk_deleteOne.
  - unfold_admin.
    destruct cached, (Admin.connect_fails env), ds as [|d0 ds];
      simpl; try apply shrunk_refl;
      destruct (Admin.write_fails env); simpl; try apply shrunk_refl;
      match goal with
      | |- context [Nat.eqb ?n 0] => destruct (Nat.eqb n 0)
      end; simpl; apply shrunk_filter.
  - unfold_admin.
    destruct cached, (Admin.connect_fails env), (Admin.read_fails env);
      simpl; try apply shrunk_refl;
      destruct (List.length l =? 0)%nat; simpl; try apply shrunk_refl;
      destruct (Admin.write_fails env); simpl;
      try apply shrunk_refl; apply shrunk_nil.
  - unfold_admin.
    destruct cached, (Admin.connect_fails env), (Admin.read_fails env);
      simpl; try reflexivity;
      destruct (List.length em =? 0)%nat; simpl; try reflexivity;
      destruct (Admin.write_fails env); reflexivity.
Qed.

Lemma answer_state
      (status : Admin.Result -> nat) (on_error : Admin.Reply)
      (m : VerifyEmail.M Admin.Result) (st st' : VerifyEmail.State)
      (r : Admin.Reply) :
  Admin.answer status on_error m st = Admin.Replied r st' ->
  st' = snd (m st).
Proof.
  unfold Admin.answer. destruct (m st) as [[a|] s]; intros H;
    injection H as _ <-; reflexivity.
Qed.

Lemma kept_refl (l : list VerifyEmail.DomainRecord) : Allowlist.kept l l.
Proof. repeat split; auto. Qed.

Lemma kept_trans (l1 l2 l3 : list VerifyEmail.DomainRecord) :
  Allowlist.kept l1 l2 -> Allowlist.kept l2 l3 -> Allowlist.kept l1 l3.
Proof.
  intros (A1 & A2 & A3) (B1 & B2 & B3). repeat split; auto.
Qed.

Lemma delete_other_allowlist
      (env : Admin.Env) (m : string) (st : VerifyEmail.State) :
  VerifyEmail.allowed_domains (snd (Admin.delete_other env m st))
  = VerifyEmail.allowed_domains st.
Proof.
  unfold Admin.delete_other, VerifyEmail.throw. unfold_admin.
  destruct (VerifyEmail.cachedDb st), (Admin.connect_fails env); reflexivity.
Qed.

(** One request, served to its end, keeps what the allowlist had. *)
Lemma handler_keeps_allowlist
      (cfg : Admin.Config) (vcfg : VerifyEmail.Config) (env : Admin.Env)
      (venv : VerifyEmail.Env) (req : Admin.Request)
      (st st' : VerifyEmail.State) (r : Admin.Reply) :
  Admin.handler cfg vcfg env venv req st = Admin.Replied r st' ->
  Allowlist.kept (VerifyEmail.allowed_domains st)
                 (VerifyEmail.allowed_domains st').
Proof.
  unfold Admin.handler.
  destruct (String.eqb (Admin.method req) "OPTIONS");
    [intros H; injection H as _ <-; apply kept_refl|].
  repeat match goal with
         | |- context [if Admin.route req ?m ?a then _ else _] =>
             destruct (Admin.route req m a);
             [ destruct (negb (Admin.isAdmin cfg req));
               [intros H; injection H as _ <-; apply kept_refl|] | ]
         end; try discriminate.
  - (* adddomain *)
    cbv zeta.
    destruct (Admin.body req) as [b|];
      [|intros H; injection H as _ <-; apply kept_refl].
    destruct (Admin.domain b) as [|[|c s]|[|] x];
      try (intros H; injection H as _ <-; apply kept_refl).
    destruct (Admin.domainRegex_test (toLowerCase (String c s))) eqn:Hre;
      cbn [negb]; [|intros H; injection H as _ <-; apply kept_refl].
    intros H. apply answer_state in H. subst st'.
    destruct (addDomain_allowlist env (String c s)
                (or_default (Admin.addedBy b) "admin") st)
      as [-> | [Hnone ->]]; [apply kept_refl|].
    destruct (append_absent_domain (VerifyEmail.allowed_domains st)
                (String c s) (Admin.new_Date env 0)
                (or_default (Admin.addedBy b) "admin") Hnone)
      as (Hu & Hl & Hv).
    repeat split; auto.
  - (* deletedomain *)
    cbv zeta.
    destruct (Admin.body req) as [b|];
      [|intros H; injection H as _ <-; apply kept_refl].
    destruct (Admin.domain b) as [|[|c s]|[|] x];
      try (intros H; injection H as _ <-; apply kept_refl).
    + intros H. apply answer_state in H. subst st'.
      apply shrunk_kept, (deleting_functions_shrink env (String c s) [] st).
    + intros H. apply answer_state in H. subst st'.
      rewrite delete_other_allowlist. apply kept_refl.
  - (* bulkdeletedomain *)
    cbv zeta.
    destruct (Admin.body req) as [b|];
      [|intros H; injection H as _ <-; apply kept_refl].
    destruct (Admin.domains b) as [[|v vs]|];
      try (intros H; injection H as _ <-; apply kept_refl).
    destruct (Admin.strings (v :: vs)) as [ds|].
    + intros H. apply answer_state in H. subst st'.
      apply shrunk_kept, (deleting_functions_shrink env EmptyString ds st).
    + intros H. apply answer_state in H. subst st'.
      rewrite delete_other_allowlist. apply kept_refl.
  - (* deletealldomains *)
    intros H. apply answer_state in H. subst st'.
    apply shrunk_kept, (deleting_functions_shrink env EmptyString [] st).
  - (* deleteallemails *)
    intros H. apply answer_state in H. subst st'.
    destruct (deleting_functions_shrink env EmptyString [] st)
      as (_ & _ & _ & ->).
    apply kept_refl.
  - (* validation and 405 *)
    destruct (String.eqb (Admin.method req) "POST" && _).
    + pose proof (validate_keeps_allowlist vcfg venv (Admin.validation req) st)
        as Hk.
      destruct (VerifyEmail.handler vcfg venv (Admin.validation req) st)
        as [v s1].
      intros H. injection H as _ <-. cbn [snd] in Hk. rewrite Hk.
      apply kept_refl.
    + intros H. injection H as _ <-. apply kept_refl.
Qed.

(** X27. Served one at a time, each to its end before the next one
    starts, the requests that the routes answer keep the allowlist in lower
    case, within the domain pattern and free of duplicates, whatever the
    requests and whatever fails in the store: the single additions test the
    domain before they store it and store it only when no record holds it,
    the deletions only remove, and the validation does not touch the
    allowlist.  (The upload, which adds in batches, is not among these
    routes; and requests in flight at once are not covered: two additions
    of one domain can then both insert.) *)
Theorem routes_keep_allowlist_clean
        (cfg : Admin.Config) (vcfg : VerifyEmail.Config)
        (reqs : list (Admin.Env * VerifyEmail.Env * Admin.Request))
        (st st' : VerifyEmail.State) :
  Admin.serve_all cfg vcfg reqs st = Some st' ->
  Allowlist.kept (VerifyEmail.allowed_domains st)
                 (VerifyEmail.allowed_domains st').
Proof.
  revert st. induction reqs as [|[[env venv] req] reqs IH]; intros st.
  - intros H. injection H as <-. apply kept_refl.
  - cbn [Admin.serve_all].
    destruct (Admin.handler cfg vcfg env venv req st) as [r st1|] eqn:E;
      [|discriminate].
    intros H. apply (kept_trans _ (VerifyEmail.allowed_domains st1)).
    + exact (handler_keeps_allowlist cfg vcfg env venv req st st1 r E).
    + now apply IH.
Qed.

Lemma routes_keep_allowlist_clean_witness :
  Allowlist.kept
    (VerifyEmail.allowed_domains Sample.verify_state)
    (VerifyEmail.allowed_domains
       (VerifyEmail.mkState true []
          (Sample.allowlist
           ++ [VerifyEmail.mkDomainRecord "new.example.org" 9 "admin"])
          [VerifyEmail.OpFindDomain "new.example.org";
           VerifyEmail.OpFindDomain "new.example.org"])).
Proof.
  apply (routes_keep_allowlist_clean (Admin.mkConfig None) Sample.cfg
           [(Admin.mkEnv (fun _ => 9%Z) false false false, Sample.verify_env,
             Admin.mkRequest "POST" (Some "adddomain") (Some "admin123")
               (Some (Admin.mkPayload None (Str "New.Example.ORG") None None
                                      Undefined))
               None None None);
            (Admin.mkEnv (fun _ => 9%Z) false false false, Sample.verify_env,
             Admin.mkRequest "POST" (Some "adddomain") (Some "admin123")
               (Some (Admin.mkPayload None (Str "new.example.org") None None
                                      Undefined))
               None None None)]
           Sample.verify_state).
  reflexivity.
Defined.

Lemma classify_valid (ds : list string) (d : string) :
  In d (fst (Admin.classify ds)) ->
  Admin.domainRegex_test d = true /\ toLowerCase d = d.
Proof.
  induction ds as [|x ds IH]; simpl; [intros []|].
  destruct (Admin.classify ds) as [v i]. cbn [fst] in IH.
  destruct (Admin.domainRegex_test (toLowerCase (Text.trim x))) eqn:E;
    cbn [fst]; [|exact IH].
  intros [<- | Hd]; [|now apply IH].
  split; [exact E|apply toLowerCase_idempotent].
Qed.

Lemma domainsToInsert_In
      (env : Admin.Env) (by_ : string) (ds : list string) (i : nat)
      (r : VerifyEmail.DomainRecord) :
  In r (Admin.domainsToInsert env by_ i ds) ->
  exists d, In d ds /\ VerifyEmail.allowed_domain r = toLowerCase d.
Proof.
  revert i. induction ds as [|d ds IH]; intros i; simpl; [intros []|].
  intros [<- | Hr].
  - exists d. auto.
  - destruct (IH _ Hr) as (d' & Hd' & E). exists d'. auto.
Qed.

(** The records after [bulkAddDomains], whatever fails: those before, and
    records for lowercased domains of the batch. *)
Lemma bulkAddDomains_allowlist
      (env : Admin.Env) (ds : list string) (by_ : string)
      (st : VerifyEmail.State) (r : VerifyEmail.DomainRecord) :
  In r (VerifyEmail.allowed_domains (snd (Admin.bulkAddDomains env ds by_ st))) ->
  In r (VerifyEmail.allowed_domains st)
  \/ exists d, In d ds /\ VerifyEmail.allowed_domain r = toLowerCase d.
Proof.
  destruct ds as [|d0 ds]; [simpl; auto|].
  set (domains := d0 :: ds).
  unfold Admin.bulkAddDomains. fold domains.
  change (match domains with [] => _ | _ :: _ => ?b end) with b.
  unfold_admin. destruct st as [cached em l j].
  cbn [VerifyEmail.cachedDb VerifyEmail.allowed_domains VerifyEmail.emails
       VerifyEmail.journal].
  destruct cached, (Admin.connect_fails env), (Admin.read_fails env);
    cbn [fst snd VerifyEmail.allowed_domains]; auto;
    match goal with
    | |- context [match List.filter ?f domains with _ => _ end] =>
        pose proof (fun d => proj1 (List.filter_In f d domains)) as Hsub;
        destruct (List.filter f domains) as [|n0 ns]
    end;
    cbn [fst snd VerifyEmail.allowed_domains]; auto;
    destruct (Admin.write_fails env);
    cbn [fst snd VerifyEmail.allowed_domains]; auto;
    intros Hr; apply List.in_app_or in Hr as [Hr | Hr]; auto;
    right; apply domainsToInsert_In in Hr as (d & Hd & E);
    exists d; (split; [now apply Hsub|exact E]).
Qed.

Lemma addEach_allowlist
      (envs : nat -> Admin.Env) (by_ : string) (ds : list string)
      (r : VerifyEmail.DomainRecord) :
  forall (i : nat) (results : Admin.Results) (st : VerifyEmail.State),
    In r (VerifyEmail.allowed_domains
            (snd (Admin.addEach envs i by_ ds results st))) ->
    In r (VerifyEmail.allowed_domains st)
    \/ exists d, In d ds /\ VerifyEmail.allowed_domain r = toLowerCase d.
Proof.
  induction ds as [|d ds IH]; intros i results st; [simpl; auto|].
  cbn [Admin.addEach]. unfold VerifyEmail.bind at 1.
  destruct (addDomain_total (envs i) d by_ st) as [a Ha].
  pose proof (addDomain_allowlist (envs i) d by_ st) as Hl. cbv zeta in Hl.
  destruct (Admin.addDomain (envs i) d by_ st) as [ar st1].
  cbn [fst snd] in *. subst ar.
  intros Hr. apply IH in Hr as [Hr | (d' & Hd' & E)].
  - destruct Hl as [Hl | [_ Hl]]; rewrite Hl in Hr; [auto|].
    apply List.in_app_or in Hr as [Hr | [<- | []]]; [auto|].
    right. exists d. simpl. auto.
  - right. exists d'. simpl. auto.
Qed.

(** X28. The upload stores nothing but checked domains: whatever the text
    and whatever fails in the store, every record that
    [processDomainTextContent] adds holds a trimmed, lowercased line that
    matches the domain pattern, so that an allowlist in lower case and
    within the pattern stays so. *)
Theorem processDomainTextContent_stores_checked_domains
        (bulk_env : Admin.Env) (envs : nat -> Admin.Env)
        (content by_ : string) (st : VerifyEmail.State) :
  let l := VerifyEmail.allowed_domains st in
  let l' := VerifyEmail.allowed_domains
              (snd (Admin.processDomainTextContent bulk_env envs content
                                                   by_ st)) in
  (forall r, In r l' ->
             In r l
             \/ (Admin.domainRegex_test (VerifyEmail.allowed_domain r) = true
                 /\ exists line,
                      In line (Text.split_lines content)
                      /\ VerifyEmail.allowed_domain r
                         = toLowerCase (Text.trim line)))
  /\ (Allowlist.lowercase l -> Allowlist.lowercase l')
  /\ (Allowlist.valid l -> Allowlist.valid l').
Proof.
  cbv zeta.
  assert (Hmain :
    forall r,
      In r (VerifyEmail.allowed_domains
              (snd (Admin.processDomainTextContent bulk_env envs content
                                                   by_ st))) ->
      In r (VerifyEmail.allowed_domains st)
      \/ exists d,
           In d (fst (Admin.classify
                        (List.filter Admin.nonblank
                                     (Text.split_lines content))))
           /\ VerifyEmail.allowed_domain r = toLowerCase d).
  { intros r. unfold Admin.processDomainTextContent.
    destruct (Admin.classify
                (List.filter Admin.nonblank (Text.split_lines content)))
      as [valid invalid]. cbn [fst].
    destruct valid as [|v0 vs]; [simpl; auto|].
    set (valid := v0 :: vs).
    unfold VerifyEmail.bind at 1.
    pose proof (bulkAddDomains_allowlist bulk_env valid by_ st) as Hb.
    destruct (bulkAddDomains_total bulk_env valid by_ st) as (b & Hr & _).
    destruct (Admin.bulkAddDomains bulk_env valid by_ st) as [br st1].
    cbn [fst snd] in *. subst br.
    destruct b as [[|] m|m|m a s|m n]; cbn [snd VerifyEmail.ret];
      try (intros Hin; now apply Hb).
    intros Hin. apply addEach_allowlist in Hin as [Hin | Hin]; [|auto].
    now apply Hb. }
  assert (Hline : forall d,
             In d (fst (Admin.classify
                          (List.filter Admin.nonblank
                                       (Text.split_lines content)))) ->
             exists line, In line (Text.split_lines content)
                          /\ d = toLowerCase (Text.trim line)).
  { generalize (Text.split_lines content). intros ls.
    induction ls as [|x ls IH]; simpl; [intros d []|].
    destruct (Admin.nonblank x).
    - simpl. destruct (Admin.classify (List.filter Admin.nonblank ls))
        as [v i]. cbn [fst] in *.
      destruct (Admin.domainRegex_test _); cbn [fst].
      + intros d [<- | Hd]; [eauto|].
        destruct (IH d Hd) as (line & Hl & E). eauto.
      + intros d Hd. destruct (IH d Hd) as (line & Hl & E). eauto.
    - intros d Hd. destruct (IH d Hd) as (line & Hl & E). eauto. }
  split; [|split].
  - intros r Hr. apply Hmain in Hr as [Hr | (d & Hd & E)]; [auto|].
    right. destruct (classify_valid _ d Hd) as [Hre Hlow].
    rewrite E, Hlow. split; [exact Hre|].
    destruct (Hline d Hd) as (line & Hl & ->). eauto.
  - intros Hl r Hr. apply Hmain in Hr as [Hr | (d & Hd & E)]; [auto|].
    rewrite E. apply toLowerCase_idempotent.
  - intros Hv r Hr. apply Hmain in Hr as [Hr | (d & Hd & E)]; [auto|].
    destruct (classify_valid _ d Hd) as [Hre Hlow].
    now rewrite E, Hlow.
Qed.

(** X29. Deleting all domains closes the gate: once [removeAllDomains] has
    been served, the allowlist is empty, the function has reported the
    number of records it removed (or that there was none), the email log is
    as before, and no email is accepted by the validation route. *)
Theorem removeAllDomains_closes_gate
        (env : Admin.Env) (st : VerifyEmail.State)
        (vcfg : VerifyEmail.Config) (venv : VerifyEmail.Env)
        (vreq : VerifyEmail.Request) (body : VerifyEmail.Body) :
  Allowlist.served env st ->
  let n := List.length (VerifyEmail.allowed_domains st) in
  let out := Admin.removeAllDomains env st in
  fst out
  = Ok (if (n =? 0)%nat
        then Admin.Plain false "No domains to delete"
        else Admin.Deleted
               ("All domains deleted successfully ("
                ++ toString (N.of_nat n) ++ " total)") n)
  /\ VerifyEmail.allowed_domains (snd out) = []
  /\ VerifyEmail.emails (snd out) = VerifyEmail.emails st
  /\ fst (VerifyEmail.handler vcfg venv vreq (snd out))
     <> VerifyEmail.Json 200 body.
Proof.
  intros (Hc & Hr & Hw). cbv zeta.
  assert (Hout :
    Admin.removeAllDomains env st
    = (Ok (if (List.length (VerifyEmail.allowed_domains st) =? 0)%nat
           then Admin.Plain false "No domains to delete"
           else Admin.Deleted
                  ("All domains deleted successfully ("
                   ++ toString (N.of_nat
                        (List.length (VerifyEmail.allowed_domains st)))
                   ++ " total)")
                  (List.length (VerifyEmail.allowed_domains st))),
       VerifyEmail.mkState true (VerifyEmail.emails st) []
                           (VerifyEmail.journal st))).
  { unfold_admin. rewrite Hr, Hw. destruct st as [cached em l j].
    cbn [VerifyEmail.cachedDb VerifyEmail.allowed_domains VerifyEmail.emails
         VerifyEmail.journal] in *.
    destruct cached, (Admin.connect_fails env); simpl in Hc;
      try discriminate; destruct l; reflexivity. }
  rewrite Hout. cbn [fst snd VerifyEmail.allowed_domains VerifyEmail.emails].
  repeat split.
  set (st1 := VerifyEmail.mkState true (VerifyEmail.emails st) []
                                  (VerifyEmail.journal st)).
  destruct (VerifyEmail.body_email vreq) as [e|] eqn:Hbody.
  - destruct (VerifyEmail.emailRegex_test e) eqn:Hre.
    + rewrite (validate_rejected vcfg venv vreq st1 e Hbody Hre eq_refl).
      discriminate.
    + apply validate_never_200. intros e' He'. congruence.
  - apply validate_never_200. intros e' He'. congruence.
Qed.

Lemma removeAllDomains_closes_gate_witness :
  let env := Admin.mkEnv (fun _ => 9%Z) false false false in
  let n := List.length (VerifyEmail.allowed_domains Sample.verify_state) in
  let out := Admin.removeAllDomains env Sample.verify_state in
  fst out
  = Ok (if (n =? 0)%nat
        then Admin.Plain false "No domains to delete"
        else Admin.Deleted
               ("All domains deleted successfully ("
                ++ toString (N.of_nat n) ++ " total)") n)
  /\ VerifyEmail.allowed_domains (snd out) = []
  /\ VerifyEmail.emails (snd out) = VerifyEmail.emails Sample.verify_state
  /\ fst (VerifyEmail.handler Sample.cfg Sample.verify_env
            (Sample.request "bob@example.com") (snd out))
     <> VerifyEmail.Json 200
          (VerifyEmail.Validated "Email validated successfully"
             "https://example.example.net/x?e=bob@example.com").
Proof.
  apply (removeAllDomains_closes_gate
           (Admin.mkEnv (fun _ => 9%Z) false false false)
           Sample.verify_state Sample.cfg Sample.verify_env
           (Sample.request "bob@example.com")).
  repeat split; reflexivity.
Defined.

(* ================================================================== *)
(** ** The domain pattern *)
(* ================================================================== *)

Lemma dead_not_nullable (r : Regex.re) :
  Pattern.dead r = true -> Regex.nullable r = false.
Proof.
  induction r; simpl; intros H; try discriminate; auto.
  - apply orb_true_iff in H as [H | H];
      [rewrite (IHr1 H)|rewrite (IHr2 H), andb_false_r]; reflexivity.
  - apply andb_true_iff in H as [H1 H2].
    now rewrite (IHr1 H1), (IHr2 H2).
Qed.

Lemma dead_deriv (c : ascii) (r : Regex.re) :
  Pattern.dead r = true -> Pattern.dead (Regex.deriv c r) = true.
Proof.
  induction r; simpl; intros H; try discriminate; auto.
  - apply orb_true_iff in H as [H | H].
    + rewrite (dead_not_nullable _ H). simpl. now rewrite (IHr1 H).
    + destruct (Regex.nullable r1); simpl;
        rewrite H, ?(IHr2 H), ?orb_true_r; reflexivity.
  - apply andb_true_iff in H as [H1 H2].
    now rewrite (IHr1 H1), (IHr2 H2).
Qed.

Lemma dead_test (s : string) :
  forall r, Pattern.dead r = true -> Regex.test r s = false.
Proof.
  induction s as [|c s IH]; intros r H; simpl.
  - now apply dead_not_nullable.
  - apply IH. now apply dead_deriv.
Qed.

Lemma within_deriv (S : ascii -> bool) (c : ascii) (r : Regex.re) :
  Pattern.within S r -> Pattern.within S (Regex.deriv c r).
Proof.
  induction r; simpl; intros H; auto.
  - now destruct (p c).
  - destruct H as [H1 H2]. destruct (Regex.nullable r1); simpl; auto.
  - destruct H as [H1 H2]. auto.
Qed.

Lemma outside_deriv_dead (S : ascii -> bool) (c : ascii) (r : Regex.re) :
  Pattern.within S r -> S c = false ->
  Pattern.dead (Regex.deriv c r) = true.
Proof.
  intros H Hc. induction r; simpl in *; auto.
  - destruct (p c) eqn:E; [|reflexivity].
    rewrite (H c E) in Hc. discriminate.
  - destruct H as [H1 H2]. destruct (Regex.nullable r1); simpl;
      rewrite (IHr1 H1), ?(IHr2 H2); reflexivity.
  - destruct H as [H1 H2]. now rewrite (IHr1 H1), (IHr2 H2).
  - now rewrite (IHr H).
Qed.

(** A text that an expression matches holds only characters of its
    classes. *)
Lemma test_within (S : ascii -> bool) (s : string) :
  forall r, Pattern.within S r -> Regex.test r s = true ->
            Design.all_chars S s = true.
Proof.
  induction s as [|c s IH]; intros r Hr Ht; simpl in *; [reflexivity|].
  destruct (S c) eqn:Ec.
  - simpl. apply (IH (Regex.deriv c r)); [now apply within_deriv|exact Ht].
  - rewrite (dead_test s _ (outside_deriv_dead S c r Hr Ec)) in Ht.
    discriminate.
Qed.

Lemma domainRegex_within :
  Pattern.within Pattern.domain_char Admin.domainRegex.
Proof.
  simpl. repeat split; intros c H; unfold Pattern.domain_char;
    first [ rewrite H; reflexivity
          | rewrite H, orb_true_r; reflexivity
          | unfold Admin.alnum; rewrite H; reflexivity
          | unfold Admin.dash_or_dot, Admin.is_dot in *;
            rewrite H, !orb_true_r; reflexivity ].
Qed.

Lemma domain_char_lowercase (c : ascii) :
  Pattern.domain_char c = true ->
  lower_char c = c /\ VerifyEmail.not_space_or_at c = true.
Proof.
  destruct c as [[] [] [] [] [] [] [] []]; intros H;
    try discriminate H; split; reflexivity.
Qed.

(** X30. A text within the domain pattern holds only the letters a-z,
    digits, dashes and dots; so it is in lower case and holds neither white
    space nor an [@], and an allowlist within the pattern is in lower
    case. *)
Theorem domain_pattern_means_lowercase (d : string) :
  Admin.domainRegex_test d = true ->
  Design.all_chars Pattern.domain_char d = true
  /\ toLowerCase d = d
  /\ Design.all_chars VerifyEmail.not_space_or_at d = true.
Proof.
  intros H.
  assert (Hc : Design.all_chars Pattern.domain_char d = true)
    by (apply (test_within _ d Admin.domainRegex domainRegex_within H)).
  split; [exact Hc|]. clear H.
  induction d as [|c d IH]; simpl in *; [auto|].
  apply andb_true_iff in Hc as [Hc Hd].
  destruct (domain_char_lowercase c Hc) as [-> ->].
  destruct (IH Hd) as [-> ->]. auto.
Qed.

Lemma domain_pattern_means_lowercase_witness :
  Design.all_chars Pattern.domain_char "mail.acme-corp.co" = true
  /\ toLowerCase "mail.acme-corp.co" = "mail.acme-corp.co"
  /\ Design.all_chars VerifyEmail.not_space_or_at "mail.acme-corp.co" = true.
Proof.
  apply (domain_pattern_means_lowercase "mail.acme-corp.co").
  reflexivity.
Defined.

Example domainRegex_examples :
  List.map Admin.domainRegex_test
    ["example.com"; "mail.acme-corp.co"; "a.b.c.io";
     "Example.com"; "a..com"; "-a.com"; "a-.com"; "example.c"; "a.c0m";
     "localhost"; "a_b.com"; ""]
  = [true; true; true;
     false; false; false; false; false; false; false; false; false].
Proof. reflexivity. Qed.
